(** * gt-dashboard-builder: the customer analysis of [App.tsx]

    A shallow embedding of [performCustomerAnalysis] and of the helpers it
    closes over ([parseAmount], [parseNumber], [getEarPTA]), followed by the
    properties the specification states about them.

    Conventions of the embedding.
    - A JavaScript string is a [string] holding its UTF-8 bytes.  The source
      searches for, compares with and splits at literal text, which gives the
      same answers on UTF-8 bytes as on UTF-16 code units for well-formed
      text; [toUpperCase] works on the code points.
    - A JavaScript number that holds an amount, a PTA value, a threshold or a
      rate is an IEEE 754 binary64 value: [spec_float] with precision 53 and
      maximal exponent 1024.  Counters that only ever receive [++] are [nat]
      (exact in binary64 below 2^53).
    - A JavaScript object used as a dictionary is the association list of
      its own properties in creation order; [JsObject.entries] gives the
      enumeration order of [Object.keys] and [Object.values].  Such an
      object is made by an object literal, so it inherits the members of
      [Object.prototype]: [JsObject.read] is the lookup [o[k]] with them.
    - A [Date] is its time value in milliseconds of local civil time; [None]
      stands for an invalid date.  The offset between local time and UTC is
      not modelled.
    - React state is a record that the analysis transforms. *)

From Stdlib Require Import String Ascii List ZArith NArith Arith Bool Lia.
From Stdlib Require Import DecimalString Sorted Permutation.
From Stdlib Require Import Floats.SpecFloat.
Import ListNotations.

Local Open Scope string_scope.

(* ================================================================== *)
(** ** Host model: strings *)

Module JsString.

Definition code (c : ascii) : N := N_of_ascii c.

Definition isDigit (c : ascii) : bool :=
  (48 <=? code c)%N && (code c <=? 57)%N.

Definition digitValue (c : ascii) : Z := Z.of_N (code c) - 48.

(** [hay.includes(needle)] *)
Fixpoint includes (needle hay : string) : bool :=
  match hay with
  | EmptyString => String.prefix needle hay
  | String _ rest => String.prefix needle hay || includes needle rest
  end.

(** *** Upper case

    [s.toUpperCase()] replaces every code point of [s] by its uppercase
    mapping in the Unicode Character Database (here version 14.0): the
    simple mappings of UnicodeData.txt and the unconditional mappings of
    SpecialCasing.txt, which give more than one code point. *)

(** The simple mappings, by runs: [(lo, hi, step, up)] sends [lo] to [up],
    [lo + step] to [up + step], and so on up to [hi]. *)
Definition upperRuns : list (N * N * N * N) :=
  [
   (97, 122, 1, 65); (181, 181, 1, 924); (224, 246, 1, 192);
   (248, 254, 1, 216); (255, 255, 1, 376); (257, 303, 2, 256);
   (305, 305, 1, 73); (307, 311, 2, 306); (314, 328, 2, 313);
   (331, 375, 2, 330); (378, 382, 2, 377); (383, 383, 1, 83);
   (384, 384, 1, 579); (387, 389, 2, 386); (392, 392, 1, 391);
   (396, 396, 1, 395); (402, 402, 1, 401); (405, 405, 1, 502);
   (409, 409, 1, 408); (410, 410, 1, 573); (414, 414, 1, 544);
   (417, 421, 2, 416); (424, 424, 1, 423); (429, 429, 1, 428);
   (432, 432, 1, 431); (436, 438, 2, 435); (441, 441, 1, 440);
   (445, 445, 1, 444); (447, 447, 1, 503); (453, 453, 1, 452);
   (454, 454, 1, 452); (456, 456, 1, 455); (457, 457, 1, 455);
   (459, 459, 1, 458); (460, 460, 1, 458); (462, 476, 2, 461);
   (477, 477, 1, 398); (479, 495, 2, 478); (498, 498, 1, 497);
   (499, 499, 1, 497); (501, 501, 1, 500); (505, 543, 2, 504);
   (547, 563, 2, 546); (572, 572, 1, 571); (575, 576, 1, 11390);
   (578, 578, 1, 577); (583, 591, 2, 582); (592, 592, 1, 11375);
   (593, 593, 1, 11373); (594, 594, 1, 11376); (595, 595, 1, 385);
   (596, 596, 1, 390); (598, 599, 1, 393); (601, 601, 1, 399);
   (603, 603, 1, 400); (604, 604, 1, 42923); (608, 608, 1, 403);
   (609, 609, 1, 42924); (611, 611, 1, 404); (613, 613, 1, 42893);
   (614, 614, 1, 42922); (616, 616, 1, 407); (617, 617, 1, 406);
   (618, 618, 1, 42926); (619, 619, 1, 11362); (620, 620, 1, 42925);
   (623, 623, 1, 412); (625, 625, 1, 11374); (626, 626, 1, 413);
   (629, 629, 1, 415); (637, 637, 1, 11364); (640, 640, 1, 422);
   (642, 642, 1, 42949); (643, 643, 1, 425); (647, 647, 1, 42929);
   (648, 648, 1, 430); (649, 649, 1, 580); (650, 651, 1, 433);
   (652, 652, 1, 581); (658, 658, 1, 439); (669, 669, 1, 42930);
   (670, 670, 1, 42928); (837, 837, 1, 921); (881, 883, 2, 880);
   (887, 887, 1, 886); (891, 893, 1, 1021); (940, 940, 1, 902);
   (941, 943, 1, 904); (945, 961, 1, 913); (962, 962, 1, 931);
   (963, 971, 1, 931); (972, 972, 1, 908); (973, 974, 1, 910);
   (976, 976, 1, 914); (977, 977, 1, 920); (981, 981, 1, 934);
   (982, 982, 1, 928); (983, 983, 1, 975); (985, 1007, 2, 984);
   (1008, 1008, 1, 922); (1009, 1009, 1, 929); (1010, 1010, 1, 1017);
   (1011, 1011, 1, 895); (1013, 1013, 1, 917); (1016, 1016, 1, 1015);
   (1019, 1019, 1, 1018); (1072, 1103, 1, 1040); (1104, 1119, 1, 1024);
   (1121, 1153, 2, 1120); (1163, 1215, 2, 1162); (1218, 1230, 2, 1217);
   (1231, 1231, 1, 1216); (1233, 1327, 2, 1232); (1377, 1414, 1, 1329);
   (4304, 4346, 1, 7312); (4349, 4351, 1, 7357); (5112, 5117, 1, 5104);
   (7296, 7296, 1, 1042); (7297, 7297, 1, 1044); (7298, 7298, 1, 1054);
   (7299, 7300, 1, 1057); (7301, 7301, 1, 1058); (7302, 7302, 1, 1066);
   (7303, 7303, 1, 1122); (7304, 7304, 1, 42570); (7545, 7545, 1, 42877);
   (7549, 7549, 1, 11363); (7566, 7566, 1, 42950); (7681, 7829, 2, 7680);
   (7835, 7835, 1, 7776); (7841, 7935, 2, 7840); (7936, 7943, 1, 7944);
   (7952, 7957, 1, 7960); (7968, 7975, 1, 7976); (7984, 7991, 1, 7992);
   (8000, 8005, 1, 8008); (8017, 8023, 2, 8025); (8032, 8039, 1, 8040);
   (8048, 8049, 1, 8122); (8050, 8053, 1, 8136); (8054, 8055, 1, 8154);
   (8056, 8057, 1, 8184); (8058, 8059, 1, 8170); (8060, 8061, 1, 8186);
   (8112, 8113, 1, 8120); (8126, 8126, 1, 921); (8144, 8145, 1, 8152);
   (8160, 8161, 1, 8168); (8165, 8165, 1, 8172); (8526, 8526, 1, 8498);
   (8560, 8575, 1, 8544); (8580, 8580, 1, 8579); (9424, 9449, 1, 9398);
   (11312, 11359, 1, 11264); (11361, 11361, 1, 11360);
   (11365, 11365, 1, 570); (11366, 11366, 1, 574); (11368, 11372, 2, 11367);
   (11379, 11379, 1, 11378); (11382, 11382, 1, 11381);
   (11393, 11491, 2, 11392); (11500, 11502, 2, 11499);
   (11507, 11507, 1, 11506); (11520, 11557, 1, 4256);
   (11559, 11559, 1, 4295); (11565, 11565, 1, 4301);
   (42561, 42605, 2, 42560); (42625, 42651, 2, 42624);
   (42787, 42799, 2, 42786); (42803, 42863, 2, 42802);
   (42874, 42876, 2, 42873); (42879, 42887, 2, 42878);
   (42892, 42892, 1, 42891); (42897, 42899, 2, 42896);
   (42900, 42900, 1, 42948); (42903, 42921, 2, 42902);
   (42933, 42947, 2, 42932); (42952, 42954, 2, 42951);
   (42961, 42961, 1, 42960); (42967, 42969, 2, 42966);
   (42998, 42998, 1, 42997); (43859, 43859, 1, 42931);
   (43888, 43967, 1, 5024); (65345, 65370, 1, 65313);
   (66600, 66639, 1, 66560); (66776, 66811, 1, 66736);
   (66967, 66977, 1, 66928); (66979, 66993, 1, 66940);
   (66995, 67001, 1, 66956); (67003, 67004, 1, 66964);
   (68800, 68850, 1, 68736); (71872, 71903, 1, 71840);
   (93792, 93823, 1, 93760); (125218, 125251, 1, 125184)
  ]%N.

(** The mappings to more than one code point. *)
Definition upperSpecial : list (N * list N) :=
  [
   (223, [83; 83]); (329, [700; 78]); (496, [74; 780]);
   (912, [921; 776; 769]); (944, [933; 776; 769]); (1415, [1333; 1362]);
   (7830, [72; 817]); (7831, [84; 776]); (7832, [87; 778]);
   (7833, [89; 778]); (7834, [65; 702]); (8016, [933; 787]);
   (8018, [933; 787; 768]); (8020, [933; 787; 769]); (8022, [933; 787; 834]);
   (8064, [7944; 921]); (8065, [7945; 921]); (8066, [7946; 921]);
   (8067, [7947; 921]); (8068, [7948; 921]); (8069, [7949; 921]);
   (8070, [7950; 921]); (8071, [7951; 921]); (8072, [7944; 921]);
   (8073, [7945; 921]); (8074, [7946; 921]); (8075, [7947; 921]);
   (8076, [7948; 921]); (8077, [7949; 921]); (8078, [7950; 921]);
   (8079, [7951; 921]); (8080, [7976; 921]); (8081, [7977; 921]);
   (8082, [7978; 921]); (8083, [7979; 921]); (8084, [7980; 921]);
   (8085, [7981; 921]); (8086, [7982; 921]); (8087, [7983; 921]);
   (8088, [7976; 921]); (8089, [7977; 921]); (8090, [7978; 921]);
   (8091, [7979; 921]); (8092, [7980; 921]); (8093, [7981; 921]);
   (8094, [7982; 921]); (8095, [7983; 921]); (8096, [8040; 921]);
   (8097, [8041; 921]); (8098, [8042; 921]); (8099, [8043; 921]);
   (8100, [8044; 921]); (8101, [8045; 921]); (8102, [8046; 921]);
   (8103, [8047; 921]); (8104, [8040; 921]); (8105, [8041; 921]);
   (8106, [8042; 921]); (8107, [8043; 921]); (8108, [8044; 921]);
   (8109, [8045; 921]); (8110, [8046; 921]); (8111, [8047; 921]);
   (8114, [8122; 921]); (8115, [913; 921]); (8116, [902; 921]);
   (8118, [913; 834]); (8119, [913; 834; 921]); (8124, [913; 921]);
   (8130, [8138; 921]); (8131, [919; 921]); (8132, [905; 921]);
   (8134, [919; 834]); (8135, [919; 834; 921]); (8140, [919; 921]);
   (8146, [921; 776; 768]); (8147, [921; 776; 769]); (8150, [921; 834]);
   (8151, [921; 776; 834]); (8162, [933; 776; 768]); (8163, [933; 776; 769]);
   (8164, [929; 787]); (8166, [933; 834]); (8167, [933; 776; 834]);
   (8178, [8186; 921]); (8179, [937; 921]); (8180, [911; 921]);
   (8182, [937; 834]); (8183, [937; 834; 921]); (8188, [937; 921]);
   (64256, [70; 70]); (64257, [70; 73]); (64258, [70; 76]);
   (64259, [70; 70; 73]); (64260, [70; 70; 76]); (64261, [83; 84]);
   (64262, [83; 84]); (64275, [1348; 1350]); (64276, [1348; 1333]);
   (64277, [1348; 1339]); (64278, [1358; 1350]); (64279, [1348; 1341])
  ]%N.

Definition inRun (c : N) (run : N * N * N * N) : bool :=
  let '(lo, hi, step, _) := run in
  ((lo <=? c) && (c <=? hi) && ((c - lo) mod step =? 0))%N.

(** The uppercase mapping of one code point. *)
Definition upperOf (c : N) : list N :=
  match find (inRun c) upperRuns with
  | Some (lo, _, _, up) => [(up + (c - lo))%N]
  | None =>
      match find (fun e => (fst e =? c)%N) upperSpecial with
      | Some e => snd e
      | None => [c]
      end
  end.

(** The UTF-8 bytes of a code point. *)
Definition byte (n : N) : ascii := ascii_of_N n.

Definition utf8 (c : N) : string :=
  (if c <? 128 then String (byte c) EmptyString
   else if c <? 2048 then
     String (byte (192 + c / 64)) (String (byte (128 + c mod 64)) EmptyString)
   else if c <? 65536 then
     String (byte (224 + c / 4096))
       (String (byte (128 + (c / 64) mod 64))
          (String (byte (128 + c mod 64)) EmptyString))
   else
     String (byte (240 + c / 262144))
       (String (byte (128 + (c / 4096) mod 64))
          (String (byte (128 + (c / 64) mod 64))
             (String (byte (128 + c mod 64)) EmptyString))))%N.

Fixpoint utf8s (cs : list N) : string :=
  match cs with
  | [] => EmptyString
  | c :: rest => utf8 c ++ utf8s rest
  end.

(** A continuation byte, and its six bits. *)
Definition isCont (a : ascii) : bool :=
  ((128 <=? code a) && (code a <=? 191))%N.

Definition cont (a : ascii) : N := (code a - 128)%N.

(** [s.toUpperCase()]: the code points are read off the UTF-8 sequences of
    one to four bytes; a byte that begins no such sequence (there is none
    in well-formed text) is kept. *)
Fixpoint toUpperCase (s : string) : string :=
  match s with
  | EmptyString => EmptyString
  | String a r1 =>
      let x := code a in
      if (x <? 128)%N then utf8s (upperOf x) ++ toUpperCase r1
      else
        match r1 with
        | String b r2 =>
            if ((192 <=? x) && (x <=? 223))%N && isCont b
            then utf8s (upperOf ((x - 192) * 64 + cont b)%N) ++ toUpperCase r2
            else
              match r2 with
              | String c r3 =>
                  if ((224 <=? x) && (x <=? 239))%N && isCont b && isCont c
                  then utf8s (upperOf ((x - 224) * 4096 + cont b * 64 + cont c)%N)
                       ++ toUpperCase r3
                  else
                    match r3 with
                    | String d r4 =>
                        if ((240 <=? x) && (x <=? 244))%N
                           && isCont b && isCont c && isCont d
                        then utf8s (upperOf ((x - 240) * 262144 + cont b * 4096
                                             + cont c * 64 + cont d)%N)
                             ++ toUpperCase r4
                        else String a (toUpperCase r1)
                    | EmptyString => String a (toUpperCase r1)
                    end
              | EmptyString => String a (toUpperCase r1)
              end
        | EmptyString => String a EmptyString
        end
  end.

(** White space and line terminators of ECMAScript, as UTF-8 sequences:
    U+0009..U+000D and U+0020; U+00A0; U+1680, U+2000..U+200A, U+2028,
    U+2029, U+202F, U+205F, U+3000 and U+FEFF. *)
Definition ws1 (a : ascii) : bool :=
  ((9 <=? code a)%N && (code a <=? 13)%N) || (code a =? 32)%N.

Definition ws2 (a b : ascii) : bool :=
  (code a =? 194)%N && (code b =? 160)%N.

Definition ws3 (a b c : ascii) : bool :=
  let x := code a in let y := code b in let z := code c in
  ((x =? 225) && (y =? 154) && (z =? 128))%N
  || ((x =? 226)%N && (y =? 128)%N &&
      (((128 <=? z) && (z <=? 138)) || (z =? 168) || (z =? 169) || (z =? 175))%N)
  || ((x =? 226) && (y =? 129) && (z =? 159))%N
  || ((x =? 227) && (y =? 128) && (z =? 128))%N
  || ((x =? 239) && (y =? 187) && (z =? 191))%N.

Fixpoint trimStart (s : string) : string :=
  match s with
  | EmptyString => s
  | String a r1 =>
      if ws1 a then trimStart r1 else
      match r1 with
      | EmptyString => s
      | String b r2 =>
          if ws2 a b then trimStart r2 else
          match r2 with
          | EmptyString => s
          | String c r3 => if ws3 a b c then trimStart r3 else s
          end
      end
  end.

(** The same scan on the reversed bytes, for the end of the string. *)
Fixpoint trimStartRev (s : list ascii) : list ascii :=
  match s with
  | [] => s
  | a :: r1 =>
      if ws1 a then trimStartRev r1 else
      match r1 with
      | [] => s
      | b :: r2 =>
          if ws2 b a then trimStartRev r2 else
          match r2 with
          | [] => s
          | c :: r3 => if ws3 c b a then trimStartRev r3 else s
          end
      end
  end.

Definition trimEnd (s : string) : string :=
  string_of_list_ascii (rev (trimStartRev (rev (list_ascii_of_string s)))).

(** [s.trim()] *)
Definition trim (s : string) : string := trimEnd (trimStart s).

(** Truthiness of a string: only the empty string is falsy. *)
Definition truthy (s : string) : bool :=
  match s with EmptyString => false | _ => true end.

(** Truthiness of a possibly undefined string. *)
Definition truthyOpt (v : option string) : bool :=
  match v with Some s => truthy s | None => false end.

(** [v === lit] for a possibly undefined [v] *)
Definition strictEq (v : option string) (lit : string) : bool :=
  match v with Some s => String.eqb s lit | None => false end.

(** [a || b] on possibly undefined strings, [b] being a string. *)
Definition orElse (a : option string) (b : string) : string :=
  match a with
  | Some s => if truthy s then s else b
  | None => b
  end.

(** The longest run of decimal digits at the head of [s], and the rest. *)
Fixpoint spanDigits (s : string) : string * string :=
  match s with
  | EmptyString => (EmptyString, EmptyString)
  | String c rest =>
      if isDigit c
      then let '(d, r) := spanDigits rest in (String c d, r)
      else (EmptyString, s)
  end.

(** At most [n] decimal digits at the head of [s], and the rest. *)
Fixpoint takeDigits (n : nat) (s : string) : string * string :=
  match n, s with
  | S n', String c rest =>
      if isDigit c
      then let '(d, r) := takeDigits n' rest in (String c d, r)
      else (EmptyString, s)
  | _, _ => (EmptyString, s)
  end.

(** The value of a run of decimal digits. *)
Fixpoint digitsValueFrom (acc : Z) (s : string) : Z :=
  match s with
  | EmptyString => acc
  | String c rest => digitsValueFrom (10 * acc + digitValue c) rest
  end.

Definition digitsValue (s : string) : Z := digitsValueFrom 0 s.

(** [s] without the prefix [p], when it starts with it. *)
Fixpoint dropPrefix (p s : string) : option string :=
  match p, s with
  | EmptyString, _ => Some s
  | String a p', String b s' =>
      if Ascii.eqb a b then dropPrefix p' s' else None
  | String _ _, EmptyString => None
  end.

(** Decimal text of an integer, as a template literal prints it. *)
Definition ofZ (z : Z) : string := NilZero.string_of_int (Z.to_int z).

End JsString.

(* ================================================================== *)
(** ** Host model: numbers *)

Module JsNumber.

(** binary64 *)
Definition number : Type := spec_float.
Definition prec : Z := 53.
Definition emax : Z := 1024.

Definition NaN : number := S754_nan.
Definition zero : number := S754_zero false.

Definition ofZ (z : Z) : number := binary_normalize prec emax z 0 false.
Definition ofNat (n : nat) : number := ofZ (Z.of_nat n).

Definition add (a b : number) : number := SFadd prec emax a b.
Definition mul (a b : number) : number := SFmul prec emax a b.
Definition div (a b : number) : number := SFdiv prec emax a b.

(** [a > b] and [a < b]; both are false as soon as one side is NaN. *)
Definition gt (a b : number) : bool := SFltb b a.
Definition lt (a b : number) : bool := SFltb a b.

Definition isNaN (a : number) : bool :=
  match a with S754_nan => true | _ => false end.

(** The binary64 value nearest to [m / 10^k] (ties to even), for [m >= 0]:
    the quotient of the two integers with its rounding location, then
    one rounding. *)
Definition ofDecimal (m : Z) (k : nat) : number :=
  match m with
  | Zpos _ =>
      let '(mz, ez, lz) :=
        SFdiv_core_binary prec emax m 0 (10 ^ Z.of_nat k) 0 in
      binary_round_aux prec emax false mz ez lz
  | _ => zero
  end.

(** [parseFloat(s)] for the texts its callers pass: decimal digits and
    points only.  The longest prefix that is a decimal literal is read
    (digits, then optionally a point and digits); there is none when both
    digit runs are empty. *)
Definition parseFloat (s : string) : number :=
  let '(ip, r) := JsString.spanDigits s in
  let fp :=
    match r with
    | String "."%char r' => fst (JsString.spanDigits r')
    | _ => EmptyString
    end in
  match ip, fp with
  | EmptyString, EmptyString => NaN
  | _, _ => ofDecimal (JsString.digitsValue (ip ++ fp)) (String.length fp)
  end.

End JsNumber.

(* ================================================================== *)
(** ** Host model: objects used as dictionaries *)

Module JsObject.

(** The members of [Object.prototype] (ECMAScript, with its annex B). *)
Definition prototypeKeys : list string :=
  ["constructor"; "hasOwnProperty"; "isPrototypeOf"; "propertyIsEnumerable";
   "toLocaleString"; "toString"; "valueOf"; "__proto__";
   "__defineGetter__"; "__defineSetter__"; "__lookupGetter__";
   "__lookupSetter__"].

Definition inherited (k : string) : bool :=
  existsb (String.eqb k) prototypeKeys.

Section Dict.
Context {V : Type}.

(** Own properties in creation order. *)
Definition t : Type := list (string * V).

(** [{}] *)
Definition empty : t := [].

(** The own property under [k]: what [o[k]] gives for every [k] that
    [Object.prototype] does not define. *)
Fixpoint get (k : string) (o : t) : option V :=
  match o with
  | [] => None
  | (k', v) :: rest => if String.eqb k k' then Some v else get k rest
  end.

(** [o[k]] in general: the own property, else the member of
    [Object.prototype] of that name (a function or, under __proto__, the
    prototype itself: an object in both cases, hence truthy and equal to no
    text), else [undefined]. *)
Inductive Slot : Type :=
| Own (v : V)
| Inherited
| Undefined.

Definition read (k : string) (o : t) : Slot :=
  match get k o with
  | Some v => Own v
  | None => if inherited k then Inherited else Undefined
  end.

(** The creation or the update of the own property [k]: an existing
    property keeps its place, a new one is created last. *)
Fixpoint set (k : string) (v : V) (o : t) : t :=
  match o with
  | [] => [(k, v)]
  | (k', v') :: rest =>
      if String.eqb k k' then (k', v) :: rest else (k', v') :: set k v rest
  end.

(** [o[k] = v].  Under __proto__ the assignment goes to the setter that
    [Object.prototype] defines and no own property is created: the setter
    ignores a [v] that is not an object, and makes an object [v] the
    prototype of [o].  (The objects of the source come from [{}] and such
    assignments only, so none has an own property of that name.) *)
Definition assign (k : string) (v : V) (o : t) : t :=
  if String.eqb k "__proto__" then o else set k v o.

(** An update in place of the object held under [k], as in [o[k].n++].
    The source does this where [o[k]] is truthy.  Where that is an own
    property, the property is updated.  Where it is a member of
    [Object.prototype], the update lands on that member and [o] is as
    before; the field so written on the member holds NaN (from
    [undefined + n]), which is falsy, and it has the name of a counter,
    which the analysis reads under no object but its own entries: the
    write does not show in any later lookup. *)
Fixpoint adjust (k : string) (f : V -> V) (o : t) : t :=
  match o with
  | [] => []
  | (k', v) :: rest =>
      if String.eqb k k' then (k', f v) :: rest
      else (k', v) :: adjust k f rest
  end.

(** An update in place of every value, as in
    [Object.values(o).forEach(v => { v.rate = ... })]: each value is
    changed from its own fields only, so the order of the visits does
    not show. *)
Definition forEachValue (f : V -> V) (o : t) : t :=
  map (fun kv => (fst kv, f (snd kv))) o.

(** The integer of an array-index key: a canonical decimal numeral
    below 2^32 - 1. *)
Definition arrayIndex (k : string) : option Z :=
  match k with
  | EmptyString => None
  | String c rest =>
      let '(d, r) := JsString.spanDigits k in
      match r with
      | EmptyString =>
          if (JsString.code c =? 48)%N && negb (String.eqb rest EmptyString)
          then None
          else if (JsString.digitsValue d <? 4294967295)%Z
               then Some (JsString.digitsValue d) else None
      | _ => None
      end
  end.

Fixpoint insertIndexed (x : Z * (string * V)) (l : list (Z * (string * V)))
  : list (Z * (string * V)) :=
  match l with
  | [] => [x]
  | y :: rest =>
      if (fst x <=? fst y)%Z then x :: l else y :: insertIndexed x rest
  end.

Fixpoint indexed (o : t) : list (Z * (string * V)) :=
  match o with
  | [] => []
  | kv :: rest =>
      match arrayIndex (fst kv) with
      | Some i => insertIndexed (i, kv) (indexed rest)
      | None => indexed rest
      end
  end.

Definition named (o : t) : t :=
  filter (fun kv => match arrayIndex (fst kv) with Some _ => false | None => true end) o.

(** Enumeration order of the own properties: array-index keys in
    ascending order, then the other keys in creation order. *)
Definition entries (o : t) : t := (map snd (indexed o) ++ named o)%list.

(** [Object.keys(o)] and [Object.values(o)] *)
Definition keys (o : t) : list string := map fst (entries o).
Definition values (o : t) : list V := map snd (entries o).

End Dict.

Arguments t V : clear implicits.

End JsObject.

(* ================================================================== *)
(** ** Host model: arrays *)

Module JsArray.

Section Arr.
Context {A : Type}.

(** [a.findIndex(p)], [None] standing for -1 *)
Fixpoint findIndexFrom (p : A -> bool) (i : nat) (a : list A) : option nat :=
  match a with
  | [] => None
  | x :: rest => if p x then Some i else findIndexFrom p (S i) rest
  end.

Definition findIndex (p : A -> bool) (a : list A) : option nat :=
  findIndexFrom p 0 a.

(** [a.sort(cmp)]: a stable sort; [after x y] holds when [cmp(x, y) > 0]. *)
Fixpoint insertSorted (after : A -> A -> bool) (x : A) (l : list A) : list A :=
  match l with
  | [] => [x]
  | y :: rest =>
      if after x y then y :: insertSorted after x rest else x :: l
  end.

Definition sort (after : A -> A -> bool) (a : list A) : list A :=
  fold_right (insertSorted after) [] a.

End Arr.

End JsArray.

(* ================================================================== *)
(** ** Host model: dates *)

Module JsDate.

Local Open Scope Z_scope.

(** Time value: milliseconds of local civil time since 1970-01-01 00:00. *)
Definition t : Type := Z.

Definition msPerDay : Z := 86400000.

(** Day number of the civil date [y]-[m]-[d], [m] from 1 to 12. *)
Definition daysFromCivil (y m d : Z) : Z :=
  let y' := if m <=? 2 then y - 1 else y in
  let era := y' / 400 in
  let yoe := y' - era * 400 in
  let mp := if 2 <? m then m - 3 else m + 9 in
  let doy := (153 * mp + 2) / 5 + d - 1 in
  let doe := yoe * 365 + yoe / 4 - yoe / 100 + doy in
  era * 146097 + doe - 719468.

(** Civil date (year, month from 1 to 12, day) of a day number. *)
Definition civilFromDays (z : Z) : Z * Z * Z :=
  let z' := z + 719468 in
  let era := z' / 146097 in
  let doe := z' - era * 146097 in
  let yoe := (doe - doe / 1460 + doe / 36524 - doe / 146096) / 365 in
  let doy := doe - (365 * yoe + yoe / 4 - yoe / 100) in
  let mp := (5 * doy + 2) / 153 in
  let d := doy - (153 * mp + 2) / 5 + 1 in
  let m := if mp <? 10 then mp + 3 else mp - 9 in
  ((yoe + era * 400) + (if m <=? 2 then 1 else 0), m, d).

(** MakeDay: the month index may lie outside 0..11 and the day outside
    the month; both carry over. *)
Definition makeDay (year monthIndex date : Z) : Z :=
  daysFromCivil (year + monthIndex / 12) (monthIndex mod 12 + 1) 1 + (date - 1).

(** [new Date(year, monthIndex, date)]: local midnight of that day; a year
    from 0 to 99 means 1900 + year.  (The time value has no bound here: the
    years of the date formats have four digits and those of the window come
    from a selector, far from the 8.64e15 ms beyond which the constructor
    gives an invalid date.) *)
Definition make (year monthIndex date : Z) : t :=
  let fullYear := if (0 <=? year) && (year <=? 99) then 1900 + year else year in
  makeDay fullYear monthIndex date * msPerDay.

Definition dayOf (d : t) : Z := d / msPerDay.

(** [d.getFullYear()] *)
Definition getFullYear (d : t) : Z := fst (fst (civilFromDays (dayOf d))).

(** [d.getMonth()], from 0 to 11 *)
Definition getMonth (d : t) : Z := snd (fst (civilFromDays (dayOf d))) - 1.

(** [d.getDate()] *)
Definition getDate (d : t) : Z := snd (civilFromDays (dayOf d)).

End JsDate.

(* ================================================================== *)
(** ** Data model of the application ([types.ts] and the local shapes of
       [performCustomerAnalysis]) *)

Import JsNumber.

Record SheetData := { values : list (list string) }.

Record DateRange := {
  startYear : Z;
  startMonth : Z;
  endYear : Z;
  endMonth : Z
}.

Module MonthlyReport.
Record t := {
  month : string;
  year : Z;
  newCustomers : nat;
  completedDeals : nat;
  conversionRate : number;
  totalAmount : number;
  averageAmount : number
}.
End MonthlyReport.

Module CustomerAnalysis.
Record Span := { earliest : string; latest : string }.
Record t := {
  monthlyData : list MonthlyReport.t;
  totalCustomers : nat;
  totalCompletedDeals : nat;
  totalAmount : number;
  overallConversionRate : number;
  dateRange : Span
}.
End CustomerAnalysis.

(** An entry of [salesmenAnalysis]. *)
Module Salesman.
Record t := {
  業務員 : string;
  訂單數量 : nat;
  潛力客戶數 : nat;
  成交率 : number;
  當季業績累積 : number
}.
End Salesman.

(** An entry of [clinicSummary]. *)
Module Clinic.
Record t := {
  clinic : string;
  total : nat;
  potential : nat;
  dealt : nat;
  conversionRate : number;
  totalAmount : number
}.
End Clinic.

(** An entry of [storeSummary]. *)
Module Store.
Record t := { store : string; total : nat; potential : nat }.
End Store.

(** An entry of [hearingSummary]. *)
Module Hearing.
Record t := {
  month : string;
  year : Z;
  total : nat;
  potential : nat;
  dealt : nat;
  conversionRate : number;
  totalAmount : number
}.
End Hearing.

(** An element of [filteredRows].  Two fields of the source are left out,
    both never read again: the locale rendering of the parsed date and the
    UTF-16 length of each cell. *)
Module RowData.
Record Basic := {
  原始行號 : nat;
  日期字段 : string;
  年月 : string;
  狀態 : string;
  金額 : string
}.
Record Cell := {
  欄位名稱 : string;
  欄位索引 : nat;
  內容 : string;
  是否為空 : bool
}.
Record t := {
  基本信息 : Basic;
  所有欄位數據 : JsObject.t Cell
}.
End RowData.

(** A customer object: header label to cell text. *)
Definition Customer : Type := JsObject.t string.

(** The React state the analysis reads and writes. *)
Record AppState := {
  sheetData : option SheetData;
  error : string;
  customerAnalysis : option CustomerAnalysis.t;
  dateRange : DateRange;
  ptaThreshold : number;
  salesmenAnalysis : option (JsObject.t Salesman.t);
  clinicAnalysis : option (list Clinic.t);
  storeReferralAnalysis : option (list Store.t);
  hearingScreeningAnalysis : option (list Hearing.t)
}.

Definition setError (msg : string) (st : AppState) : AppState :=
  {| sheetData := sheetData st;
     error := msg;
     customerAnalysis := customerAnalysis st;
     dateRange := dateRange st;
     ptaThreshold := ptaThreshold st;
     salesmenAnalysis := salesmenAnalysis st;
     clinicAnalysis := clinicAnalysis st;
     storeReferralAnalysis := storeReferralAnalysis st;
     hearingScreeningAnalysis := hearingScreeningAnalysis st |}.

(* ================================================================== *)
(** ** Helpers local to [performCustomerAnalysis] *)

(** [a || b] where both may be undefined. *)
Definition orOpt (a b : option string) : option string :=
  if JsString.truthyOpt a then a else b.

(** [value.toString().replace(/[^0-9.]/g, '')] *)
Fixpoint cleanNumeric (s : string) : string :=
  match s with
  | EmptyString => EmptyString
  | String c rest =>
      if JsString.isDigit c || Ascii.eqb c "."%char
      then String c (cleanNumeric rest) else cleanNumeric rest
  end.

Definition parseAmount (value : option string) : number :=
  if negb (JsString.truthyOpt value) then NaN
  else match value with
       | Some v => parseFloat (cleanNumeric v)
       | None => NaN
       end.

Definition parseNumber (value : option string) : number :=
  if negb (JsString.truthyOpt value) then NaN
  else match value with
       | Some v => parseFloat (cleanNumeric v)
       | None => NaN
       end.

(** The ear label is 左 or 右. *)
Definition getEarPTA (customer : Customer) (earLabel : string) : number :=
  match find (fun k => JsString.includes (earLabel ++ "耳") k
                       && JsString.includes "PTA" (JsString.toUpperCase k))
             (JsObject.keys customer) with
  | None => NaN
  | Some key => if JsString.truthy key
                then parseNumber (JsObject.get key customer) else NaN
  end.

Definition isDateHeader (header : string) : bool :=
  JsString.includes "初次到店" header || JsString.includes "日期" header
  || JsString.includes "Date" header.

Definition isStatusHeader (header : string) : bool :=
  JsString.includes "成交" header || JsString.includes "狀態" header
  || JsString.includes "Status" header.

Definition isAmountHeader (header : string) : bool :=
  JsString.includes "金額" header || JsString.includes "Amount" header
  || JsString.includes "價格" header.

(** *** The three date formats *)

(** [[/-]] at the head of [s] *)
Definition dateSep (s : string) : option string :=
  match s with
  | String c rest =>
      if Ascii.eqb c "/"%char || Ascii.eqb c "-"%char then Some rest else None
  | EmptyString => None
  end.

Definition nonEmpty (s : string) : bool := JsString.truthy s.

(** The three capture groups of [\d{a}SEP\d{1,2}SEP\d{c}] anchored at the head
    of [s], [a] and [c] being exact widths (4) or the greedy 1 to 2.  A
    greedy group takes two digits when there are two: with one digit less
    the separator that must follow would be a digit. *)
Definition group4 (s : string) : option (string * string) :=
  let '(d, r) := JsString.takeDigits 4 s in
  if (String.length d =? 4)%nat then Some (d, r) else None.

Definition group12 (s : string) : option (string * string) :=
  let '(d, r) := JsString.takeDigits 2 s in
  if nonEmpty d then Some (d, r) else None.

Definition bindO {A B : Type} (x : option A) (f : A -> option B) : option B :=
  match x with Some a => f a | None => None end.

(** [/(\d{4})[/-](\d{1,2})[/-](\d{1,2})/] at the head of [s] *)
Definition matchFormat0 (s : string) : option (string * string * string) :=
  bindO (group4 s) (fun '(g1, r1) =>
  bindO (dateSep r1) (fun r2 =>
  bindO (group12 r2) (fun '(g2, r3) =>
  bindO (dateSep r3) (fun r4 =>
  bindO (group12 r4) (fun '(g3, _) => Some (g1, g2, g3)))))).

(** [/(\d{1,2})[/-](\d{1,2})[/-](\d{4})/] at the head of [s] *)
Definition matchFormat1 (s : string) : option (string * string * string) :=
  bindO (group12 s) (fun '(g1, r1) =>
  bindO (dateSep r1) (fun r2 =>
  bindO (group12 r2) (fun '(g2, r3) =>
  bindO (dateSep r3) (fun r4 =>
  bindO (group4 r4) (fun '(g3, _) => Some (g1, g2, g3)))))).

(** [/(\d{4})年(\d{1,2})月(\d{1,2})日?/] at the head of [s] *)
Definition matchFormat2 (s : string) : option (string * string * string) :=
  bindO (group4 s) (fun '(g1, r1) =>
  bindO (JsString.dropPrefix "年" r1) (fun r2 =>
  bindO (group12 r2) (fun '(g2, r3) =>
  bindO (JsString.dropPrefix "月" r3) (fun r4 =>
  bindO (group12 r4) (fun '(g3, _) => Some (g1, g2, g3)))))).

(** [s.match(re)] for an unanchored pattern: the leftmost position where
    the pattern matches. *)
Fixpoint regexSearch {A : Type} (at_head : string -> option A) (s : string)
  : option A :=
  match at_head s with
  | Some m => Some m
  | None =>
      match s with
      | EmptyString => None
      | String _ rest => regexSearch at_head rest
      end
  end.

(** [parseInt] of a run of decimal digits *)
Definition parseIntDigits (s : string) : Z := JsString.digitsValue s.

(** The loop over [dateFormats]: the first format that matches decides. *)
Definition structuralDate (dateStr : string) : option JsDate.t :=
  match regexSearch matchFormat0 dateStr with
  | Some (g1, g2, g3) =>
      Some (JsDate.make (parseIntDigits g1) (parseIntDigits g2 - 1) (parseIntDigits g3))
  | None =>
  match regexSearch matchFormat1 dateStr with
  | Some (g1, g2, g3) =>
      Some (JsDate.make (parseIntDigits g3) (parseIntDigits g1 - 1) (parseIntDigits g2))
  | None =>
  match regexSearch matchFormat2 dateStr with
  | Some (g1, g2, g3) =>
      Some (JsDate.make (parseIntDigits g1) (parseIntDigits g2 - 1) (parseIntDigits g3))
  | None => None
  end end end.

(** [parseInt(s)], radix 10: leading white space, an optional sign, then the
    longest run of digits; [None] stands for NaN.  (The callers pass the
    month digits of a label, which never begin a 0x prefix.) *)
Definition parseInt (s : string) : option Z :=
  let s1 := JsString.trimStart s in
  let '(negative, s2) :=
    match s1 with
    | String "-"%char r => (true, r)
    | String "+"%char r => (false, r)
    | _ => (false, s1)
    end in
  let '(d, _) := JsString.spanDigits s2 in
  if nonEmpty d
  then Some (if negative then (- JsString.digitsValue d)%Z else JsString.digitsValue d)
  else None.

(** [/\d+年(\d+)月/] at the head of [s]: the group and the text after the
    match. *)
Definition matchMonthLabel (s : string) : option (string * string) :=
  let '(d1, r1) := JsString.spanDigits s in
  if nonEmpty d1 then
    bindO (JsString.dropPrefix "年" r1) (fun r2 =>
    let '(d2, r3) := JsString.spanDigits r2 in
    if nonEmpty d2 then
      bindO (JsString.dropPrefix "月" r3) (fun r4 => Some (d2, r4))
    else None)
  else None.

(** [label.replace(/\d+年(\d+)月/, '$1')] *)
Fixpoint replaceMonthLabel (label : string) : string :=
  match matchMonthLabel label with
  | Some (g, rest) => g ++ rest
  | None =>
      match label with
      | EmptyString => EmptyString
      | String c rest => String c (replaceMonthLabel rest)
      end
  end.

(** The comparator of the two sorts by year and month, as the test
    [cmp(a, b) > 0]; a NaN difference counts as 0. *)
Definition laterYearMonth (ya : Z) (ma : string) (yb : Z) (mb : string) : bool :=
  if negb (ya =? yb)%Z then (0 <? ya - yb)%Z
  else match parseInt (replaceMonthLabel ma), parseInt (replaceMonthLabel mb) with
       | Some aMonth, Some bMonth => (0 <? aMonth - bMonth)%Z
       | _, _ => false
       end.

(** [`${date.getFullYear()}年${date.getMonth() + 1}月`] *)
Definition monthKeyOf (date : JsDate.t) : string :=
  JsString.ofZ (JsDate.getFullYear date) ++ "年"
  ++ JsString.ofZ (JsDate.getMonth date + 1) ++ "月".

(** [(n / d) * 100] on two counters *)
Definition percent (n d : nat) : number :=
  mul (div (ofNat n) (ofNat d)) (ofZ 100).

(** [customer[k] === lit] *)
Definition cellIs (customer : Customer) (k lit : string) : bool :=
  JsString.strictEq (JsObject.get k customer) lit.

(** [customer['成交金額'] || customer['金額'] || customer['價格'] || customer['營業額']] *)
Definition amountCell (customer : Customer) : option string :=
  orOpt (orOpt (orOpt (JsObject.get "成交金額" customer) (JsObject.get "金額" customer))
               (JsObject.get "價格" customer))
        (JsObject.get "營業額" customer).

(** [!isNaN(amount) && amount > 0] *)
Definition validAmount (amount : number) : bool :=
  negb (isNaN amount) && gt amount zero.

(** [customer['服務日期'] || customer['初次到店'] || ''] *)
Definition serviceDateOf (customer : Customer) : string :=
  JsString.orElse (orOpt (JsObject.get "服務日期" customer) (JsObject.get "初次到店" customer)) "".

(* ================================================================== *)
(** ** The salesperson pass (業務員分析) and the global totals *)

Module SalesmenPass.
Import Salesman.

(** [customer['主聽力師'] || customer['聽力師'] || '未知業務員'] *)
Definition salesmanOf (customer : Customer) : string :=
  JsString.orElse
    (orOpt (JsObject.get "主聽力師" customer) (JsObject.get "聽力師" customer))
    "未知業務員".

Definition isDealt (customer : Customer) : bool :=
  cellIs customer "是否成交" "是" || cellIs customer "是否成交" "TRUE"
  || cellIs customer "是否借機" "TRUE" || cellIs customer "是否有借機" "TRUE"
  || cellIs customer "是否借機" "是"
  || cellIs customer "成交" "是" || cellIs customer "成交" "TRUE"
  || cellIs customer "狀態" "成交" || cellIs customer "狀態" "已成交".

Definition isPotentialCustomer (ptaThreshold : number) (customer : Customer) : bool :=
  let leftEarPTA := getEarPTA customer "左" in
  let rightEarPTA := getEarPTA customer "右" in
  gt leftEarPTA ptaThreshold || gt rightEarPTA ptaThreshold || isDealt customer.

Definition fresh (salesman : string) : Salesman.t :=
  {| 業務員 := salesman; 訂單數量 := 0; 潛力客戶數 := 0;
     成交率 := zero; 當季業績累積 := zero |}.

Definition incPotential (b : Salesman.t) : Salesman.t :=
  {| 業務員 := 業務員 b; 訂單數量 := 訂單數量 b; 潛力客戶數 := S (潛力客戶數 b);
     成交率 := 成交率 b; 當季業績累積 := 當季業績累積 b |}.

Definition incOrders (b : Salesman.t) : Salesman.t :=
  {| 業務員 := 業務員 b; 訂單數量 := S (訂單數量 b); 潛力客戶數 := 潛力客戶數 b;
     成交率 := 成交率 b; 當季業績累積 := 當季業績累積 b |}.

Definition setRevenue (amount : number) (b : Salesman.t) : Salesman.t :=
  {| 業務員 := 業務員 b; 訂單數量 := 訂單數量 b; 潛力客戶數 := 潛力客戶數 b;
     成交率 := 成交率 b; 當季業績累積 := amount |}.

Definition setRate (rate : number) (b : Salesman.t) : Salesman.t :=
  {| 業務員 := 業務員 b; 訂單數量 := 訂單數量 b; 潛力客戶數 := 潛力客戶數 b;
     成交率 := rate; 當季業績累積 := 當季業績累積 b |}.

(** First loop, [if (!salesmenAnalysis[salesman]) { ... }]: a zeroed entry
    for every salesperson under whose name the lookup finds nothing. *)
Definition initStep (sa : JsObject.t Salesman.t) (customer : Customer)
  : JsObject.t Salesman.t :=
  let salesman := salesmanOf customer in
  match JsObject.read salesman sa with
  | JsObject.Undefined => JsObject.set salesman (fresh salesman) sa
  | _ => sa
  end.

(** The counters of the second loop: the entries, [totalPotentialCustomers]
    and [totalOrders]. *)
Record Counts := {
  entries : JsObject.t Salesman.t;
  totalPotentialCustomers : nat;
  totalOrders : nat
}.

Definition countStep (ptaThreshold : number) (acc : Counts) (customer : Customer)
  : Counts :=
  let salesman := salesmanOf customer in
  let acc1 :=
    if isPotentialCustomer ptaThreshold customer
    then {| entries := JsObject.adjust salesman incPotential (entries acc);
            totalPotentialCustomers := S (totalPotentialCustomers acc);
            totalOrders := totalOrders acc |}
    else acc in
  if isDealt customer
  then {| entries := JsObject.adjust salesman incOrders (entries acc1);
          totalPotentialCustomers := totalPotentialCustomers acc1;
          totalOrders := S (totalOrders acc1) |}
  else acc1.

Definition counted (ptaThreshold : number) (customersArray : list Customer) : Counts :=
  fold_left (countStep ptaThreshold) customersArray
    {| entries := fold_left initStep customersArray JsObject.empty;
       totalPotentialCustomers := 0;
       totalOrders := 0 |}.

(** Third loop, inner part: the amounts of one salesperson's converted
    customers, added to [totalAmount] and to [totalRevenue]. *)
Definition amountStep (acc : number * number) (customer : Customer)
  : number * number :=
  let '(totalAmount, totalRevenue) := acc in
  let rawAmount := JsString.orElse (amountCell customer) "" in
  let dealAmount := parseAmount (Some rawAmount) in
  if isDealt customer && validAmount dealAmount
  then (add totalAmount dealAmount, add totalRevenue dealAmount)
  else acc.

Definition revenueStep (customersArray : list Customer)
    (acc : JsObject.t Salesman.t * number) (salesman : string)
  : JsObject.t Salesman.t * number :=
  let '(sa, totalRevenue) := acc in
  let salesmanCustomers :=
    filter (fun customer => String.eqb (salesmanOf customer) salesman)
           customersArray in
  let '(totalAmount, totalRevenue') :=
    fold_left amountStep salesmanCustomers (zero, totalRevenue) in
  (JsObject.adjust salesman (setRevenue totalAmount) sa, totalRevenue').

Definition withRevenue (customersArray : list Customer) (sa : JsObject.t Salesman.t)
  : JsObject.t Salesman.t * number :=
  fold_left (revenueStep customersArray) (JsObject.keys sa) (sa, zero).

(** Fourth loop: the rate of every entry. *)
Definition deriveRate (data : Salesman.t) : Salesman.t :=
  if (0 <? 潛力客戶數 data)%nat
  then setRate (percent (訂單數量 data) (潛力客戶數 data)) data
  else data.

(** The four loops. *)
Record Result := {
  analysis : JsObject.t Salesman.t;
  potentialCustomers : nat;
  orders : nat;
  revenue : number;
  overallConversionRate : number
}.

Definition run (ptaThreshold : number) (customersArray : list Customer) : Result :=
  let c := counted ptaThreshold customersArray in
  let '(sa, totalRevenue) := withRevenue customersArray (entries c) in
  {| analysis := JsObject.forEachValue deriveRate sa;
     potentialCustomers := totalPotentialCustomers c;
     orders := totalOrders c;
     revenue := totalRevenue;
     overallConversionRate :=
       if (0 <? totalPotentialCustomers c)%nat
       then percent (totalOrders c) (totalPotentialCustomers c)
       else zero |}.

End SalesmenPass.

(* ================================================================== *)
(** ** The monthly pass (月份統計) *)

Module MonthlyPass.
Import MonthlyReport.

Definition isDealtClinic (customer : Customer) : bool :=
  cellIs customer "是否成交" "是" || cellIs customer "是否成交" "TRUE"
  || cellIs customer "是否借機" "TRUE" || cellIs customer "成交" "是"
  || cellIs customer "成交" "TRUE" || cellIs customer "狀態" "成交"
  || cellIs customer "狀態" "已成交".

Definition isPotential (ptaThreshold : number) (customer : Customer) : bool :=
  let leftEarPTA := getEarPTA customer "左" in
  let rightEarPTA := getEarPTA customer "右" in
  gt leftEarPTA ptaThreshold || gt rightEarPTA ptaThreshold
  || isDealtClinic customer.

Definition isDealt (customer : Customer) : bool :=
  cellIs customer "是否成交" "是" || cellIs customer "是否成交" "TRUE"
  || cellIs customer "是否借機" "TRUE" || cellIs customer "是否有借機" "TRUE"
  || cellIs customer "是否借機" "TRUE" || cellIs customer "是否借機" "是".

Definition fresh (monthKey : string) (y : Z) : MonthlyReport.t :=
  {| month := monthKey; year := y; newCustomers := 0; completedDeals := 0;
     conversionRate := zero; totalAmount := zero; averageAmount := zero |}.

Definition incNew (b : MonthlyReport.t) : MonthlyReport.t :=
  {| month := month b; year := year b; newCustomers := S (newCustomers b);
     completedDeals := completedDeals b; conversionRate := conversionRate b;
     totalAmount := totalAmount b; averageAmount := averageAmount b |}.

Definition incDeals (b : MonthlyReport.t) : MonthlyReport.t :=
  {| month := month b; year := year b; newCustomers := newCustomers b;
     completedDeals := S (completedDeals b); conversionRate := conversionRate b;
     totalAmount := totalAmount b; averageAmount := averageAmount b |}.

Definition addAmount (amount : number) (b : MonthlyReport.t) : MonthlyReport.t :=
  {| month := month b; year := year b; newCustomers := newCustomers b;
     completedDeals := completedDeals b; conversionRate := conversionRate b;
     totalAmount := add (totalAmount b) amount; averageAmount := averageAmount b |}.

(** The body of the loop once the month key is known. *)
Definition tally (ptaThreshold : number) (customer : Customer) (monthKey : string)
    (md : JsObject.t MonthlyReport.t) : JsObject.t MonthlyReport.t :=
  let dealAmount := parseAmount (Some (JsString.orElse (amountCell customer) "")) in
  let md1 :=
    if isPotential ptaThreshold customer
    then JsObject.adjust monthKey incNew md else md in
  if isDealt customer
  then
    let md2 := JsObject.adjust monthKey incDeals md1 in
    if validAmount dealAmount
    then JsObject.adjust monthKey (addAmount dealAmount) md2 else md2
  else md1.

Definition step (newDate : string -> option JsDate.t) (ptaThreshold : number)
    (md : JsObject.t MonthlyReport.t) (customer : Customer)
  : JsObject.t MonthlyReport.t :=
  let serviceDate := serviceDateOf customer in
  if negb (JsString.truthy serviceDate) then md
  else match newDate serviceDate with
       | None => md
       | Some date =>
           let monthKey := monthKeyOf date in
           let md0 :=
             match JsObject.read monthKey md with
             | JsObject.Undefined =>
                 JsObject.set monthKey
                   (fresh monthKey (JsDate.getFullYear date)) md
             | _ => md
             end in
           tally ptaThreshold customer monthKey md0
       end.

Definition derive (data : MonthlyReport.t) : MonthlyReport.t :=
  let rate :=
    if (0 <? newCustomers data)%nat
    then percent (completedDeals data) (newCustomers data)
    else conversionRate data in
  let average :=
    if (0 <? completedDeals data)%nat
    then div (totalAmount data) (ofNat (completedDeals data))
    else averageAmount data in
  {| month := month data; year := year data; newCustomers := newCustomers data;
     completedDeals := completedDeals data; conversionRate := rate;
     totalAmount := totalAmount data; averageAmount := average |}.

Definition customerMonthlyData (newDate : string -> option JsDate.t)
    (ptaThreshold : number) (customersArray : list Customer)
  : JsObject.t MonthlyReport.t :=
  JsObject.forEachValue derive
    (fold_left (step newDate ptaThreshold) customersArray JsObject.empty).

Definition sortedMonthlyData (newDate : string -> option JsDate.t)
    (ptaThreshold : number) (customersArray : list Customer)
  : list MonthlyReport.t :=
  JsArray.sort (fun a b => laterYearMonth (year a) (month a) (year b) (month b))
    (JsObject.values (customerMonthlyData newDate ptaThreshold customersArray)).

End MonthlyPass.

(* ================================================================== *)
(** ** The clinic pass (診所轉介分析) *)

Module ClinicPass.
Import Clinic.

Definition isDealtClinic (customer : Customer) : bool :=
  cellIs customer "是否成交" "是" || cellIs customer "是否成交" "TRUE"
  || cellIs customer "是否借機" "TRUE" || cellIs customer "成交" "是"
  || cellIs customer "成交" "TRUE" || cellIs customer "狀態" "成交"
  || cellIs customer "狀態" "已成交".

Definition isPotential (ptaThreshold : number) (customer : Customer) : bool :=
  let leftPTA := getEarPTA customer "左" in
  let rightPTA := getEarPTA customer "右" in
  gt leftPTA ptaThreshold || gt rightPTA ptaThreshold || isDealtClinic customer.

Definition isDealt (customer : Customer) : bool :=
  cellIs customer "是否成交" "是" || cellIs customer "是否成交" "TRUE"
  || cellIs customer "是否借機" "TRUE" || cellIs customer "成交" "是"
  || cellIs customer "成交" "TRUE" || cellIs customer "狀態" "成交"
  || cellIs customer "狀態" "已成交".

Definition fresh (clinicName : string) : Clinic.t :=
  {| clinic := clinicName; total := 0; potential := 0; dealt := 0;
     conversionRate := zero; totalAmount := zero |}.

Definition incTotal (b : Clinic.t) : Clinic.t :=
  {| clinic := clinic b; total := S (total b); potential := potential b;
     dealt := dealt b; conversionRate := conversionRate b;
     totalAmount := totalAmount b |}.

Definition incPotential (b : Clinic.t) : Clinic.t :=
  {| clinic := clinic b; total := total b; potential := S (potential b);
     dealt := dealt b; conversionRate := conversionRate b;
     totalAmount := totalAmount b |}.

Definition incDealt (b : Clinic.t) : Clinic.t :=
  {| clinic := clinic b; total := total b; potential := potential b;
     dealt := S (dealt b); conversionRate := conversionRate b;
     totalAmount := totalAmount b |}.

Definition addAmount (amount : number) (b : Clinic.t) : Clinic.t :=
  {| clinic := clinic b; total := total b; potential := potential b;
     dealt := dealt b; conversionRate := conversionRate b;
     totalAmount := add (totalAmount b) amount |}.

(** The body of the loop once the clinic has its entry. *)
Definition tally (ptaThreshold : number) (customer : Customer) (clinicName : string)
    (cs : JsObject.t Clinic.t) : JsObject.t Clinic.t :=
  let cs1 := JsObject.adjust clinicName incTotal cs in
  let cs2 :=
    if isPotential ptaThreshold customer
    then JsObject.adjust clinicName incPotential cs1 else cs1 in
  if isDealt customer
  then
    let cs3 := JsObject.adjust clinicName incDealt cs2 in
    let dealAmt := parseAmount (amountCell customer) in
    if validAmount dealAmt
    then JsObject.adjust clinicName (addAmount dealAmt) cs3 else cs3
  else cs2.

Definition step (ptaThreshold : number) (cs : JsObject.t Clinic.t)
    (customer : Customer) : JsObject.t Clinic.t :=
  let clinicName :=
    JsString.trim (JsString.orElse (JsObject.get "診所名稱" customer) "") in
  if negb (JsString.truthy clinicName) then cs
  else
    let cs0 :=
      match JsObject.read clinicName cs with
      | JsObject.Undefined => JsObject.set clinicName (fresh clinicName) cs
      | _ => cs
      end in
    tally ptaThreshold customer clinicName cs0.

Definition derive (c : Clinic.t) : Clinic.t :=
  {| clinic := clinic c; total := total c; potential := potential c;
     dealt := dealt c;
     conversionRate :=
       if (0 <? total c)%nat then percent (dealt c) (total c) else zero;
     totalAmount := totalAmount c |}.

Definition clinicSummary (ptaThreshold : number) (customersArray : list Customer)
  : JsObject.t Clinic.t :=
  JsObject.forEachValue derive
    (fold_left (step ptaThreshold) customersArray JsObject.empty).

(** Sorted by [b.total - a.total]. *)
Definition clinicArray (ptaThreshold : number) (customersArray : list Customer)
  : list Clinic.t :=
  JsArray.sort (fun a b => (total a <? total b)%nat)
    (JsObject.values (clinicSummary ptaThreshold customersArray)).

End ClinicPass.

(* ================================================================== *)
(** ** The store pass (門市轉介分析) *)

Module StorePass.
Import Store.

Definition isDealtStore (customer : Customer) : bool :=
  cellIs customer "是否成交" "是" || cellIs customer "是否成交" "TRUE"
  || cellIs customer "是否借機" "TRUE" || cellIs customer "成交" "是"
  || cellIs customer "成交" "TRUE" || cellIs customer "狀態" "成交"
  || cellIs customer "狀態" "已成交".

Definition incTotal (b : Store.t) : Store.t :=
  {| store := store b; total := S (total b); potential := potential b |}.

Definition incPotential (b : Store.t) : Store.t :=
  {| store := store b; total := total b; potential := S (potential b) |}.

Definition step (ptaThreshold : number) (ss : JsObject.t Store.t)
    (customer : Customer) : JsObject.t Store.t :=
  match find (fun k => JsString.includes "門市" k && JsString.includes "自帶" k)
             (JsObject.keys customer) with
  | None => ss
  | Some storeKey =>
      if negb (JsString.truthy storeKey) then ss
      else
        let storeNameRaw :=
          JsString.trim (JsString.orElse (JsObject.get storeKey customer) "") in
        if negb (JsString.truthy storeNameRaw) || String.eqb storeNameRaw "#N/A"
        then ss
        else
          let ss0 :=
            match JsObject.read storeNameRaw ss with
            | JsObject.Undefined =>
                JsObject.set storeNameRaw
                  {| store := storeNameRaw; total := 0; potential := 0 |} ss
            | _ => ss
            end in
          let ss1 := JsObject.adjust storeNameRaw incTotal ss0 in
          let leftPTA := getEarPTA customer "左" in
          let rightPTA := getEarPTA customer "右" in
          if gt leftPTA ptaThreshold || gt rightPTA ptaThreshold
             || isDealtStore customer
          then JsObject.adjust storeNameRaw incPotential ss1 else ss1
  end.

Definition storeSummary (ptaThreshold : number) (customersArray : list Customer)
  : JsObject.t Store.t :=
  fold_left (step ptaThreshold) customersArray JsObject.empty.

Definition storeArray (ptaThreshold : number) (customersArray : list Customer)
  : list Store.t :=
  JsArray.sort (fun a b => (total a <? total b)%nat)
    (JsObject.values (storeSummary ptaThreshold customersArray)).

End StorePass.

(* ================================================================== *)
(** ** The hearing-screening pass (聽篩活動來源，按月份) *)

Module HearingPass.
Import Hearing.

Definition isDealtHS (customer : Customer) : bool :=
  cellIs customer "是否成交" "是" || cellIs customer "是否成交" "TRUE"
  || cellIs customer "是否借機" "TRUE" || cellIs customer "是否有借機" "TRUE"
  || cellIs customer "是否借機" "是" || cellIs customer "成交" "是"
  || cellIs customer "成交" "TRUE"
  || cellIs customer "狀態" "成交" || cellIs customer "狀態" "已成交".

Definition fresh (monthKey : string) (y : Z) : Hearing.t :=
  {| month := monthKey; year := y; total := 0; potential := 0; dealt := 0;
     conversionRate := zero; totalAmount := zero |}.

Definition incTotal (b : Hearing.t) : Hearing.t :=
  {| month := month b; year := year b; total := S (total b);
     potential := potential b; dealt := dealt b;
     conversionRate := conversionRate b; totalAmount := totalAmount b |}.

Definition incPotential (b : Hearing.t) : Hearing.t :=
  {| month := month b; year := year b; total := total b;
     potential := S (potential b); dealt := dealt b;
     conversionRate := conversionRate b; totalAmount := totalAmount b |}.

Definition incDealt (b : Hearing.t) : Hearing.t :=
  {| month := month b; year := year b; total := total b;
     potential := potential b; dealt := S (dealt b);
     conversionRate := conversionRate b; totalAmount := totalAmount b |}.

Definition addAmount (amount : number) (b : Hearing.t) : Hearing.t :=
  {| month := month b; year := year b; total := total b;
     potential := potential b; dealt := dealt b;
     conversionRate := conversionRate b;
     totalAmount := add (totalAmount b) amount |}.

(** [(customer['顧客來源'] || customer['顧客來源↵(可複選)'] || '').toString()] *)
Definition sourceVal (customer : Customer) : string :=
  JsString.orElse
    (orOpt (JsObject.get "顧客來源" customer)
           (JsObject.get "顧客來源↵(可複選)" customer)) "".

(** The body of the loop once the month key is known. *)
Definition tally (ptaThreshold : number) (customer : Customer) (monthKey : string)
    (hs : JsObject.t Hearing.t) : JsObject.t Hearing.t :=
  let hs1 := JsObject.adjust monthKey incTotal hs in
  let leftPTA := getEarPTA customer "左" in
  let rightPTA := getEarPTA customer "右" in
  let hs2 :=
    if gt leftPTA ptaThreshold || gt rightPTA ptaThreshold || isDealtHS customer
    then JsObject.adjust monthKey incPotential hs1 else hs1 in
  if isDealtHS customer
  then
    let hs3 := JsObject.adjust monthKey incDealt hs2 in
    let dealAmt := parseAmount (amountCell customer) in
    if validAmount dealAmt
    then JsObject.adjust monthKey (addAmount dealAmt) hs3 else hs3
  else hs2.

Definition step (newDate : string -> option JsDate.t) (ptaThreshold : number)
    (hs : JsObject.t Hearing.t) (customer : Customer) : JsObject.t Hearing.t :=
  if negb (JsString.includes "聽篩" (sourceVal customer)) then hs
  else
    let serviceDate := serviceDateOf customer in
    if negb (JsString.truthy serviceDate) then hs
    else match newDate serviceDate with
         | None => hs
         | Some date =>
             let monthKey := monthKeyOf date in
             let hs0 :=
               match JsObject.read monthKey hs with
               | JsObject.Undefined =>
                   JsObject.set monthKey
                     (fresh monthKey (JsDate.getFullYear date)) hs
               | _ => hs
               end in
             tally ptaThreshold customer monthKey hs0
         end.

Definition derive (item : Hearing.t) : Hearing.t :=
  {| month := month item; year := year item; total := total item;
     potential := potential item; dealt := dealt item;
     conversionRate :=
       if (0 <? total item)%nat then percent (dealt item) (total item) else zero;
     totalAmount := totalAmount item |}.

Definition hearingSummary (newDate : string -> option JsDate.t)
    (ptaThreshold : number) (customersArray : list Customer)
  : JsObject.t Hearing.t :=
  JsObject.forEachValue derive
    (fold_left (step newDate ptaThreshold) customersArray JsObject.empty).

Definition hearingArray (newDate : string -> option JsDate.t)
    (ptaThreshold : number) (customersArray : list Customer)
  : list Hearing.t :=
  JsArray.sort (fun a b => laterYearMonth (year a) (month a) (year b) (month b))
    (JsObject.values (hearingSummary newDate ptaThreshold customersArray)).

End HearingPass.

(* ================================================================== *)
(** ** [performCustomerAnalysis] *)

(** The anchor date of a row: the date formats first, then the Date
    constructor of the host on the text, [newDate]. *)
Definition anchorDate (newDate : string -> option JsDate.t) (dateStr : string)
  : option JsDate.t :=
  match structuralDate dateStr with
  | Some date => Some date
  | None => newDate dateStr
  end.

Definition startDateOf (range : DateRange) : JsDate.t :=
  JsDate.make (startYear range) (startMonth range - 1) 1.

Definition endDateOf (range : DateRange) : JsDate.t :=
  JsDate.make (endYear range) (endMonth range) 0.

(** The negation of [date < startDate || date > endDate]. *)
Definition inWindow (range : DateRange) (date : JsDate.t) : bool :=
  negb ((date <? startDateOf range)%Z || (date >? endDateOf range)%Z).

(** [idx !== -1 && row[idx] ? row[idx] : fallback] *)
Definition basicField (idx : option nat) (row : list string) (fallback : string)
  : string :=
  match idx with
  | None => fallback
  | Some j => JsString.orElse (nth_error row j) fallback
  end.

(** [headers.forEach((header, index) => { rowData.所有欄位數據[header] = ... })].
    A header __proto__ gets no cell of its own: its cell becomes the
    prototype of the object, whose fields nothing reads ([customerObject]
    looks up headers, and every other header has a cell of its own). *)
Fixpoint fillCells (row : list string) (index : nat) (headers : list string)
    (cells : JsObject.t RowData.Cell) : JsObject.t RowData.Cell :=
  match headers with
  | [] => cells
  | header :: rest =>
      let cellValue := JsString.orElse (nth_error row index) "" in
      fillCells row (S index) rest
        (JsObject.assign header
           {| RowData.欄位名稱 := header;
              RowData.欄位索引 := index;
              RowData.內容 := cellValue;
              RowData.是否為空 := String.eqb (JsString.trim cellValue) "" |}
           cells)
  end.

(** One turn of the loop over the data rows: the row data pushed on
    [filteredRows], or [None] where the source says [continue]. *)
Definition rowDataOf (newDate : string -> option JsDate.t) (range : DateRange)
    (headers : list string) (dateColumnIndex : nat)
    (statusColumnIndex amountColumnIndex : option nat)
    (i : nat) (row : list string) : option RowData.t :=
  match nth_error row dateColumnIndex with
  | None => None
  | Some cell =>
      if negb (JsString.truthy cell) then None
      else
        let dateStr := JsString.trim cell in
        if negb (JsString.truthy dateStr) then None
        else match anchorDate newDate dateStr with
             | None => None
             | Some date =>
                 if inWindow range date
                 then Some
                   {| RowData.基本信息 :=
                        {| RowData.原始行號 := i + 1;
                           RowData.日期字段 := dateStr;
                           RowData.年月 := monthKeyOf date;
                           RowData.狀態 := basicField statusColumnIndex row "無狀態欄位";
                           RowData.金額 := basicField amountColumnIndex row "無金額欄位" |};
                      RowData.所有欄位數據 := fillCells row 0 headers JsObject.empty |}
                 else None
             end
  end.

(** The loop [for (let i = 1; i < values.length; i++)], from index [i] on. *)
Fixpoint filteredRowsFrom (newDate : string -> option JsDate.t) (range : DateRange)
    (headers : list string) (dateColumnIndex : nat)
    (statusColumnIndex amountColumnIndex : option nat)
    (i : nat) (rows : list (list string)) : list RowData.t :=
  match rows with
  | [] => []
  | row :: rest =>
      let tail :=
        filteredRowsFrom newDate range headers dateColumnIndex
          statusColumnIndex amountColumnIndex (S i) rest in
      match rowDataOf newDate range headers dateColumnIndex
              statusColumnIndex amountColumnIndex i row with
      | Some rowData => rowData :: tail
      | None => tail
      end
  end.

(** [headers.forEach(header => { customerObject[header] = ... })].  The
    headers are those of [fillCells]: each has its own cell
    ([fillCells_own]) but __proto__, under which the lookup gives the
    prototype and the assignment of its text creates nothing. *)
Definition customerObject (headers : list string) (row : RowData.t) : Customer :=
  fold_left
    (fun customer header =>
       JsObject.assign header
         match JsObject.get header (RowData.所有欄位數據 row) with
         | Some cellData => RowData.內容 cellData
         | None => ""
         end
         customer)
    headers JsObject.empty.

(** [arr[0]] and [arr[arr.length - 1]] *)
Definition firstOf {A : Type} (l : list A) : option A := hd_error l.
Definition lastOf {A : Type} (l : list A) : option A := hd_error (rev l).

Definition spanEnd (customer : option Customer) : string :=
  match customer with
  | Some c => serviceDateOf c
  | None => ""
  end.

(** The state after the block guarded by [filteredRows.length > 0]: the last
    value given to each setter. *)
Definition analysed (newDate : string -> option JsDate.t) (st : AppState)
    (customersArray : list Customer) : AppState :=
  let threshold := ptaThreshold st in
  let s := SalesmenPass.run threshold customersArray in
  {| sheetData := sheetData st;
     error := error st;
     customerAnalysis := Some
       {| CustomerAnalysis.monthlyData :=
            MonthlyPass.sortedMonthlyData newDate threshold customersArray;
          CustomerAnalysis.totalCustomers := SalesmenPass.potentialCustomers s;
          CustomerAnalysis.totalCompletedDeals := SalesmenPass.orders s;
          CustomerAnalysis.totalAmount := SalesmenPass.revenue s;
          CustomerAnalysis.overallConversionRate := SalesmenPass.overallConversionRate s;
          CustomerAnalysis.dateRange :=
            {| CustomerAnalysis.earliest := spanEnd (firstOf customersArray);
               CustomerAnalysis.latest := spanEnd (lastOf customersArray) |} |};
     dateRange := dateRange st;
     ptaThreshold := ptaThreshold st;
     salesmenAnalysis := Some (SalesmenPass.analysis s);
     clinicAnalysis := Some (ClinicPass.clinicArray threshold customersArray);
     storeReferralAnalysis := Some (StorePass.storeArray threshold customersArray);
     hearingScreeningAnalysis :=
       Some (HearingPass.hearingArray newDate threshold customersArray) |}.

(** [filteredRows] and [customersArray] of a sheet whose date column is
    known. *)
Definition filteredRows (newDate : string -> option JsDate.t) (range : DateRange)
    (headers : list string) (dateColumnIndex : nat) (rows : list (list string))
  : list RowData.t :=
  filteredRowsFrom newDate range headers dateColumnIndex
    (JsArray.findIndex isStatusHeader headers)
    (JsArray.findIndex isAmountHeader headers) 1 rows.

Definition customersArrayOf (headers : list string) (rows : list RowData.t)
  : list Customer :=
  map (customerObject headers) rows.

Definition performCustomerAnalysis (newDate : string -> option JsDate.t)
    (st : AppState) : AppState :=
  match sheetData st with
  | None => st
  | Some sd =>
      match values sd with
      | [] => st
      | [_] => st
      | headers :: rows =>
          match JsArray.findIndex isDateHeader headers with
          | None => setError "找不到日期相關欄位，請確認資料表包含初次到店日期" st
          | Some dateColumnIndex =>
              match filteredRows newDate (dateRange st) headers dateColumnIndex rows with
              | [] => st
              | fr => analysed newDate st (customersArrayOf headers fr)
              end
          end
      end
  end.

(** A host whose Date constructor reads the text year/month/day, and nothing
    else: one possible [newDate]. *)
Definition slashDate (s : string) : option JsDate.t :=
  let '(y, r1) := JsString.spanDigits s in
  match r1 with
  | String "/"%char r2 =>
      let '(m, r3) := JsString.spanDigits r2 in
      match r3 with
      | String "/"%char r4 =>
          let '(d, r5) := JsString.spanDigits r4 in
          let mv := JsString.digitsValue m in
          let dv := JsString.digitsValue d in
          if nonEmpty y && nonEmpty m && nonEmpty d && String.eqb r5 ""
             && (1 <=? mv)%Z && (mv <=? 12)%Z && (1 <=? dv)%Z && (dv <=? 31)%Z
          then Some (JsDate.make (JsString.digitsValue y) (mv - 1) dv)
          else None
      | _ => None
      end
  | _ => None
  end.

(* ================================================================== *)
(** ** Definitions used to state the properties *)

(** The conversion rule in the words of the specification: one of the cells
    是否成交, 是否借機, 是否有借機, 成交 is 是 or TRUE, or the 狀態 cell is 成交 or
    已成交. *)
Definition specIsConverted (customer : Customer) : bool :=
  existsb (fun k => cellIs customer k "是" || cellIs customer k "TRUE")
    ["是否成交"; "是否借機"; "是否有借機"; "成交"]
  || cellIs customer "狀態" "成交" || cellIs customer "狀態" "已成交".

(** The grid of scenario A of the specification. *)
Definition scenarioHeaders : list string :=
  ["初次到店"; "是否成交"; "成交金額"; "左耳PTA"; "右耳PTA"; "主聽力師"].

Definition scenarioRow (date : string) : list string :=
  [date; "是"; "15000"; "50"; "20"; "王小明"].

(** A state that holds a sheet, a window and a threshold, and no result. *)
Definition initialState (grid : list (list string)) (range : DateRange)
    (threshold : number) : AppState :=
  {| sheetData := Some {| values := grid |};
     error := "";
     customerAnalysis := None;
     dateRange := range;
     ptaThreshold := threshold;
     salesmenAnalysis := None;
     clinicAnalysis := None;
     storeReferralAnalysis := None;
     hearingScreeningAnalysis := None |}.

(** [setSheetData]: another sheet arrives, the rest of the state stays. *)
Definition setSheetData (grid : list (list string)) (st : AppState) : AppState :=
  {| sheetData := Some {| values := grid |};
     error := error st;
     customerAnalysis := customerAnalysis st;
     dateRange := dateRange st;
     ptaThreshold := ptaThreshold st;
     salesmenAnalysis := salesmenAnalysis st;
     clinicAnalysis := clinicAnalysis st;
     storeReferralAnalysis := storeReferralAnalysis st;
     hearingScreeningAnalysis := hearingScreeningAnalysis st |}.

(** Scenario A with a referring clinic, a referring store and a campaign
    source. *)
Definition referralHeaders : list string :=
  ["初次到店"; "是否成交"; "成交金額"; "左耳PTA"; "右耳PTA"; "主聽力師";
   "診所名稱"; "門市自帶"; "顧客來源"].

Definition referralRow (date : string) : list string :=
  [date; "是"; "15000"; "50"; "20"; "王小明"; "仁愛診所"; "藝文店"; "聽篩活動"].

(** The new customers of all monthly entries. *)
Definition sumNewCustomers (monthlyData : list MonthlyReport.t) : nat :=
  fold_left (fun n b => n + MonthlyReport.newCustomers b) monthlyData 0.

(** The civil calendar, to name the first and the last day of a month. *)
Definition isLeapYear (y : Z) : bool :=
  ((y mod 4 =? 0) && (negb (y mod 100 =? 0) || (y mod 400 =? 0)))%Z.

Definition daysInMonth (y m : Z) : Z :=
  if (m =? 2)%Z then (if isLeapYear y then 29%Z else 28%Z)
  else if ((m =? 4) || (m =? 6) || (m =? 9) || (m =? 11))%Z then 30%Z else 31%Z.


Definition lastDayOf (y m : Z) : JsDate.t :=
  (JsDate.daysFromCivil y m (daysInMonth y m) * JsDate.msPerDay)%Z.

(** The parsed anchor date of a data row: none when the date cell is
    missing, empty or blank, else what the date formats and then the host
    make of the trimmed cell. *)
Definition parsedDate (newDate : string -> option JsDate.t)
    (dateColumnIndex : nat) (row : list string) : option JsDate.t :=
  match nth_error row dateColumnIndex with
  | None => None
  | Some cell =>
      if JsString.truthy cell && JsString.truthy (JsString.trim cell)
      then anchorDate newDate (JsString.trim cell)
      else None
  end.

(** The rows that the filter keeps. *)
Definition passes (newDate : string -> option JsDate.t) (range : DateRange)
    (headers : list string) (row : list string) : bool :=
  match JsArray.findIndex isDateHeader headers with
  | None => false
  | Some dateColumnIndex =>
      match parsedDate newDate dateColumnIndex row with
      | Some date => inWindow range date
      | None => false
      end
  end.

(** What an analysis reports: the global totals with the monthly aggregate,
    and the salesperson, clinic, store and hearing-screening aggregates. *)
Definition results (st : AppState) :=
  (customerAnalysis st, salesmenAnalysis st, clinicAnalysis st,
   storeReferralAnalysis st, hearingScreeningAnalysis st).

(** The invariant of the salesperson entries. *)
Definition ordersWithinPotential (b : Salesman.t) : Prop :=
  Salesman.訂單數量 b <= Salesman.潛力客戶數 b.

(** The rates that the derive step leaves in an entry. *)
Definition salesmanRateDerived (b : Salesman.t) : Prop :=
  Salesman.成交率 b =
  if (0 <? Salesman.潛力客戶數 b)%nat
  then percent (Salesman.訂單數量 b) (Salesman.潛力客戶數 b) else zero.

Definition monthlyRatesDerived (b : MonthlyReport.t) : Prop :=
  MonthlyReport.conversionRate b =
    (if (0 <? MonthlyReport.newCustomers b)%nat
     then percent (MonthlyReport.completedDeals b) (MonthlyReport.newCustomers b)
     else zero)
  /\ MonthlyReport.averageAmount b =
    (if (0 <? MonthlyReport.completedDeals b)%nat
     then div (MonthlyReport.totalAmount b) (ofNat (MonthlyReport.completedDeals b))
     else zero).

Definition clinicRateDerived (b : Clinic.t) : Prop :=
  Clinic.conversionRate b =
  if (0 <? Clinic.total b)%nat
  then percent (Clinic.dealt b) (Clinic.total b) else zero.

Definition hearingRateDerived (b : Hearing.t) : Prop :=
  Hearing.conversionRate b =
  if (0 <? Hearing.total b)%nat
  then percent (Hearing.dealt b) (Hearing.total b) else zero.

(** Before the derive step every rate still has its initial value 0. *)
Definition salesmanRateUnset (b : Salesman.t) : Prop :=
  Salesman.成交率 b = zero.

Definition monthlyRatesUnset (b : MonthlyReport.t) : Prop :=
  MonthlyReport.conversionRate b = zero /\ MonthlyReport.averageAmount b = zero.

Definition year2024 : DateRange :=
  {| startYear := 2024; startMonth := 1; endYear := 2024; endMonth := 12 |}.

(** A sheet of converted rows with their amounts, and the averages of the
    monthly entries of a state. *)
Definition amountHeaders : list string := ["初次到店"; "是否成交"; "成交金額"].

Definition amountRow (date amount : string) : list string := [date; "是"; amount].

Definition monthlyAverages (st : AppState) : option (list number) :=
  option_map
    (fun a => map MonthlyReport.averageAmount (CustomerAnalysis.monthlyData a))
    (customerAnalysis st).

Definition firstQuarter2024 : DateRange :=
  {| startYear := 2024; startMonth := 1; endYear := 2024; endMonth := 3 |}.

(** A host that reads the slash form and, besides, the text [text] as the
    time value [date]. *)
Definition hostWith (text : string) (date : JsDate.t) (s : string)
  : option JsDate.t :=
  if String.eqb s text then Some date else slashDate s.

(** A name under which an aggregate can hold an entry: not the name of a
    member of [Object.prototype]. *)
Definition entryName (k : string) : bool := negb (JsObject.inherited k).

(** The sum of a counter over the entries of a dictionary. *)
Definition sumOver {V : Type} (f : V -> nat) (o : JsObject.t V) : nat :=
  list_sum (map (fun kv => f (snd kv)) o).

(** The distinct texts of a list in the order of their first occurrence,
    after those of [seen]. *)
Fixpoint firstSeenFrom (seen : list string) (ks : list string) : list string :=
  match ks with
  | [] => seen
  | k :: rest =>
      firstSeenFrom
        (if existsb (String.eqb k) seen then seen else (seen ++ [k])%list) rest
  end.

Definition firstSeen (ks : list string) : list string := firstSeenFrom [] ks.

(** A row that names a referring clinic: the trimmed 診所名稱 cell is not
    empty. *)
Definition hasClinicName (customer : Customer) : bool :=
  JsString.truthy
    (JsString.trim (JsString.orElse (JsObject.get "診所名稱" customer) "")).

(** The clinic name of a row, and a row counted in an entry of the clinic
    aggregate: it names a clinic, by a name under which an entry can be. *)
Definition clinicNameOf (customer : Customer) : string :=
  JsString.trim (JsString.orElse (JsObject.get "診所名稱" customer) "").

Definition hasClinicEntry (customer : Customer) : bool :=
  hasClinicName customer && entryName (clinicNameOf customer).

(** What the clinic pass keeps true of every entry. *)
Definition clinicEntryOk (b : Clinic.t) : Prop :=
  Clinic.clinic b <> ""
  /\ 1 <= Clinic.total b
  /\ Clinic.potential b <= Clinic.total b
  /\ Clinic.dealt b <= Clinic.potential b.

(** A row that names a referring store: it has a header with both 門市 and
    自帶 whose trimmed cell is neither empty nor the placeholder. *)
Definition hasStoreName (customer : Customer) : bool :=
  match find (fun k => JsString.includes "門市" k && JsString.includes "自帶" k)
             (JsObject.keys customer) with
  | None => false
  | Some storeKey =>
      JsString.truthy storeKey
      && JsString.truthy
           (JsString.trim (JsString.orElse (JsObject.get storeKey customer) ""))
      && negb (String.eqb
                 (JsString.trim (JsString.orElse (JsObject.get storeKey customer) ""))
                 "#N/A")
  end.

(** The store name of a row, and a row counted in an entry of the store
    aggregate. *)
Definition storeNameOf (customer : Customer) : string :=
  match find (fun k => JsString.includes "門市" k && JsString.includes "自帶" k)
             (JsObject.keys customer) with
  | None => ""
  | Some storeKey =>
      JsString.trim (JsString.orElse (JsObject.get storeKey customer) "")
  end.

Definition hasStoreEntry (customer : Customer) : bool :=
  hasStoreName customer && entryName (storeNameOf customer).

Definition storeEntryOk (b : Store.t) : Prop :=
  Store.store b <> "" /\ Store.store b <> "#N/A"
  /\ 1 <= Store.total b /\ Store.potential b <= Store.total b.

(** A row of the hearing-screening campaign whose service date the host
    can read. *)
Definition inHearingCampaign (newDate : string -> option JsDate.t)
    (customer : Customer) : bool :=
  JsString.includes "聽篩" (HearingPass.sourceVal customer)
  && JsString.truthy (serviceDateOf customer)
  && match newDate (serviceDateOf customer) with Some _ => true | None => false end.

Definition hearingEntryOk (b : Hearing.t) : Prop :=
  1 <= Hearing.total b
  /\ Hearing.potential b <= Hearing.total b
  /\ Hearing.dealt b <= Hearing.potential b.

(** A row whose service date the host can read: the rows that the monthly
    pass counts. *)
Definition hasServiceDate (newDate : string -> option JsDate.t)
    (customer : Customer) : bool :=
  JsString.truthy (serviceDateOf customer)
  && match newDate (serviceDateOf customer) with Some _ => true | None => false end.

(** A key under which an assignment creates a property. *)
Definition assignable (k : string) : bool := negb (String.eqb k "__proto__").

(** A text of ASCII characters only. *)
Fixpoint asciiOnly (s : string) : bool :=
  match s with
  | EmptyString => true
  | String c rest => (JsString.code c <? 128)%N && asciiOnly rest
  end.

(** A text made of decimal digits only. *)
Fixpoint allDigits (s : string) : bool :=
  match s with
  | EmptyString => true
  | String c rest => JsString.isDigit c && allDigits rest
  end.

(* ================================================================== *)
(** ** Other handlers of the component *)

(** A character of the class [[a-zA-Z0-9-_]]. *)
Definition isIdChar (c : ascii) : bool :=
  let n := JsString.code c in
  ((97 <=? n) && (n <=? 122) || (65 <=? n) && (n <=? 90)
   || (48 <=? n) && (n <=? 57) || (n =? 45) || (n =? 95))%N.

(** The longest run of such characters at the head of [s], and the rest. *)
Fixpoint spanId (s : string) : string * string :=
  match s with
  | EmptyString => (EmptyString, EmptyString)
  | String c rest =>
      if isIdChar c
      then let '(d, r) := spanId rest in (String c d, r)
      else (EmptyString, s)
  end.

(** [/\/spreadsheets\/d\/([a-zA-Z0-9-_]+)/] at the head of [s]: the group. *)
Definition matchSpreadsheetId (s : string) : option string :=
  bindO (JsString.dropPrefix "/spreadsheets/d/" s) (fun r =>
  let '(id, _) := spanId r in
  if nonEmpty id then Some id else None).

Definition extractSpreadsheetId (url : string) : string :=
  match regexSearch matchSpreadsheetId url with
  | Some id => id
  | None => ""
  end.

(** What [handleSheetUrlSubmit] decides from the text of the URL field: to
    keep the id and fetch the metadata of the spreadsheet (the request
    itself is outside the model), or to set an error. *)
Inductive SubmitOutcome : Type :=
| FetchMetadata (id : string)
| SubmitError (message : string).

Definition handleSheetUrlSubmit (sheetUrl : string) : SubmitOutcome :=
  let id := extractSpreadsheetId sheetUrl in
  if JsString.truthy id then FetchMetadata id
  else SubmitError "Invalid Google Sheets URL. Please check the URL and try again.".

(** [handleLogout], on the part of the state that is modelled here.  (It
    also resets the user, the token, the sheet list, the selected sheet, the
    spreadsheet id, the URL and the selected store.)  It calls no setter for
    the window, the threshold and the hearing-screening aggregate. *)
Definition handleLogout (st : AppState) : AppState :=
  {| sheetData := None;
     error := "";
     customerAnalysis := None;
     dateRange := dateRange st;
     ptaThreshold := ptaThreshold st;
     salesmenAnalysis := None;
     clinicAnalysis := None;
     storeReferralAnalysis := None;
     hearingScreeningAnalysis := hearingScreeningAnalysis st |}.

(** A text made of characters of the id class only. *)
Fixpoint allIdChars (s : string) : bool :=
  match s with
  | EmptyString => true
  | String c rest => isIdChar c && allIdChars rest
  end.

(** [a <= b] on binary64 values. *)
Definition notAbove (a b : number) : bool := SFleb a b.

(** A number that is +0, positive or +Infinity: neither NaN nor negative. *)
Definition isNonNegative (x : number) : bool :=
  match x with
  | S754_zero false | S754_infinity false | S754_finite false _ _ => true
  | _ => false
  end.

(* ================================================================== *)
(** ** Properties *)

(** *** Dictionaries *)

Section DictFacts.
Context {V : Type}.
Implicit Types (o : JsObject.t V) (k : string) (f : V -> V).

Lemma get_adjust k k' f o :
  JsObject.get k (JsObject.adjust k' f o) =
  if String.eqb k k' then option_map f (JsObject.get k o) else JsObject.get k o.
Proof.
  induction o as [|[k0 v0] o IH]; simpl.
  - now destruct (String.eqb k k').
  - destruct (String.eqb k' k0) eqn:E0; simpl.
    + apply String.eqb_eq in E0; subst k0.
      destruct (String.eqb k k') eqn:E; simpl.
      * reflexivity.
      * reflexivity.
    + destruct (String.eqb k k0) eqn:E1; simpl.
      * apply String.eqb_eq in E1; subst k0.
        destruct (String.eqb k k') eqn:E; [|reflexivity].
        apply String.eqb_eq in E; subst k'.
        rewrite String.eqb_refl in E0; discriminate.
      * exact IH.
Qed.

Lemma get_adjust_proj {W : Type} (proj : V -> W) k k' f o :
  (forall v, proj (f v) = proj v) ->
  option_map proj (JsObject.get k (JsObject.adjust k' f o)) =
  option_map proj (JsObject.get k o).
Proof.
  intros Hf. rewrite get_adjust.
  destruct (String.eqb k k'); [|reflexivity].
  destruct (JsObject.get k o); simpl; [now rewrite Hf | reflexivity].
Qed.

Lemma adjust_compose k f g o :
  JsObject.adjust k g (JsObject.adjust k f o) =
  JsObject.adjust k (fun v => g (f v)) o.
Proof.
  induction o as [|[k0 v0] o IH]; simpl; [reflexivity|].
  destruct (String.eqb k k0) eqn:E; simpl; rewrite E; [reflexivity|].
  now rewrite IH.
Qed.

Lemma Forall_adjust (P : V -> Prop) k f o :
  (forall v, P v -> P (f v)) ->
  Forall (fun kv => P (snd kv)) o ->
  Forall (fun kv => P (snd kv)) (JsObject.adjust k f o).
Proof.
  intros Hf. induction 1 as [|[k0 v0] o Hv Ho IH]; simpl; [constructor|].
  destruct (String.eqb k k0); constructor; simpl in *; auto.
Qed.

Lemma Forall_set (P : V -> Prop) k v o :
  P v ->
  Forall (fun kv => P (snd kv)) o ->
  Forall (fun kv => P (snd kv)) (JsObject.set k v o).
Proof.
  intros Hv. induction 1 as [|[k0 v0] o Hv0 Ho IH]; simpl.
  - constructor; [exact Hv | constructor].
  - destruct (String.eqb k k0); constructor; simpl in *; auto.
Qed.

(** The lookup finds the own property first, and nothing at all under a
    key that [Object.prototype] does not define either. *)
Lemma read_own k o v : JsObject.get k o = Some v -> JsObject.read k o = JsObject.Own v.
Proof. intros H. unfold JsObject.read. now rewrite H. Qed.

Lemma read_undefined k o :
  JsObject.read k o = JsObject.Undefined <->
  JsObject.get k o = None /\ JsObject.inherited k = false.
Proof.
  unfold JsObject.read.
  destruct (JsObject.get k o); [|destruct (JsObject.inherited k)];
    split; try discriminate; try (intros [? ?]; discriminate); auto.
Qed.

Lemma read_plain k o :
  JsObject.inherited k = false ->
  JsObject.read k o =
  match JsObject.get k o with
  | Some v => JsObject.Own v
  | None => JsObject.Undefined
  end.
Proof. intros H. unfold JsObject.read. now rewrite H. Qed.

Lemma Forall_forEachValue (P Q : V -> Prop) f o :
  (forall v, P v -> Q (f v)) ->
  Forall (fun kv => P (snd kv)) o ->
  Forall (fun kv => Q (snd kv)) (JsObject.forEachValue f o).
Proof.
  intros Hf. unfold JsObject.forEachValue.
  induction 1; simpl; constructor; simpl; auto.
Qed.

(** The guard [if (!o[k]) o[k] = v] under a key that [Object.prototype]
    does not define. *)
Lemma guard_plain k (x y : JsObject.t V) o :
  JsObject.inherited k = false ->
  match JsObject.read k o with
  | JsObject.Undefined => x
  | _ => y
  end
  = match JsObject.get k o with
    | Some _ => y
    | None => x
    end.
Proof. intros H. rewrite (read_plain k o H). now destruct (JsObject.get k o). Qed.

End DictFacts.

Lemma asciiOnly_app (a b : string) :
  asciiOnly (a ++ b) = asciiOnly a && asciiOnly b.
Proof.
  induction a as [|c a IH]; simpl; [reflexivity|].
  now rewrite IH, andb_assoc.
Qed.

(** The members of [Object.prototype] have ASCII names. *)
Lemma inherited_ascii (k : string) :
  JsObject.inherited k = true -> asciiOnly k = true.
Proof.
  unfold JsObject.inherited, JsObject.prototypeKeys. cbn [existsb].
  rewrite !orb_true_iff, !String.eqb_eq.
  intros H. decompose [or] H; subst; try reflexivity; discriminate.
Qed.

(** A month key is the name of no such member. *)
Lemma monthKeyOf_plain (date : JsDate.t) :
  JsObject.inherited (monthKeyOf date) = false.
Proof.
  destruct (JsObject.inherited (monthKeyOf date)) eqn:E; [|reflexivity].
  apply inherited_ascii in E. unfold monthKeyOf in E.
  rewrite !asciiOnly_app in E.
  change (asciiOnly "年") with false in E.
  now rewrite andb_false_r in E.
Qed.

Create HintDb dict.
#[local] Hint Resolve Forall_adjust Forall_set : dict.

(** *** The conversion flag *)

Lemma cellIs_true (customer : Customer) (k lit : string) :
  cellIs customer k lit = true <-> JsObject.get k customer = Some lit.
Proof.
  unfold cellIs, JsString.strictEq.
  destruct (JsObject.get k customer) as [s|].
  - rewrite String.eqb_eq. split; [intros ->; reflexivity | now intros [= ->]].
  - split; discriminate.
Qed.

(** Absent keys are not matches. *)
Lemma cellIs_absent (customer : Customer) (k lit : string) :
  JsObject.get k customer = None -> cellIs customer k lit = false.
Proof. unfold cellIs. now intros ->. Qed.

Lemma orders_count (threshold : number) (customersArray : list Customer) :
  SalesmenPass.orders (SalesmenPass.run threshold customersArray) =
  length (filter SalesmenPass.isDealt customersArray).
Proof.
  unfold SalesmenPass.run.
  destruct (SalesmenPass.withRevenue _ _) as [sa rev]; simpl.
  unfold SalesmenPass.counted.
  generalize (fold_left SalesmenPass.initStep customersArray JsObject.empty).
  intros sa0.
  assert (G : forall cs acc,
    SalesmenPass.totalOrders (fold_left (SalesmenPass.countStep threshold) cs acc)
    = SalesmenPass.totalOrders acc + length (filter SalesmenPass.isDealt cs)).
  { induction cs as [|c cs IH]; intros acc; simpl; [lia|].
    rewrite IH. unfold SalesmenPass.countStep.
    destruct (SalesmenPass.isPotentialCustomer threshold c);
      destruct (SalesmenPass.isDealt c); simpl; lia. }
  rewrite G. reflexivity.
Qed.

(** C1, as amended.  The conversion flag of the salesperson pass, which
    also feeds the global totals, holds exactly when 是否成交, 是否借機 or
    成交 is 是 or TRUE, or 是否有借機 is TRUE, or 狀態 is 成交 or 已成交; an
    absent key never matches.  It implies the rule of the specification and
    misses it only where 是否有借機 is 是.  The hearing-screening pass
    evaluates the same expression, and the global order count is the number
    of records with the flag. *)
Theorem C1_converted_flag :
  forall customer : Customer,
    (SalesmenPass.isDealt customer = true <->
       JsObject.get "是否成交" customer = Some "是"
       \/ JsObject.get "是否成交" customer = Some "TRUE"
       \/ JsObject.get "是否借機" customer = Some "是"
       \/ JsObject.get "是否借機" customer = Some "TRUE"
       \/ JsObject.get "是否有借機" customer = Some "TRUE"
       \/ JsObject.get "成交" customer = Some "是"
       \/ JsObject.get "成交" customer = Some "TRUE"
       \/ JsObject.get "狀態" customer = Some "成交"
       \/ JsObject.get "狀態" customer = Some "已成交")
    /\ (SalesmenPass.isDealt customer = true -> specIsConverted customer = true)
    /\ (specIsConverted customer = true ->
        SalesmenPass.isDealt customer = true
        \/ JsObject.get "是否有借機" customer = Some "是")
    /\ HearingPass.isDealtHS customer = SalesmenPass.isDealt customer
    /\ (forall threshold customersArray,
          SalesmenPass.orders (SalesmenPass.run threshold customersArray) =
          length (filter SalesmenPass.isDealt customersArray)).
Proof.
  intros customer.
  assert (Hchar : SalesmenPass.isDealt customer = true <->
       JsObject.get "是否成交" customer = Some "是"
       \/ JsObject.get "是否成交" customer = Some "TRUE"
       \/ JsObject.get "是否借機" customer = Some "是"
       \/ JsObject.get "是否借機" customer = Some "TRUE"
       \/ JsObject.get "是否有借機" customer = Some "TRUE"
       \/ JsObject.get "成交" customer = Some "是"
       \/ JsObject.get "成交" customer = Some "TRUE"
       \/ JsObject.get "狀態" customer = Some "成交"
       \/ JsObject.get "狀態" customer = Some "已成交").
  { unfold SalesmenPass.isDealt.
    rewrite !orb_true_iff, !cellIs_true. tauto. }
  assert (Hspec : specIsConverted customer = true <->
       JsObject.get "是否成交" customer = Some "是"
       \/ JsObject.get "是否成交" customer = Some "TRUE"
       \/ JsObject.get "是否借機" customer = Some "是"
       \/ JsObject.get "是否借機" customer = Some "TRUE"
       \/ JsObject.get "是否有借機" customer = Some "是"
       \/ JsObject.get "是否有借機" customer = Some "TRUE"
       \/ JsObject.get "成交" customer = Some "是"
       \/ JsObject.get "成交" customer = Some "TRUE"
       \/ JsObject.get "狀態" customer = Some "成交"
       \/ JsObject.get "狀態" customer = Some "已成交").
  { unfold specIsConverted. simpl existsb.
    rewrite !orb_true_iff, !cellIs_true. intuition discriminate. }
  split; [exact Hchar|].
  split; [rewrite Hchar, Hspec; intros H; decompose [or] H; auto 15|].
  split; [rewrite Hchar, Hspec; intros H; decompose [or] H; auto 15|].
  split.
  - unfold HearingPass.isDealtHS, SalesmenPass.isDealt. reflexivity.
  - intros threshold customersArray. apply orders_count.
Qed.

(** C1, as stated, fails.  A record whose only marker is 是否有借機 = 是 is
    converted by the rule of the specification and by no pass of the code;
    and a record whose only marker is 狀態 = 成交 is converted in the
    salesperson pass but not in the monthly pass, so the passes do not share
    one flag. *)
Lemma C1_counterexample :
  specIsConverted [("初次到店", "2024/03/15"); ("是否有借機", "是")] = true
  /\ SalesmenPass.isDealt [("初次到店", "2024/03/15"); ("是否有借機", "是")] = false
  /\ SalesmenPass.isDealt [("初次到店", "2024/03/15"); ("狀態", "成交")] = true
  /\ MonthlyPass.isDealt [("初次到店", "2024/03/15"); ("狀態", "成交")] = false.
Proof. repeat split; reflexivity. Qed.

(** *** The potential flag *)

Lemma gt_NaN_l (x : number) : gt NaN x = false.
Proof. now destruct x. Qed.

Lemma gt_NaN_r (x : number) : gt x NaN = false.
Proof. now destruct x. Qed.

Lemma isNaN_eq (x : number) : isNaN x = true -> x = NaN.
Proof. now destruct x. Qed.

Lemma includes_nonempty (needle : string) :
  needle <> "" -> JsString.includes needle "" = false.
Proof. destruct needle; [congruence | reflexivity]. Qed.

(** The ear's PTA is read from the first key that names the ear and, in
    upper case, PTA. *)
Lemma getEarPTA_found (customer : Customer) (ear key : string) :
  find (fun k => JsString.includes (ear ++ "耳") k
                 && JsString.includes "PTA" (JsString.toUpperCase k))
       (JsObject.keys customer) = Some key ->
  getEarPTA customer ear = parseNumber (JsObject.get key customer).
Proof.
  intros Hfind. unfold getEarPTA. rewrite Hfind.
  apply find_some in Hfind. destruct Hfind as [_ Hkey].
  apply andb_prop in Hkey. destruct Hkey as [Hear _].
  destruct key; [|reflexivity].
  rewrite includes_nonempty in Hear; [discriminate|].
  destruct ear; discriminate.
Qed.

(** C3.  In the salesperson pass a record is potential exactly when its
    left-ear PTA exceeds the threshold, or its right-ear PTA does, or it is
    converted.  The PTA of an ear is the number read from the cell under
    the first key that names the ear and PTA, so a record with such a cell
    above the threshold is potential.  A comparison with NaN is false on
    either side, a record without a PTA column for an ear or with a PTA
    cell that holds no digit has NaN for that ear, and a record whose two
    ears are NaN and that is not converted is not potential. *)
Theorem C3_potential_flag :
  forall (threshold : number) (customer : Customer),
    (SalesmenPass.isPotentialCustomer threshold customer = true <->
       gt (getEarPTA customer "左") threshold = true
       \/ gt (getEarPTA customer "右") threshold = true
       \/ SalesmenPass.isDealt customer = true)
    /\ (forall ear key,
          find (fun k => JsString.includes (ear ++ "耳") k
                         && JsString.includes "PTA" (JsString.toUpperCase k))
               (JsObject.keys customer) = Some key ->
          getEarPTA customer ear = parseNumber (JsObject.get key customer))
    /\ (forall ear key cell,
          ear = "左" \/ ear = "右" ->
          find (fun k => JsString.includes (ear ++ "耳") k
                         && JsString.includes "PTA" (JsString.toUpperCase k))
               (JsObject.keys customer) = Some key ->
          JsObject.get key customer = Some cell ->
          gt (parseNumber (Some cell)) threshold = true ->
          SalesmenPass.isPotentialCustomer threshold customer = true)
    /\ gt NaN threshold = false
    /\ (forall ear,
          find (fun k => JsString.includes (ear ++ "耳") k
                         && JsString.includes "PTA" (JsString.toUpperCase k))
               (JsObject.keys customer) = None ->
          getEarPTA customer ear = NaN)
    /\ (forall v, cleanNumeric v = "" -> parseNumber (Some v) = NaN)
    /\ (isNaN (getEarPTA customer "左") = true ->
        isNaN (getEarPTA customer "右") = true ->
        SalesmenPass.isDealt customer = false ->
        SalesmenPass.isPotentialCustomer threshold customer = false).
Proof.
  intros threshold customer.
  split.
  { unfold SalesmenPass.isPotentialCustomer. rewrite !orb_true_iff. tauto. }
  split; [intros ear key; apply getEarPTA_found|].
  split.
  { intros ear key cell Hear Hfind Hcell Hgt.
    unfold SalesmenPass.isPotentialCustomer.
    destruct Hear as [-> | ->];
      rewrite (getEarPTA_found _ _ _ Hfind), Hcell, Hgt;
      [reflexivity | now rewrite orb_true_r]. }
  split; [apply gt_NaN_l|].
  split; [intros ear Hfind; unfold getEarPTA; now rewrite Hfind|].
  split.
  { intros v Hv. unfold parseNumber. rewrite Hv.
    destruct (negb (JsString.truthyOpt (Some v))); reflexivity. }
  intros Hl Hr Hd. unfold SalesmenPass.isPotentialCustomer.
  rewrite (isNaN_eq _ Hl), (isNaN_eq _ Hr), !gt_NaN_l, Hd. reflexivity.
Qed.

(** At threshold 40, a record whose left-ear cell holds 50 is potential, and
    a record with a right-ear cell that holds no digit, no left-ear column
    and no conversion marker is not. *)
Lemma C3_potential_flag_witness :
  SalesmenPass.isPotentialCustomer (ofZ 40)
    [("初次到店", "2024/03/15"); ("左耳PTA", "50"); ("右耳PTA", "20")] = true
  /\ SalesmenPass.isPotentialCustomer (ofZ 40)
       [("初次到店", "2024/03/15"); ("右耳PTA", "N/A")] = false.
Proof.
  split.
  - refine (proj1 (proj2 (proj2
      (C3_potential_flag (ofZ 40)
         [("初次到店", "2024/03/15"); ("左耳PTA", "50"); ("右耳PTA", "20")])))
      "左" "左耳PTA" "50" _ _ _ _);
      [now left | vm_compute; reflexivity | reflexivity
      | vm_compute; reflexivity].
  - apply (C3_potential_flag (ofZ 40)
             [("初次到店", "2024/03/15"); ("右耳PTA", "N/A")]);
      vm_compute; reflexivity.
Defined.

(** *** The amount parser *)

Lemma cleanNumeric_filter (v : string) :
  cleanNumeric v =
  string_of_list_ascii
    (filter (fun c => JsString.isDigit c || Ascii.eqb c "."%char)
            (list_ascii_of_string v)).
Proof.
  induction v as [|c v IH]; simpl; [reflexivity|].
  destruct (JsString.isDigit c || Ascii.eqb c "."%char); simpl; now rewrite IH.
Qed.

Lemma validAmount_NaN (amount : number) :
  isNaN amount = true -> validAmount amount = false.
Proof. unfold validAmount. now intros ->. Qed.

Ltac same_projection :=
  repeat (rewrite get_adjust_proj by (intros; reflexivity)); try reflexivity.

(** C7, as amended.  The amount parser keeps the decimal digits and points
    of the text and reads the result as a floating-point number;
    NT$152,000.00 gives 152000; an undefined, empty or fully stripped text
    gives NaN, which is not zero and not a valid amount; and a record whose
    amount is NaN leaves every sum of amounts as it was: the salesperson
    and global sums, and the [totalAmount] of every monthly, clinic and
    hearing-screening entry.  The one average, that of a month, is its sum
    divided by its number of completed deals, and a converted record counts
    as a completed deal whatever its amount: with a NaN amount it raises
    the divisor and leaves the sum. *)
Theorem C7_parse_amount :
  (forall v,
      cleanNumeric v =
      string_of_list_ascii
        (filter (fun c => JsString.isDigit c || Ascii.eqb c "."%char)
                (list_ascii_of_string v)))
  /\ (forall v, v <> "" -> parseAmount (Some v) = parseFloat (cleanNumeric v))
  /\ parseAmount (Some "NT$152,000.00") = ofZ 152000
  /\ parseAmount None = NaN
  /\ parseAmount (Some "") = NaN
  /\ (forall v, cleanNumeric v = "" -> parseAmount (Some v) = NaN)
  /\ NaN <> zero
  /\ validAmount NaN = false
  /\ (forall acc customer,
        isNaN (parseAmount (Some (JsString.orElse (amountCell customer) ""))) = true ->
        SalesmenPass.amountStep acc customer = acc)
  /\ (forall threshold customer monthKey md k,
        isNaN (parseAmount (Some (JsString.orElse (amountCell customer) ""))) = true ->
        option_map MonthlyReport.totalAmount
          (JsObject.get k (MonthlyPass.tally threshold customer monthKey md))
        = option_map MonthlyReport.totalAmount (JsObject.get k md))
  /\ (forall threshold customer clinicName cs k,
        isNaN (parseAmount (amountCell customer)) = true ->
        option_map Clinic.totalAmount
          (JsObject.get k (ClinicPass.tally threshold customer clinicName cs))
        = option_map Clinic.totalAmount (JsObject.get k cs))
  /\ (forall threshold customer monthKey hs k,
        isNaN (parseAmount (amountCell customer)) = true ->
        option_map Hearing.totalAmount
          (JsObject.get k (HearingPass.tally threshold customer monthKey hs))
        = option_map Hearing.totalAmount (JsObject.get k hs))
  /\ (forall threshold customer monthKey md b,
        JsObject.get monthKey md = Some b ->
        MonthlyPass.isDealt customer = true ->
        isNaN (parseAmount (Some (JsString.orElse (amountCell customer) ""))) = true ->
        exists b',
          JsObject.get monthKey (MonthlyPass.tally threshold customer monthKey md)
          = Some b'
          /\ MonthlyReport.completedDeals b' = S (MonthlyReport.completedDeals b)
          /\ MonthlyReport.totalAmount b' = MonthlyReport.totalAmount b)
  /\ (forall data,
        0 < MonthlyReport.completedDeals data ->
        MonthlyReport.averageAmount (MonthlyPass.derive data)
        = div (MonthlyReport.totalAmount data)
              (ofNat (MonthlyReport.completedDeals data))).
Proof.
  split; [exact cleanNumeric_filter|].
  split.
  { intros v Hv. unfold parseAmount. destruct v; [congruence | reflexivity]. }
  split; [vm_compute; reflexivity|].
  split; [reflexivity|].
  split; [reflexivity|].
  split.
  { intros v Hv. unfold parseAmount. rewrite Hv.
    destruct (negb (JsString.truthyOpt (Some v))); reflexivity. }
  split; [discriminate|].
  split; [reflexivity|].
  split.
  { intros [totalAmount totalRevenue] customer Hnan.
    unfold SalesmenPass.amountStep.
    rewrite (validAmount_NaN _ Hnan), andb_false_r. reflexivity. }
  split.
  { intros threshold customer monthKey md k Hnan.
    unfold MonthlyPass.tally. rewrite (validAmount_NaN _ Hnan).
    destruct (MonthlyPass.isDealt customer);
      destruct (MonthlyPass.isPotential threshold customer); same_projection. }
  split.
  { intros threshold customer clinicName cs k Hnan.
    unfold ClinicPass.tally. rewrite (validAmount_NaN _ Hnan).
    destruct (ClinicPass.isDealt customer);
      destruct (ClinicPass.isPotential threshold customer); same_projection. }
  split.
  { intros threshold customer monthKey hs k Hnan.
    unfold HearingPass.tally. rewrite (validAmount_NaN _ Hnan).
    destruct (HearingPass.isDealtHS customer);
      destruct (gt (getEarPTA customer "左") threshold
                || gt (getEarPTA customer "右") threshold); simpl;
      same_projection. }
  split.
  { intros threshold customer monthKey md b Hb Hd Hnan.
    unfold MonthlyPass.tally. rewrite Hd, (validAmount_NaN _ Hnan).
    destruct (MonthlyPass.isPotential threshold customer);
      rewrite ?get_adjust, ?String.eqb_refl, Hb; simpl;
      eexists; (split; [reflexivity|]); split; reflexivity. }
  intros data Hpos. unfold MonthlyPass.derive. simpl.
  apply Nat.ltb_lt in Hpos. now rewrite Hpos.
Qed.

(** A converted record with an empty amount cell adds nothing to the sums of
    the salesperson pass. *)
Lemma C7_parse_amount_witness :
  SalesmenPass.amountStep (ofZ 15000, ofZ 15000)
    [("是否成交", "是"); ("成交金額", "")] = (ofZ 15000, ofZ 15000).
Proof.
  apply C7_parse_amount. reflexivity.
Defined.

(** C7, as stated, fails for the average.  Two converted rows of March
    2024, the first with amount 100: when the second has an empty amount
    cell, the average of the month is 50, as it is when that cell holds 0,
    and not the 100 that the month has without the second row.  The NaN
    amount is in the average, with the weight of a zero. *)
Lemma C7_counterexample :
  monthlyAverages
    (performCustomerAnalysis slashDate
       (initialState
          [amountHeaders; amountRow "2024/03/15" "100"; amountRow "2024/03/16" ""]
          year2024 (ofZ 40)))
  = Some [ofZ 50]
  /\ monthlyAverages
       (performCustomerAnalysis slashDate
          (initialState
             [amountHeaders; amountRow "2024/03/15" "100";
              amountRow "2024/03/16" "0"]
             year2024 (ofZ 40)))
     = Some [ofZ 50]
  /\ monthlyAverages
       (performCustomerAnalysis slashDate
          (initialState [amountHeaders; amountRow "2024/03/15" "100"]
             year2024 (ofZ 40)))
     = Some [ofZ 100]
  /\ ofZ 50 <> ofZ 100.
Proof.
  repeat split; try (vm_compute; reflexivity). vm_compute. discriminate.
Qed.

(** *** Orders and potential customers of a salesperson *)

Lemma isDealt_isPotential (threshold : number) (customer : Customer) :
  SalesmenPass.isDealt customer = true ->
  SalesmenPass.isPotentialCustomer threshold customer = true.
Proof.
  intros H. unfold SalesmenPass.isPotentialCustomer. rewrite H.
  now rewrite !orb_true_r.
Qed.

Lemma init_invariant (P : Salesman.t -> Prop) :
  (forall k, P (SalesmenPass.fresh k)) ->
  forall cs sa,
    Forall (fun kv => P (snd kv)) sa ->
    Forall (fun kv => P (snd kv)) (fold_left SalesmenPass.initStep cs sa).
Proof.
  intros Hfresh. induction cs as [|c cs IH]; intros sa Hsa; simpl; [exact Hsa|].
  apply IH. unfold SalesmenPass.initStep.
  destruct (JsObject.read _ sa); auto with dict.
Qed.

Lemma count_invariant (threshold : number) :
  forall cs acc,
    Forall (fun kv => ordersWithinPotential (snd kv)) (SalesmenPass.entries acc) ->
    Forall (fun kv => ordersWithinPotential (snd kv))
      (SalesmenPass.entries (fold_left (SalesmenPass.countStep threshold) cs acc)).
Proof.
  induction cs as [|c cs IH]; intros acc Hacc; simpl; [exact Hacc|].
  apply IH. unfold SalesmenPass.countStep.
  destruct (SalesmenPass.isDealt c) eqn:Hd.
  - rewrite (isDealt_isPotential threshold c Hd). simpl.
    rewrite adjust_compose. apply Forall_adjust; [|exact Hacc].
    intros b Hb. unfold ordersWithinPotential in *. simpl. lia.
  - destruct (SalesmenPass.isPotentialCustomer threshold c); simpl; [|exact Hacc].
    apply Forall_adjust; [|exact Hacc].
    intros b Hb. unfold ordersWithinPotential in *. simpl. lia.
Qed.

Lemma revenue_invariant (P : Salesman.t -> Prop) (cs : list Customer) :
  (forall amount b, P b -> P (SalesmenPass.setRevenue amount b)) ->
  forall ks sa rev,
    Forall (fun kv => P (snd kv)) sa ->
    Forall (fun kv => P (snd kv))
      (fst (fold_left (SalesmenPass.revenueStep cs) ks (sa, rev))).
Proof.
  intros Hset.
  induction ks as [|k ks IH]; intros sa rev Hsa; cbn [fold_left]; [exact Hsa|].
  destruct (SalesmenPass.revenueStep cs (sa, rev) k) as [sa' rev'] eqn:E.
  unfold SalesmenPass.revenueStep in E.
  destruct (fold_left SalesmenPass.amountStep _ _) as [amount rev''] in E.
  injection E as <- _.
  apply IH. apply Forall_adjust; [|exact Hsa]. intros b. apply Hset.
Qed.

Lemma run_invariant (threshold : number) (cs : list Customer) :
  Forall (fun kv => ordersWithinPotential (snd kv))
    (SalesmenPass.analysis (SalesmenPass.run threshold cs)).
Proof.
  unfold SalesmenPass.run.
  destruct (SalesmenPass.withRevenue cs _) as [sa rev] eqn:E. simpl.
  apply Forall_forEachValue with (P := ordersWithinPotential).
  - intros b Hb. unfold SalesmenPass.deriveRate.
    destruct (0 <? Salesman.潛力客戶數 b)%nat; exact Hb.
  - replace sa with (fst (SalesmenPass.withRevenue cs
        (SalesmenPass.entries (SalesmenPass.counted threshold cs))))
      by now rewrite E.
    unfold SalesmenPass.withRevenue.
    apply revenue_invariant; [intros amount b Hb; exact Hb|].
    unfold SalesmenPass.counted. apply count_invariant. simpl.
    apply init_invariant; [|constructor].
    intros k. unfold ordersWithinPotential. simpl. lia.
Qed.

(** C8.  In every entry of the salesperson aggregate, once the passes are
    over, the potential-customer count is at least the order count. *)
Theorem C8_potential_at_least_orders :
  forall (threshold : number) (customersArray : list Customer)
         (salesman : string) (data : Salesman.t),
    In (salesman, data)
       (SalesmenPass.analysis (SalesmenPass.run threshold customersArray)) ->
    Salesman.訂單數量 data <= Salesman.潛力客戶數 data.
Proof.
  intros threshold cs salesman data Hin.
  pose proof (run_invariant threshold cs) as H.
  rewrite Forall_forall in H. exact (H _ Hin).
Qed.

(** Scenario A gives the salesperson 王小明 one order and one potential
    customer. *)
Lemma C8_potential_at_least_orders_witness :
  1 <= 1.
Proof.
  apply (C8_potential_at_least_orders (ofZ 40)
           [combine scenarioHeaders (scenarioRow "2024/03/15")]
           "王小明"
           {| Salesman.業務員 := "王小明";
              Salesman.訂單數量 := 1;
              Salesman.潛力客戶數 := 1;
              Salesman.成交率 := ofZ 100;
              Salesman.當季業績累積 := ofZ 15000 |}).
  vm_compute. left. reflexivity.
Defined.

(** *** Rates and averages *)

Section ArrayFacts.
Context {A : Type}.

Lemma In_insertSorted (after : A -> A -> bool) (x y : A) (l : list A) :
  In x (JsArray.insertSorted after y l) -> x = y \/ In x l.
Proof.
  induction l as [|z l IH]; simpl.
  - intros [->|[]]; now left.
  - destruct (after y z); simpl.
    + intros [->|H]; [right; now left|].
      destruct (IH H) as [->|H']; [now left | right; now right].
    + intros [->|H]; [now left | now right].
Qed.

Lemma In_sort (after : A -> A -> bool) (x : A) (l : list A) :
  In x (JsArray.sort after l) -> In x l.
Proof.
  unfold JsArray.sort. induction l as [|y l IH]; simpl; [tauto|].
  intros H. destruct (In_insertSorted _ _ _ _ H) as [->|H']; [now left|].
  right. now apply IH.
Qed.

End ArrayFacts.

Section EnumerationFacts.
Context {V : Type}.

Lemma In_insertIndexed (x y : Z * (string * V)) l :
  In x (JsObject.insertIndexed y l) -> x = y \/ In x l.
Proof.
  induction l as [|z l IH]; simpl.
  - intros [->|[]]; now left.
  - destruct (fst y <=? fst z)%Z; simpl.
    + intros [->|H]; [now left | now right].
    + intros [->|H]; [right; now left|].
      destruct (IH H) as [->|H']; [now left | right; now right].
Qed.

Lemma In_indexed (kv : string * V) (o : JsObject.t V) :
  In kv (map snd (JsObject.indexed o)) -> In kv o.
Proof.
  induction o as [|kv0 o IH]; simpl; [tauto|].
  destruct (JsObject.arrayIndex (fst kv0)) as [i|]; [|intros H; right; now apply IH].
  rewrite in_map_iff. intros [x [Hx Hin]].
  destruct (In_insertIndexed _ _ _ Hin) as [->|H'].
  - left. now rewrite <- Hx.
  - right. apply IH. rewrite in_map_iff. now exists x.
Qed.

Lemma In_entries (kv : string * V) (o : JsObject.t V) :
  In kv (JsObject.entries o) -> In kv o.
Proof.
  unfold JsObject.entries, JsObject.named. rewrite in_app_iff, filter_In.
  intros [H|[H _]]; [now apply In_indexed | exact H].
Qed.

Lemma In_values (v : V) (o : JsObject.t V) :
  In v (JsObject.values o) -> exists k, In (k, v) o.
Proof.
  unfold JsObject.values. rewrite in_map_iff. intros [[k v'] [Hv Hin]].
  simpl in Hv; subst v'. exists k. now apply In_entries.
Qed.

Lemma Forall_values (P : V -> Prop) (o : JsObject.t V) :
  Forall (fun kv => P (snd kv)) o ->
  forall v, In v (JsObject.values o) -> P v.
Proof.
  intros H v Hv. destruct (In_values _ _ Hv) as [k Hk].
  rewrite Forall_forall in H. exact (H _ Hk).
Qed.

End EnumerationFacts.

Lemma count_rate_unset (threshold : number) :
  forall cs acc,
    Forall (fun kv => salesmanRateUnset (snd kv)) (SalesmenPass.entries acc) ->
    Forall (fun kv => salesmanRateUnset (snd kv))
      (SalesmenPass.entries (fold_left (SalesmenPass.countStep threshold) cs acc)).
Proof.
  induction cs as [|c cs IH]; intros acc Hacc; simpl; [exact Hacc|].
  apply IH. unfold SalesmenPass.countStep.
  destruct (SalesmenPass.isPotentialCustomer threshold c);
    destruct (SalesmenPass.isDealt c); simpl;
    repeat (apply Forall_adjust; [intros b Hb; exact Hb|]); exact Hacc.
Qed.

Lemma salesmen_rates (threshold : number) (cs : list Customer) :
  Forall (fun kv => salesmanRateDerived (snd kv))
    (SalesmenPass.analysis (SalesmenPass.run threshold cs)).
Proof.
  unfold SalesmenPass.run.
  destruct (SalesmenPass.withRevenue cs _) as [sa rev] eqn:E. simpl.
  apply Forall_forEachValue with (P := salesmanRateUnset).
  - intros b Hb. unfold salesmanRateDerived, SalesmenPass.deriveRate.
    destruct (0 <? Salesman.潛力客戶數 b)%nat eqn:Hpos; simpl.
    + now rewrite Hpos.
    + now rewrite Hpos.
  - replace sa with (fst (SalesmenPass.withRevenue cs
        (SalesmenPass.entries (SalesmenPass.counted threshold cs))))
      by now rewrite E.
    unfold SalesmenPass.withRevenue.
    apply revenue_invariant; [intros amount b Hb; exact Hb|].
    unfold SalesmenPass.counted. apply count_rate_unset. simpl.
    apply init_invariant; [|constructor].
    intros k. reflexivity.
Qed.

Lemma monthly_tally_unset threshold customer monthKey md :
  Forall (fun kv => monthlyRatesUnset (snd kv)) md ->
  Forall (fun kv => monthlyRatesUnset (snd kv))
    (MonthlyPass.tally threshold customer monthKey md).
Proof.
  intros H. unfold MonthlyPass.tally.
  destruct (MonthlyPass.isDealt customer);
    destruct (MonthlyPass.isPotential threshold customer);
    try match goal with
        | |- context [validAmount ?a] => destruct (validAmount a)
        end;
    repeat (apply Forall_adjust; [intros b Hb; exact Hb|]); exact H.
Qed.

Lemma monthly_fold_unset newDate threshold :
  forall cs md,
    Forall (fun kv => monthlyRatesUnset (snd kv)) md ->
    Forall (fun kv => monthlyRatesUnset (snd kv))
      (fold_left (MonthlyPass.step newDate threshold) cs md).
Proof.
  induction cs as [|c cs IH]; intros md Hmd; simpl; [exact Hmd|].
  apply IH. unfold MonthlyPass.step.
  destruct (negb (JsString.truthy (serviceDateOf c))); [exact Hmd|].
  destruct (newDate (serviceDateOf c)) as [date|]; [|exact Hmd].
  apply monthly_tally_unset.
  destruct (JsObject.read (monthKeyOf date) md); try exact Hmd.
  apply Forall_set; [split; reflexivity | exact Hmd].
Qed.

Lemma monthly_rates newDate threshold cs :
  Forall (fun kv => monthlyRatesDerived (snd kv))
    (MonthlyPass.customerMonthlyData newDate threshold cs).
Proof.
  unfold MonthlyPass.customerMonthlyData.
  apply Forall_forEachValue with (P := monthlyRatesUnset).
  - intros b [Hr Ha]. unfold monthlyRatesDerived, MonthlyPass.derive. simpl.
    rewrite Hr, Ha. split; reflexivity.
  - apply monthly_fold_unset. constructor.
Qed.

Lemma clinic_rates threshold cs :
  Forall (fun kv => clinicRateDerived (snd kv))
    (ClinicPass.clinicSummary threshold cs).
Proof.
  unfold ClinicPass.clinicSummary, JsObject.forEachValue.
  rewrite Forall_map. apply Forall_forall. intros kv _. reflexivity.
Qed.

Lemma hearing_rates newDate threshold cs :
  Forall (fun kv => hearingRateDerived (snd kv))
    (HearingPass.hearingSummary newDate threshold cs).
Proof.
  unfold HearingPass.hearingSummary, JsObject.forEachValue.
  rewrite Forall_map. apply Forall_forall. intros kv _. reflexivity.
Qed.

(** C9.  Every stored rate and average is the value that the derive step
    computes from the final counters of its entry, after the fold: the
    quotient when the denominator is positive, and 0 (which is not NaN)
    when the denominator is zero.  This holds for the rate of every
    salesperson, for the overall rate, for the rate and the average of
    every month, and for the rate of every clinic and of every
    hearing-screening month. *)
Theorem C9_zero_denominator :
  forall (newDate : string -> option JsDate.t) (threshold : number)
         (customersArray : list Customer),
    (forall salesman data,
        In (salesman, data)
           (SalesmenPass.analysis (SalesmenPass.run threshold customersArray)) ->
        salesmanRateDerived data
        /\ (Salesman.潛力客戶數 data = 0 -> Salesman.成交率 data = zero))
    /\ (SalesmenPass.potentialCustomers (SalesmenPass.run threshold customersArray) = 0 ->
        SalesmenPass.overallConversionRate (SalesmenPass.run threshold customersArray)
        = zero)
    /\ (forall data,
          In data (MonthlyPass.sortedMonthlyData newDate threshold customersArray) ->
          monthlyRatesDerived data
          /\ (MonthlyReport.newCustomers data = 0 ->
              MonthlyReport.conversionRate data = zero)
          /\ (MonthlyReport.completedDeals data = 0 ->
              MonthlyReport.averageAmount data = zero))
    /\ (forall data,
          In data (ClinicPass.clinicArray threshold customersArray) ->
          clinicRateDerived data
          /\ (Clinic.total data = 0 -> Clinic.conversionRate data = zero))
    /\ (forall data,
          In data (HearingPass.hearingArray newDate threshold customersArray) ->
          hearingRateDerived data
          /\ (Hearing.total data = 0 -> Hearing.conversionRate data = zero))
    /\ isNaN zero = false.
Proof.
  intros newDate threshold cs.
  split.
  { intros salesman data Hin.
    pose proof (salesmen_rates threshold cs) as H.
    rewrite Forall_forall in H. specialize (H _ Hin). simpl in H.
    split; [exact H|]. intros H0. rewrite H, H0. reflexivity. }
  split.
  { unfold SalesmenPass.run.
    destruct (SalesmenPass.withRevenue cs _) as [sa rev]. simpl.
    intros ->. reflexivity. }
  split.
  { intros data Hin. apply In_sort in Hin.
    pose proof (Forall_values _ _ (monthly_rates newDate threshold cs) _ Hin)
      as [Hr Ha].
    split; [split; assumption|].
    split; intros H0; [rewrite Hr | rewrite Ha]; now rewrite H0. }
  split.
  { intros data Hin. apply In_sort in Hin.
    pose proof (Forall_values _ _ (clinic_rates threshold cs) _ Hin) as Hr.
    split; [exact Hr|]. intros H0. rewrite Hr, H0. reflexivity. }
  split.
  { intros data Hin. apply In_sort in Hin.
    pose proof (Forall_values _ _ (hearing_rates newDate threshold cs) _ Hin) as Hr.
    split; [exact Hr|]. intros H0. rewrite Hr, H0. reflexivity. }
  reflexivity.
Qed.

(** A salesperson whose only record is neither potential nor converted has
    rate 0. *)
Lemma C9_zero_denominator_witness :
  Salesman.成交率 (SalesmenPass.fresh "王小明") = zero.
Proof.
  destruct (C9_zero_denominator slashDate (ofZ 40)
              [[("初次到店", "2024/03/15"); ("主聽力師", "王小明")]]) as [H _].
  destruct (H "王小明" (SalesmenPass.fresh "王小明")) as [_ H0].
  - vm_compute. left. reflexivity.
  - apply H0. reflexivity.
Defined.

(** *** The date column *)

Lemma findIndexFrom_none {A : Type} (p : A -> bool) (l : list A) (i : nat) :
  (forall x, In x l -> p x = false) -> JsArray.findIndexFrom p i l = None.
Proof.
  revert i. induction l as [|x l IH]; intros i H; simpl; [reflexivity|].
  rewrite (H x (or_introl eq_refl)). apply IH. intros y Hy. apply H. now right.
Qed.

Lemma isDateHeader_false (header : string) :
  JsString.includes "初次到店" header = false ->
  JsString.includes "日期" header = false ->
  JsString.includes "Date" header = false ->
  isDateHeader header = false.
Proof. unfold isDateHeader. now intros -> -> ->. Qed.

Lemma rowDataOf_basic newDate range headers dateColumnIndex status amount i row rowData :
  rowDataOf newDate range headers dateColumnIndex status amount i row = Some rowData ->
  RowData.狀態 (RowData.基本信息 rowData) = basicField status row "無狀態欄位"
  /\ RowData.金額 (RowData.基本信息 rowData) = basicField amount row "無金額欄位".
Proof.
  unfold rowDataOf.
  destruct (nth_error row dateColumnIndex) as [cell|]; [|discriminate].
  destruct (negb (JsString.truthy cell)); [discriminate|].
  destruct (negb (JsString.truthy (JsString.trim cell))); [discriminate|].
  destruct (anchorDate newDate (JsString.trim cell)) as [date|]; [|discriminate].
  destruct (inWindow range date); [|discriminate].
  intros [= <-]. split; reflexivity.
Qed.

Lemma filteredRowsFrom_basic newDate range headers dateColumnIndex status amount :
  forall rows i rowData,
    In rowData (filteredRowsFrom newDate range headers dateColumnIndex
                  status amount i rows) ->
    exists row,
      In row rows
      /\ RowData.狀態 (RowData.基本信息 rowData) = basicField status row "無狀態欄位"
      /\ RowData.金額 (RowData.基本信息 rowData) = basicField amount row "無金額欄位".
Proof.
  induction rows as [|row rows IH]; intros i rowData; simpl; [tauto|].
  destruct (rowDataOf newDate range headers dateColumnIndex status amount i row)
    as [rd|] eqn:E.
  - intros [<-|Hin].
    + exists row. split; [now left|]. eapply rowDataOf_basic; eassumption.
    + destruct (IH _ _ Hin) as [r [Hr Hb]]. exists r. split; [now right|exact Hb].
  - intros Hin. destruct (IH _ _ Hin) as [r [Hr Hb]].
    exists r. split; [now right|exact Hb].
Qed.

(** C6, as amended.  Without a sheet, or with a sheet of fewer than two
    rows, the analysis returns at once: it sets no error and writes no
    result.  When the sheet has at least one data row and no header
    contains 初次到店, 日期 or Date, the analysis only sets the one error
    message: no result is written.  When the date column is found the
    analysis sets no error, whatever the other columns are, and where no
    header names a status (or an amount) every row kept by the filter
    carries the placeholder 無狀態欄位 (or 無金額欄位) for it. *)
Theorem C6_missing_date_column :
  forall (newDate : string -> option JsDate.t) (st : AppState),
    (sheetData st = None -> performCustomerAnalysis newDate st = st)
    /\ (forall grid : list (list string),
          sheetData st = Some {| values := grid |} ->
          length grid < 2 ->
          performCustomerAnalysis newDate st = st)
    /\ (forall (headers : list string) (rows : list (list string)),
          sheetData st = Some {| values := headers :: rows |} ->
          (rows <> [] ->
           (forall header, In header headers ->
              JsString.includes "初次到店" header = false
              /\ JsString.includes "日期" header = false
              /\ JsString.includes "Date" header = false) ->
           performCustomerAnalysis newDate st =
             setError "找不到日期相關欄位，請確認資料表包含初次到店日期" st
           /\ customerAnalysis (performCustomerAnalysis newDate st)
              = customerAnalysis st
           /\ salesmenAnalysis (performCustomerAnalysis newDate st)
              = salesmenAnalysis st
           /\ clinicAnalysis (performCustomerAnalysis newDate st) = clinicAnalysis st
           /\ storeReferralAnalysis (performCustomerAnalysis newDate st)
              = storeReferralAnalysis st
           /\ hearingScreeningAnalysis (performCustomerAnalysis newDate st)
              = hearingScreeningAnalysis st)
          /\ (forall dateColumnIndex,
                JsArray.findIndex isDateHeader headers = Some dateColumnIndex ->
                error (performCustomerAnalysis newDate st) = error st
                /\ forall rowData,
                     In rowData (filteredRows newDate (dateRange st) headers
                                   dateColumnIndex rows) ->
                     (JsArray.findIndex isStatusHeader headers = None ->
                      RowData.狀態 (RowData.基本信息 rowData) = "無狀態欄位")
                     /\ (JsArray.findIndex isAmountHeader headers = None ->
                         RowData.金額 (RowData.基本信息 rowData) = "無金額欄位"))).
Proof.
  intros newDate st. split; [|split].
  - intros Hnone. unfold performCustomerAnalysis. now rewrite Hnone.
  - intros grid Hsheet Hshort. unfold performCustomerAnalysis.
    rewrite Hsheet. cbn [values].
    destruct grid as [|headers [|row rows]]; [reflexivity | reflexivity|].
    simpl in Hshort. lia.
  - intros headers rows Hsheet. split.
    + intros Hrows Hnone.
      assert (E : performCustomerAnalysis newDate st =
                  setError "找不到日期相關欄位，請確認資料表包含初次到店日期" st).
      { unfold performCustomerAnalysis. rewrite Hsheet. cbn [values].
        destruct rows as [|row rows]; [congruence|].
        unfold JsArray.findIndex. rewrite findIndexFrom_none; [reflexivity|].
        intros h Hh. destruct (Hnone h Hh) as [H1 [H2 H3]].
        now apply isDateHeader_false. }
      rewrite E. repeat split; reflexivity.
    + intros dateColumnIndex Hidx. split.
      * unfold performCustomerAnalysis. rewrite Hsheet. cbn [values].
        destruct rows as [|row rows]; [reflexivity|].
        rewrite Hidx.
        destruct (filteredRows newDate (dateRange st) headers dateColumnIndex
                    (row :: rows)); reflexivity.
      * intros rowData Hin. unfold filteredRows in Hin.
        destruct (filteredRowsFrom_basic _ _ _ _ _ _ _ _ _ Hin) as [r [_ [Hs Ha]]].
        split; intros Hnone; rewrite Hnone in *; assumption.
Qed.

(** A two-row sheet without any date header: only the error is set.  The
    same sheet cut down to its header row: nothing is set. *)
Lemma C6_missing_date_column_witness :
  performCustomerAnalysis slashDate
    (initialState [["姓名"; "成交金額"]; ["王小明"; "15000"]] year2024 (ofZ 40))
  = setError "找不到日期相關欄位，請確認資料表包含初次到店日期"
      (initialState [["姓名"; "成交金額"]; ["王小明"; "15000"]] year2024 (ofZ 40))
  /\ performCustomerAnalysis slashDate
       (initialState [["姓名"; "成交金額"]] year2024 (ofZ 40))
     = initialState [["姓名"; "成交金額"]] year2024 (ofZ 40).
Proof.
  split.
  - refine (proj1 (proj1 (proj2 (proj2
      (C6_missing_date_column slashDate
         (initialState [["姓名"; "成交金額"]; ["王小明"; "15000"]] year2024 (ofZ 40))))
      ["姓名"; "成交金額"] [["王小明"; "15000"]] eq_refl) _ _)).
    + discriminate.
    + intros header [<-|[<-|[]]]; repeat split; reflexivity.
  - refine (proj1 (proj2
      (C6_missing_date_column slashDate
         (initialState [["姓名"; "成交金額"]] year2024 (ofZ 40))))
      [["姓名"; "成交金額"]] eq_refl _).
    simpl. lia.
Defined.

(** C6, as stated, fails on a sheet that holds its header row only: no
    header names a date, and the analysis returns at once without an error
    message. *)
Lemma C6_counterexample :
  (forall header, In header ["姓名"; "成交金額"] -> isDateHeader header = false)
  /\ performCustomerAnalysis slashDate
       (initialState [["姓名"; "成交金額"]] year2024 (ofZ 40))
     = initialState [["姓名"; "成交金額"]] year2024 (ofZ 40)
  /\ error (performCustomerAnalysis slashDate
              (initialState [["姓名"; "成交金額"]] year2024 (ofZ 40))) = "".
Proof.
  split; [intros header [<-|[<-|[]]]; reflexivity|].
  split; reflexivity.
Qed.

(** *** The date window *)

Lemma inWindow_iff (range : DateRange) (date : JsDate.t) :
  inWindow range date = true <->
  (startDateOf range <= date <= endDateOf range)%Z.
Proof.
  unfold inWindow. rewrite negb_true_iff, orb_false_iff, Z.ltb_ge, Z.gtb_ltb, Z.ltb_ge.
  tauto.
Qed.

Lemma inWindow_before (range : DateRange) (date : JsDate.t) :
  (date < startDateOf range)%Z -> inWindow range date = false.
Proof.
  intros H. destruct (inWindow range date) eqn:E; [|reflexivity].
  apply inWindow_iff in E. lia.
Qed.

Lemma rowDataOf_structural newDate range headers dateColumnIndex status amount
      i row cell date :
  nth_error row dateColumnIndex = Some cell ->
  JsString.truthy cell = true ->
  JsString.truthy (JsString.trim cell) = true ->
  structuralDate (JsString.trim cell) = Some date ->
  rowDataOf newDate range headers dateColumnIndex status amount i row =
  if inWindow range date
  then Some
    {| RowData.基本信息 :=
         {| RowData.原始行號 := i + 1;
            RowData.日期字段 := JsString.trim cell;
            RowData.年月 := monthKeyOf date;
            RowData.狀態 := basicField status row "無狀態欄位";
            RowData.金額 := basicField amount row "無金額欄位" |};
       RowData.所有欄位數據 := fillCells row 0 headers JsObject.empty |}
  else None.
Proof.
  intros Hcell Ht Htt Hd. unfold rowDataOf, anchorDate.
  rewrite Hcell, Ht, Htt, Hd. reflexivity.
Qed.

Lemma month_cases (m : Z) :
  (1 <= m <= 12)%Z ->
  m = 1%Z \/ m = 2%Z \/ m = 3%Z \/ m = 4%Z \/ m = 5%Z \/ m = 6%Z \/ m = 7%Z
  \/ m = 8%Z \/ m = 9%Z \/ m = 10%Z \/ m = 11%Z \/ m = 12%Z.
Proof. lia. Qed.

Ltac each_month H :=
  destruct (month_cases _ H) as
    [->|[->|[->|[->|[->|[->|[->|[->|[->|[->|[->| ->]]]]]]]]]]].

(** C5, as amended.  With the row of scenario A dated 2023/03/15 and a
    window inside 2024 the filter keeps no row, and the analysis then
    returns the state it was given: it writes no aggregate and no total. *)
Theorem C5_scenario_B :
  forall (newDate : string -> option JsDate.t) (st : AppState)
         (fromMonth toMonth : Z),
    sheetData st =
      Some {| values := [scenarioHeaders; scenarioRow "2023/03/15"] |} ->
    dateRange st =
      {| startYear := 2024; startMonth := fromMonth;
         endYear := 2024; endMonth := toMonth |} ->
    (1 <= fromMonth <= 12)%Z ->
    (1 <= toMonth <= 12)%Z ->
    filteredRows newDate (dateRange st) scenarioHeaders 0
      [scenarioRow "2023/03/15"] = []
    /\ performCustomerAnalysis newDate st = st.
Proof.
  intros newDate st fromMonth toMonth Hsheet Hrange Hfrom Hto.
  assert (Hrows : filteredRows newDate (dateRange st) scenarioHeaders 0
                    [scenarioRow "2023/03/15"] = []).
  { unfold filteredRows. cbn [filteredRowsFrom].
    rewrite (rowDataOf_structural _ _ _ _ _ _ _ _ "2023/03/15"
               (JsDate.make 2023 2 15)) by reflexivity.
    rewrite inWindow_before; [reflexivity|].
    rewrite Hrange. unfold startDateOf. cbn [startYear startMonth].
    each_month Hfrom; vm_compute; reflexivity. }
  split; [exact Hrows|].
  unfold performCustomerAnalysis. rewrite Hsheet. cbn [values].
  change (JsArray.findIndex isDateHeader scenarioHeaders) with (Some 0).
  cbv beta iota. rewrite Hrows. reflexivity.
Qed.

(** The whole of 2024 as the window, from the state that holds the sheet. *)
Lemma C5_scenario_B_witness :
  performCustomerAnalysis slashDate
    (initialState [scenarioHeaders; scenarioRow "2023/03/15"] year2024 (ofZ 40))
  = initialState [scenarioHeaders; scenarioRow "2023/03/15"] year2024 (ofZ 40).
Proof.
  apply (C5_scenario_B slashDate
           (initialState [scenarioHeaders; scenarioRow "2023/03/15"] year2024 (ofZ 40))
           1 12 eq_refl eq_refl); lia.
Defined.

(** C5, as stated, fails: the totals are not set to 0.  On a first run
    there is no analysis result at all afterwards; when scenario B follows
    scenario A in the same session, the totals of scenario A stay. *)
Lemma C5_counterexample :
  customerAnalysis
    (performCustomerAnalysis slashDate
       (initialState [scenarioHeaders; scenarioRow "2023/03/15"] year2024 (ofZ 40)))
  = None
  /\ option_map
       (fun a => (CustomerAnalysis.totalCustomers a,
                  CustomerAnalysis.totalCompletedDeals a,
                  CustomerAnalysis.totalAmount a,
                  CustomerAnalysis.overallConversionRate a))
       (customerAnalysis
          (performCustomerAnalysis slashDate
             (setSheetData [scenarioHeaders; scenarioRow "2023/03/15"]
                (performCustomerAnalysis slashDate
                   (initialState [scenarioHeaders; scenarioRow "2024/03/15"]
                      year2024 (ofZ 40))))))
     = Some (1, 1, ofZ 15000, ofZ 100).
Proof. split; vm_compute; reflexivity. Qed.

(** *** Scenario A *)

Lemma scenario_A_customers newDate range :
  (startDateOf range <= JsDate.make 2024 2 1)%Z ->
  (JsDate.make 2024 2 31 <= endDateOf range)%Z ->
  exists rowData,
    filteredRows newDate range scenarioHeaders 0 [scenarioRow "2024/03/15"]
    = [rowData]
    /\ customerObject scenarioHeaders rowData
       = combine scenarioHeaders (scenarioRow "2024/03/15").
Proof.
  intros Hstart Hend.
  unfold filteredRows. cbn [filteredRowsFrom].
  rewrite (rowDataOf_structural _ _ _ _ _ _ _ _ "2024/03/15"
             (JsDate.make 2024 2 15)) by reflexivity.
  assert (Hin : inWindow range (JsDate.make 2024 2 15) = true).
  { apply inWindow_iff.
    assert (JsDate.make 2024 2 1 <= JsDate.make 2024 2 15)%Z by (vm_compute; discriminate).
    assert (JsDate.make 2024 2 15 <= JsDate.make 2024 2 31)%Z by (vm_compute; discriminate).
    lia. }
  rewrite Hin. eexists. split; [reflexivity|]. vm_compute. reflexivity.
Qed.

(** C2.  Scenario A: with threshold 40, a window that covers March 2024 and
    a host that reads 2024/03/15 as a day of March 2024, the analysis gives
    exactly one monthly entry, 2024年3月, with one new customer, one completed
    deal, amount 15000 and rate 100, and one salesperson entry, 王小明, with
    one order, one potential customer and revenue 15000. *)
Theorem C2_scenario_A :
  forall (newDate : string -> option JsDate.t) (st : AppState) (date : JsDate.t),
    sheetData st =
      Some {| values := [scenarioHeaders; scenarioRow "2024/03/15"] |} ->
    ptaThreshold st = ofZ 40 ->
    (startDateOf (dateRange st) <= JsDate.make 2024 2 1)%Z ->
    (JsDate.make 2024 2 31 <= endDateOf (dateRange st))%Z ->
    newDate "2024/03/15" = Some date ->
    JsDate.getFullYear date = 2024%Z ->
    JsDate.getMonth date = 2%Z ->
    option_map CustomerAnalysis.monthlyData
      (customerAnalysis (performCustomerAnalysis newDate st))
    = Some [ {| MonthlyReport.month := "2024年3月";
                MonthlyReport.year := 2024;
                MonthlyReport.newCustomers := 1;
                MonthlyReport.completedDeals := 1;
                MonthlyReport.conversionRate := ofZ 100;
                MonthlyReport.totalAmount := ofZ 15000;
                MonthlyReport.averageAmount := ofZ 15000 |} ]
    /\ salesmenAnalysis (performCustomerAnalysis newDate st)
       = Some [ ("王小明",
                 {| Salesman.業務員 := "王小明";
                    Salesman.訂單數量 := 1;
                    Salesman.潛力客戶數 := 1;
                    Salesman.成交率 := ofZ 100;
                    Salesman.當季業績累積 := ofZ 15000 |}) ].
Proof.
  intros newDate st date Hsheet Hthr Hstart Hend Hparse Hyear Hmonth.
  destruct (scenario_A_customers newDate (dateRange st) Hstart Hend)
    as [rowData [Hrows Hcustomer]].
  unfold performCustomerAnalysis. rewrite Hsheet. cbn [values].
  change (JsArray.findIndex isDateHeader scenarioHeaders) with (Some 0).
  cbv beta iota. rewrite Hrows.
  unfold customersArrayOf. cbn [map]. rewrite Hcustomer.
  unfold analysed. cbn [customerAnalysis salesmenAnalysis option_map
                        CustomerAnalysis.monthlyData].
  rewrite Hthr. split.
  - f_equal.
    unfold MonthlyPass.sortedMonthlyData, MonthlyPass.customerMonthlyData.
    cbn [fold_left]. unfold MonthlyPass.step.
    change (serviceDateOf (combine scenarioHeaders (scenarioRow "2024/03/15")))
      with "2024/03/15".
    rewrite Hparse. cbn [JsString.truthy negb].
    unfold monthKeyOf. rewrite Hyear, Hmonth.
    vm_compute. reflexivity.
  - vm_compute. reflexivity.
Qed.

(** The whole of 2024 as the window, and a host that reads the slash form. *)
Lemma C2_scenario_A_witness :
  salesmenAnalysis
    (performCustomerAnalysis slashDate
       (initialState [scenarioHeaders; scenarioRow "2024/03/15"] year2024 (ofZ 40)))
  = Some [ ("王小明",
            {| Salesman.業務員 := "王小明";
               Salesman.訂單數量 := 1;
               Salesman.潛力客戶數 := 1;
               Salesman.成交率 := ofZ 100;
               Salesman.當季業績累積 := ofZ 15000 |}) ].
Proof.
  refine (proj2 (C2_scenario_A slashDate
           (initialState [scenarioHeaders; scenarioRow "2024/03/15"] year2024 (ofZ 40))
           (JsDate.make 2024 2 15) eq_refl eq_refl _ _ _ _ _));
    vm_compute; first [reflexivity | discriminate].
Defined.

(** *** The monthly and hearing-screening passes parse the date again *)

Lemma implicit_customers newDate range :
  (startDateOf range <= JsDate.make 2024 2 1)%Z ->
  (JsDate.make 2024 2 31 <= endDateOf range)%Z ->
  exists rowData,
    filteredRows newDate range referralHeaders 0 [referralRow "2024年3月15日"]
    = [rowData]
    /\ customerObject referralHeaders rowData
       = combine referralHeaders (referralRow "2024年3月15日").
Proof.
  intros Hstart Hend.
  unfold filteredRows. cbn [filteredRowsFrom].
  rewrite (rowDataOf_structural _ _ _ _ _ _ _ _ "2024年3月15日"
             (JsDate.make 2024 2 15)) by reflexivity.
  assert (Hin : inWindow range (JsDate.make 2024 2 15) = true).
  { apply inWindow_iff.
    assert (JsDate.make 2024 2 1 <= JsDate.make 2024 2 15)%Z by (vm_compute; discriminate).
    assert (JsDate.make 2024 2 15 <= JsDate.make 2024 2 31)%Z by (vm_compute; discriminate).
    lia. }
  rewrite Hin. eexists. split; [reflexivity|]. vm_compute. reflexivity.
Qed.

(** C10.  The monthly and the hearing-screening pass take the date text of
    a record from 服務日期, else from 初次到店, and give it to the Date
    constructor of the host only: a record whose text the host rejects
    changes neither aggregate, whatever the three date formats make of it.
    So with a host that rejects 2024年3月15日, a row dated so in 初次到店
    passes the window (third format), is counted in the global totals and in
    the salesperson, clinic and store aggregates, and is in no monthly and no
    hearing-screening entry: the monthly new customers sum to 0, below the
    total of 1. *)
Theorem C10_monthly_reparse :
  forall newDate : string -> option JsDate.t,
    (forall threshold customer md hs,
        newDate (serviceDateOf customer) = None ->
        MonthlyPass.step newDate threshold md customer = md
        /\ HearingPass.step newDate threshold hs customer = hs)
    /\ (forall st,
          sheetData st =
            Some {| values := [referralHeaders; referralRow "2024年3月15日"] |} ->
          ptaThreshold st = ofZ 40 ->
          (startDateOf (dateRange st) <= JsDate.make 2024 2 1)%Z ->
          (JsDate.make 2024 2 31 <= endDateOf (dateRange st))%Z ->
          newDate "2024年3月15日" = None ->
          exists a,
            customerAnalysis (performCustomerAnalysis newDate st) = Some a
            /\ CustomerAnalysis.totalCustomers a = 1
            /\ CustomerAnalysis.totalCompletedDeals a = 1
            /\ CustomerAnalysis.totalAmount a = ofZ 15000
            /\ CustomerAnalysis.monthlyData a = []
            /\ sumNewCustomers (CustomerAnalysis.monthlyData a)
               < CustomerAnalysis.totalCustomers a
            /\ salesmenAnalysis (performCustomerAnalysis newDate st)
               = Some [ ("王小明",
                         {| Salesman.業務員 := "王小明";
                            Salesman.訂單數量 := 1;
                            Salesman.潛力客戶數 := 1;
                            Salesman.成交率 := ofZ 100;
                            Salesman.當季業績累積 := ofZ 15000 |}) ]
            /\ clinicAnalysis (performCustomerAnalysis newDate st)
               = Some [ {| Clinic.clinic := "仁愛診所";
                           Clinic.total := 1;
                           Clinic.potential := 1;
                           Clinic.dealt := 1;
                           Clinic.conversionRate := ofZ 100;
                           Clinic.totalAmount := ofZ 15000 |} ]
            /\ storeReferralAnalysis (performCustomerAnalysis newDate st)
               = Some [ {| Store.store := "藝文店";
                           Store.total := 1;
                           Store.potential := 1 |} ]
            /\ hearingScreeningAnalysis (performCustomerAnalysis newDate st)
               = Some []).
Proof.
  intros newDate. split.
  - intros threshold customer md hs Hnone. split.
    + unfold MonthlyPass.step. rewrite Hnone.
      destruct (negb (JsString.truthy (serviceDateOf customer))); reflexivity.
    + unfold HearingPass.step. rewrite Hnone.
      destruct (negb (JsString.includes "聽篩" (HearingPass.sourceVal customer)));
        [reflexivity|].
      destruct (negb (JsString.truthy (serviceDateOf customer))); reflexivity.
  - intros st Hsheet Hthr Hstart Hend Hnone.
    destruct (implicit_customers newDate (dateRange st) Hstart Hend)
      as [rowData [Hrows Hcustomer]].
    unfold performCustomerAnalysis. rewrite Hsheet. cbn [values].
    change (JsArray.findIndex isDateHeader referralHeaders) with (Some 0).
    cbv beta iota. rewrite Hrows.
    unfold customersArrayOf. cbn [map]. rewrite Hcustomer.
    unfold analysed. rewrite Hthr.
    cbn [customerAnalysis salesmenAnalysis clinicAnalysis storeReferralAnalysis
         hearingScreeningAnalysis].
    match goal with
    | |- context [MonthlyPass.sortedMonthlyData ?n ?t ?cs] =>
        assert (Hm : MonthlyPass.sortedMonthlyData n t cs = [])
    end.
    { unfold MonthlyPass.sortedMonthlyData, MonthlyPass.customerMonthlyData.
      cbn [fold_left]. unfold MonthlyPass.step.
      change (serviceDateOf (combine referralHeaders (referralRow "2024年3月15日")))
        with "2024年3月15日".
      rewrite Hnone. reflexivity. }
    match goal with
    | |- context [HearingPass.hearingArray ?n ?t ?cs] =>
        assert (Hh : HearingPass.hearingArray n t cs = [])
    end.
    { unfold HearingPass.hearingArray, HearingPass.hearingSummary.
      cbn [fold_left]. unfold HearingPass.step.
      change (serviceDateOf (combine referralHeaders (referralRow "2024年3月15日")))
        with "2024年3月15日".
      rewrite Hnone.
      change (JsString.includes "聽篩"
                (HearingPass.sourceVal
                   (combine referralHeaders (referralRow "2024年3月15日"))))
        with true.
      reflexivity. }
    rewrite Hm, Hh. eexists. split; [reflexivity|].
    cbn [CustomerAnalysis.totalCustomers CustomerAnalysis.totalCompletedDeals
         CustomerAnalysis.totalAmount CustomerAnalysis.monthlyData].
    repeat split; try (vm_compute; reflexivity).
Qed.

(** The whole of 2024 as the window, and a host that reads the slash form
    only: the salesperson aggregate has the record that the monthly
    aggregate lacks. *)
Lemma C10_monthly_reparse_witness :
  exists a,
    customerAnalysis
      (performCustomerAnalysis slashDate
         (initialState [referralHeaders; referralRow "2024年3月15日"]
            year2024 (ofZ 40))) = Some a
    /\ CustomerAnalysis.totalCustomers a = 1
    /\ CustomerAnalysis.monthlyData a = [].
Proof.
  destruct (C10_monthly_reparse slashDate) as [_ H].
  destruct (H (initialState [referralHeaders; referralRow "2024年3月15日"]
                 year2024 (ofZ 40)) eq_refl eq_refl)
    as [a [Ha [Ht [_ [_ [Hm _]]]]]].
  - vm_compute. discriminate.
  - vm_compute. discriminate.
  - reflexivity.
  - exists a. repeat split; assumption.
Defined.

(** *** The window in calendar terms, and the rows outside it *)

Ltac eval_closed :=
  repeat match goal with
  | |- context [(Zpos ?a mod Zpos ?b)%Z] =>
      let v := eval vm_compute in (Zpos a mod Zpos b)%Z in
      change (Zpos a mod Zpos b)%Z with v
  | |- context [(Zpos ?a / Zpos ?b)%Z] =>
      let v := eval vm_compute in (Zpos a / Zpos b)%Z in
      change (Zpos a / Zpos b)%Z with v
  | |- context [(Zpos ?a + Zpos ?b)%Z] =>
      let v := eval vm_compute in (Zpos a + Zpos b)%Z in
      change (Zpos a + Zpos b)%Z with v
  | |- context [(0 + Zpos ?b)%Z] => change (0 + Zpos b)%Z with (Zpos b)
  | |- context [(0 mod Zpos ?b)%Z] => change (0 mod Zpos b)%Z with 0%Z
  | |- context [(0 / Zpos ?b)%Z] => change (0 / Zpos b)%Z with 0%Z
  | |- context [(Zpos ?a - Zpos ?b)%Z] =>
      let v := eval vm_compute in (Zpos a - Zpos b)%Z in
      change (Zpos a - Zpos b)%Z with v
  | |- context [if ?c then ?x else ?y] =>
      let v := eval vm_compute in c in
      match v with
      | true => change (if c then x else y) with x
      | false => change (if c then x else y) with y
      end
  end.


Lemma makeDay_last (y m : Z) :
  (1 <= m <= 12)%Z ->
  JsDate.makeDay y m 0 = JsDate.daysFromCivil y m (daysInMonth y m).
Proof.
  intros H. unfold JsDate.makeDay, daysInMonth, isLeapYear.
  each_month H; unfold JsDate.daysFromCivil; eval_closed;
    repeat match goal with
           | |- context [(?a =? ?b)%Z] => destruct (Z.eqb_spec a b)
           end;
    cbn [orb andb negb]; Z.div_mod_to_equations; lia.
Qed.

Lemma make_full_year (y m d : Z) :
  (100 <= y)%Z -> JsDate.make y m d = (JsDate.makeDay y m d * JsDate.msPerDay)%Z.
Proof.
  intros H. unfold JsDate.make.
  replace (y <=? 99)%Z with false by (symmetry; apply Z.leb_gt; lia).
  now rewrite andb_false_r.
Qed.


Lemma rowDataOf_parsed newDate range headers dateColumnIndex status amount i row :
  (exists rowData,
      rowDataOf newDate range headers dateColumnIndex status amount i row
      = Some rowData)
  <-> exists date,
        parsedDate newDate dateColumnIndex row = Some date
        /\ inWindow range date = true.
Proof.
  unfold rowDataOf, parsedDate.
  destruct (nth_error row dateColumnIndex) as [cell|];
    [|split; [intros [? [=]] | intros [? [[=] _]]]].
  destruct (JsString.truthy cell); cbn [negb andb];
    [|split; [intros [? [=]] | intros [? [[=] _]]]].
  destruct (JsString.truthy (JsString.trim cell)); cbn [negb];
    [|split; [intros [? [=]] | intros [? [[=] _]]]].
  destruct (anchorDate newDate (JsString.trim cell)) as [date|];
    [|split; [intros [? [=]] | intros [? [[=] _]]]].
  destruct (inWindow range date) eqn:E.
  - split; [intros _; now exists date | intros _; eexists; reflexivity].
  - split; [intros [? [=]] | intros [d [[= <-] H]]; congruence].
Qed.



Lemma passes_rowDataOf newDate range headers dateColumnIndex status amount i row :
  JsArray.findIndex isDateHeader headers = Some dateColumnIndex ->
  (exists rowData,
      rowDataOf newDate range headers dateColumnIndex status amount i row
      = Some rowData)
  <-> passes newDate range headers row = true.
Proof.
  intros Hidx. rewrite rowDataOf_parsed. unfold passes. rewrite Hidx.
  destruct (parsedDate newDate dateColumnIndex row) as [date|].
  - split; [intros [d [[= <-] H]]; exact H | intros H; now exists date].
  - split; [intros [d [[=] _]] | discriminate].
Qed.

Lemma rejected_rowDataOf newDate range headers dateColumnIndex status amount :
  JsArray.findIndex isDateHeader headers = Some dateColumnIndex ->
  forall row i,
    passes newDate range headers row = false ->
    rowDataOf newDate range headers dateColumnIndex status amount i row = None.
Proof.
  intros Hidx row i Hp.
  destruct (rowDataOf newDate range headers dateColumnIndex status amount i row)
    as [rowData|] eqn:E; [|reflexivity].
  assert (passes newDate range headers row = true) as Ht
    by (eapply passes_rowDataOf; [exact Hidx | eexists; exact E]).
  congruence.
Qed.







Lemma endDateOf_last (range : DateRange) :
  (1 <= endMonth range <= 12)%Z -> (100 <= endYear range)%Z ->
  endDateOf range = lastDayOf (endYear range) (endMonth range).
Proof.
  intros Hem Hey. unfold endDateOf, lastDayOf.
  rewrite make_full_year by assumption.
  now rewrite makeDay_last by assumption.
Qed.

(** C4, where the code departs from it.  The upper bound of the window is
    [new Date(endYear, endMonth, 0)], the local midnight with which the
    last day of the end month begins.  A row whose anchor date has a time
    of day later on that day (the Date constructor of the host reads one
    from the text) is therefore dropped by the filter, although its
    calendar day is the last day of the window. *)
Theorem C4_last_day_with_time :
  forall (newDate : string -> option JsDate.t) (range : DateRange)
         (headers : list string) (dateColumnIndex : nat) (row : list string)
         (date : JsDate.t),
    (1 <= endMonth range <= 12)%Z ->
    (100 <= endYear range)%Z ->
    JsArray.findIndex isDateHeader headers = Some dateColumnIndex ->
    parsedDate newDate dateColumnIndex row = Some date ->
    (lastDayOf (endYear range) (endMonth range) < date
     < lastDayOf (endYear range) (endMonth range) + JsDate.msPerDay)%Z ->
    JsDate.dayOf date
    = JsDate.daysFromCivil (endYear range) (endMonth range)
        (daysInMonth (endYear range) (endMonth range))
    /\ passes newDate range headers row = false.
Proof.
  intros newDate range headers dateColumnIndex row date Hem Hey Hidx Hdate Hlate.
  split.
  - unfold JsDate.dayOf, lastDayOf, JsDate.msPerDay in *.
    Z.div_mod_to_equations. lia.
  - unfold passes. rewrite Hidx, Hdate. unfold inWindow.
    rewrite (endDateOf_last range Hem Hey).
    destruct (date >? lastDayOf (endYear range) (endMonth range))%Z eqn:E.
    + now rewrite orb_true_r.
    + rewrite Z.gtb_ltb in E. apply Z.ltb_ge in E. lia.
Qed.

(** The first quarter of 2024 as the window, and a host that reads
    March 31, 2024 10:00 as ten o'clock of that day: the row is dropped. *)
Lemma C4_last_day_with_time_witness :
  parsedDate
    (hostWith "March 31, 2024 10:00" (JsDate.make 2024 2 31 + 36000000)%Z)
    0 (scenarioRow "March 31, 2024 10:00")
  = Some (JsDate.make 2024 2 31 + 36000000)%Z
  /\ JsDate.getFullYear (JsDate.make 2024 2 31 + 36000000)%Z = 2024%Z
  /\ JsDate.getMonth (JsDate.make 2024 2 31 + 36000000)%Z = 2%Z
  /\ JsDate.getDate (JsDate.make 2024 2 31 + 36000000)%Z = 31%Z
  /\ passes
       (hostWith "March 31, 2024 10:00" (JsDate.make 2024 2 31 + 36000000)%Z)
       firstQuarter2024 scenarioHeaders (scenarioRow "March 31, 2024 10:00")
     = false.
Proof.
  split; [vm_compute; reflexivity|].
  split; [vm_compute; reflexivity|].
  split; [vm_compute; reflexivity|].
  split; [vm_compute; reflexivity|].
  refine (proj2 (C4_last_day_with_time
                   (hostWith "March 31, 2024 10:00"
                      (JsDate.make 2024 2 31 + 36000000)%Z)
                   firstQuarter2024 scenarioHeaders 0
                   (scenarioRow "March 31, 2024 10:00")
                   (JsDate.make 2024 2 31 + 36000000)%Z _ _ _ _ _));
    vm_compute; repeat split; first [reflexivity | discriminate].
Defined.

(* ================================================================== *)
(** ** Further properties of the passes *)

(** *** More on dictionaries *)

Section DictMore.
Context {V : Type}.
Implicit Types (o : JsObject.t V) (k : string) (f : V -> V).

Lemma get_set_same k (v : V) o : JsObject.get k (JsObject.set k v o) = Some v.
Proof.
  induction o as [|[k0 v0] o IH]; simpl.
  - now rewrite String.eqb_refl.
  - destruct (String.eqb k k0) eqn:E; simpl; rewrite E; [reflexivity | exact IH].
Qed.

Lemma get_set_other k k' (v : V) o :
  k <> k' -> JsObject.get k (JsObject.set k' v o) = JsObject.get k o.
Proof.
  intros Hne. induction o as [|[k0 v0] o IH]; simpl.
  - destruct (String.eqb k k') eqn:E; [apply String.eqb_eq in E; contradiction|].
    reflexivity.
  - destruct (String.eqb k' k0) eqn:E0; simpl.
    + apply String.eqb_eq in E0; subst k0.
      apply String.eqb_neq in Hne. now rewrite Hne.
    + destruct (String.eqb k k0); [reflexivity | exact IH].
Qed.

Lemma get_present_adjust k k' f o :
  JsObject.get k o <> None -> JsObject.get k (JsObject.adjust k' f o) <> None.
Proof.
  rewrite get_adjust. destruct (String.eqb k k'); [|tauto].
  destruct (JsObject.get k o); simpl; [discriminate | tauto].
Qed.

Lemma get_present_set k k' (v : V) o :
  JsObject.get k o <> None -> JsObject.get k (JsObject.set k' v o) <> None.
Proof.
  destruct (String.eqb k k') eqn:E.
  - apply String.eqb_eq in E; subst k'. rewrite get_set_same. discriminate.
  - apply String.eqb_neq in E. now rewrite get_set_other.
Qed.

Lemma map_fst_adjust k f o : map fst (JsObject.adjust k f o) = map fst o.
Proof.
  induction o as [|[k0 v0] o IH]; simpl; [reflexivity|].
  destruct (String.eqb k k0); simpl; [reflexivity | now rewrite IH].
Qed.

Lemma map_fst_forEachValue f o : map fst (JsObject.forEachValue f o) = map fst o.
Proof.
  unfold JsObject.forEachValue. rewrite map_map. reflexivity.
Qed.

Lemma map_fst_set_new k (v : V) o :
  JsObject.get k o = None -> map fst (JsObject.set k v o) = (map fst o ++ [k])%list.
Proof.
  induction o as [|[k0 v0] o IH]; simpl; [reflexivity|].
  destruct (String.eqb k k0); [discriminate|].
  intros H. simpl. now rewrite IH.
Qed.

Lemma get_none_existsb k o :
  existsb (String.eqb k) (map fst o) =
  match JsObject.get k o with Some _ => true | None => false end.
Proof.
  induction o as [|[k0 v0] o IH]; simpl; [reflexivity|].
  destruct (String.eqb k k0); [reflexivity | exact IH].
Qed.

(** Updating the entry just written is writing the updated entry. *)
Lemma adjust_set k f (v : V) o :
  JsObject.adjust k f (JsObject.set k v o) = JsObject.set k (f v) o.
Proof.
  induction o as [|[k0 v0] o IH]; simpl.
  - now rewrite String.eqb_refl.
  - destruct (String.eqb k k0) eqn:E; simpl; rewrite E; [reflexivity|].
    now rewrite IH.
Qed.

Lemma sumOver_adjust_same (c : V -> nat) k f o :
  (forall v, c (f v) = c v) -> sumOver c (JsObject.adjust k f o) = sumOver c o.
Proof.
  intros Hf. unfold sumOver.
  induction o as [|[k0 v0] o IH]; simpl; [reflexivity|].
  destruct (String.eqb k k0); simpl; [now rewrite Hf | now rewrite IH].
Qed.

Lemma sumOver_adjust_succ (c : V -> nat) k f o :
  (forall v, c (f v) = S (c v)) ->
  JsObject.get k o <> None ->
  sumOver c (JsObject.adjust k f o) = S (sumOver c o).
Proof.
  intros Hf. unfold sumOver.
  induction o as [|[k0 v0] o IH]; simpl; [tauto|].
  destruct (String.eqb k k0); simpl; intros H.
  - now rewrite Hf.
  - rewrite IH by exact H. lia.
Qed.

Lemma sumOver_set_new (c : V -> nat) k (v : V) o :
  JsObject.get k o = None -> sumOver c (JsObject.set k v o) = sumOver c o + c v.
Proof.
  unfold sumOver.
  induction o as [|[k0 v0] o IH]; simpl; [lia|].
  destruct (String.eqb k k0); [discriminate|].
  intros H. simpl. rewrite IH by exact H. lia.
Qed.

Lemma sumOver_forEachValue (c : V -> nat) f o :
  (forall v, c (f v) = c v) -> sumOver c (JsObject.forEachValue f o) = sumOver c o.
Proof.
  intros Hf. unfold sumOver, JsObject.forEachValue. rewrite map_map. simpl.
  apply f_equal. apply map_ext. intros kv. apply Hf.
Qed.

Lemma sumOver_zero (c : V -> nat) o :
  Forall (fun kv => c (snd kv) = 0) o -> sumOver c o = 0.
Proof.
  unfold sumOver. induction 1 as [|kv o Hkv Ho IH]; simpl; [reflexivity|].
  rewrite Hkv, IH. reflexivity.
Qed.

(** Without array-index keys the enumeration order is the creation order. *)
Lemma entries_named o :
  (forall k, In k (map fst o) -> JsObject.arrayIndex k = None) ->
  JsObject.entries o = o.
Proof.
  unfold JsObject.entries, JsObject.named.
  induction o as [|[k0 v0] o IH]; intros H; [reflexivity|].
  simpl. rewrite (H k0 (or_introl eq_refl)). simpl.
  assert (Ho : forall k, In k (map fst o) -> JsObject.arrayIndex k = None)
    by (intros k Hk; apply H; now right).
  specialize (IH Ho).
  assert (Hi : JsObject.indexed o = []).
  { clear IH H. induction o as [|[k1 v1] o IHo]; [reflexivity|].
    simpl. rewrite (Ho k1 (or_introl eq_refl)).
    apply IHo. intros k Hk. apply Ho. now right. }
  rewrite Hi in IH |- *. simpl in IH |- *. now rewrite IH.
Qed.

End DictMore.

(** *** The salesperson entries: keys and sums *)

Lemma initStep_cases (sa : JsObject.t Salesman.t) (c : Customer) :
  (JsObject.get (SalesmenPass.salesmanOf c) sa = None
   /\ JsObject.inherited (SalesmenPass.salesmanOf c) = false
   /\ SalesmenPass.initStep sa c
      = JsObject.set (SalesmenPass.salesmanOf c)
          (SalesmenPass.fresh (SalesmenPass.salesmanOf c)) sa)
  \/ ((JsObject.get (SalesmenPass.salesmanOf c) sa <> None
       \/ JsObject.inherited (SalesmenPass.salesmanOf c) = true)
      /\ SalesmenPass.initStep sa c = sa).
Proof.
  unfold SalesmenPass.initStep, JsObject.read.
  destruct (JsObject.get (SalesmenPass.salesmanOf c) sa) eqn:E.
  - right. split; [left; discriminate | reflexivity].
  - destruct (JsObject.inherited (SalesmenPass.salesmanOf c)) eqn:Ei.
    + right. split; [now right | reflexivity].
    + left. auto.
Qed.

Lemma init_preserves (k : string) :
  forall cs sa,
    JsObject.get k sa <> None ->
    JsObject.get k (fold_left SalesmenPass.initStep cs sa) <> None.
Proof.
  induction cs as [|c cs IH]; intros sa H; simpl; [exact H|].
  apply IH.
  destruct (initStep_cases sa c) as [(_ & _ & ->)|[_ ->]]; [|exact H].
  now apply get_present_set.
Qed.

(** Every salesperson has an entry, but those with the name of a member
    of [Object.prototype], who have none. *)
Lemma init_present :
  forall cs sa c,
    In c cs ->
    JsObject.inherited (SalesmenPass.salesmanOf c) = false ->
    JsObject.get (SalesmenPass.salesmanOf c)
      (fold_left SalesmenPass.initStep cs sa) <> None.
Proof.
  induction cs as [|c0 cs IH]; intros sa c; simpl; [tauto|].
  intros [->|Hin] Hplain; [|now apply IH].
  apply init_preserves.
  destruct (initStep_cases sa c) as [(_ & _ & ->)|[[H|H] ->]].
  - rewrite get_set_same. discriminate.
  - exact H.
  - congruence.
Qed.

Lemma init_absent (k : string) :
  JsObject.inherited k = true ->
  forall cs sa,
    JsObject.get k sa = None ->
    JsObject.get k (fold_left SalesmenPass.initStep cs sa) = None.
Proof.
  intros Hk. induction cs as [|c cs IH]; intros sa H; simpl; [exact H|].
  apply IH.
  destruct (initStep_cases sa c) as [(_ & Hc & ->)|[_ ->]]; [|exact H].
  rewrite get_set_other; [exact H|]. intros ->. congruence.
Qed.

Lemma init_keys :
  forall cs sa,
    map fst (fold_left SalesmenPass.initStep cs sa)
    = firstSeenFrom (map fst sa)
        (filter entryName (map SalesmenPass.salesmanOf cs)).
Proof.
  induction cs as [|c cs IH]; intros sa; simpl; [reflexivity|].
  rewrite IH. unfold entryName at 2.
  destruct (initStep_cases sa c) as [(Hg & Hi & ->)|[[H|H] ->]].
  - rewrite Hi. simpl. rewrite get_none_existsb, Hg.
    now rewrite map_fst_set_new.
  - destruct (JsObject.inherited (SalesmenPass.salesmanOf c)); simpl;
      [reflexivity|].
    rewrite get_none_existsb.
    now destruct (JsObject.get (SalesmenPass.salesmanOf c) sa).
  - now rewrite H.
Qed.

Lemma count_keys (threshold : number) :
  forall cs acc,
    map fst (SalesmenPass.entries (fold_left (SalesmenPass.countStep threshold) cs acc))
    = map fst (SalesmenPass.entries acc).
Proof.
  induction cs as [|c cs IH]; intros acc; simpl; [reflexivity|].
  rewrite IH. unfold SalesmenPass.countStep.
  destruct (SalesmenPass.isPotentialCustomer threshold c);
    destruct (SalesmenPass.isDealt c); simpl;
    now rewrite ?map_fst_adjust.
Qed.

Lemma revenue_keys (cs : list Customer) :
  forall ks (sa : JsObject.t Salesman.t) rev,
    map fst (fst (fold_left (SalesmenPass.revenueStep cs) ks (sa, rev)))
    = map fst sa.
Proof.
  induction ks as [|k ks IH]; intros sa rev; cbn [fold_left]; [reflexivity|].
  destruct (SalesmenPass.revenueStep cs (sa, rev) k) as [sa' rev'] eqn:E.
  unfold SalesmenPass.revenueStep in E.
  destruct (fold_left SalesmenPass.amountStep _ _) as [amount rev''] in E.
  injection E as <- _. rewrite IH. apply map_fst_adjust.
Qed.

Lemma revenue_sum (c : Salesman.t -> nat) (cs : list Customer) :
  (forall amount b, c (SalesmenPass.setRevenue amount b) = c b) ->
  forall ks (sa : JsObject.t Salesman.t) rev,
    sumOver c (fst (fold_left (SalesmenPass.revenueStep cs) ks (sa, rev)))
    = sumOver c sa.
Proof.
  intros Hc.
  induction ks as [|k ks IH]; intros sa rev; cbn [fold_left]; [reflexivity|].
  destruct (SalesmenPass.revenueStep cs (sa, rev) k) as [sa' rev'] eqn:E.
  unfold SalesmenPass.revenueStep in E.
  destruct (fold_left SalesmenPass.amountStep _ _) as [amount rev''] in E.
  injection E as <- _. rewrite IH. apply sumOver_adjust_same. intros b. apply Hc.
Qed.

Lemma get_adjust_none {V : Type} (k k' : string) (f : V -> V) (o : JsObject.t V) :
  JsObject.get k (JsObject.adjust k' f o) = None <-> JsObject.get k o = None.
Proof.
  rewrite get_adjust.
  destruct (String.eqb k k'); [|tauto].
  destruct (JsObject.get k o); simpl; split; congruence.
Qed.

Lemma adjust_absent {V : Type} (k : string) (f : V -> V) (o : JsObject.t V) :
  JsObject.get k o = None -> JsObject.adjust k f o = o.
Proof.
  induction o as [|[k' v] o IH]; simpl; [reflexivity|].
  destruct (String.eqb k k'); [discriminate|].
  intros H. now rewrite IH.
Qed.

(** The counting loop, entry by entry: a customer is counted in the entry
    of its salesperson when there is one. *)
Lemma countStep_sums (threshold : number) (acc : SalesmenPass.Counts)
      (c : Customer) :
  (JsObject.get (SalesmenPass.salesmanOf c) (SalesmenPass.entries acc) <> None
   <-> JsObject.inherited (SalesmenPass.salesmanOf c) = false) ->
  sumOver Salesman.潛力客戶數
    (SalesmenPass.entries (SalesmenPass.countStep threshold acc c))
  = sumOver Salesman.潛力客戶數 (SalesmenPass.entries acc)
    + (if entryName (SalesmenPass.salesmanOf c)
          && SalesmenPass.isPotentialCustomer threshold c then 1 else 0)
  /\ sumOver Salesman.訂單數量
       (SalesmenPass.entries (SalesmenPass.countStep threshold acc c))
     = sumOver Salesman.訂單數量 (SalesmenPass.entries acc)
       + (if entryName (SalesmenPass.salesmanOf c) && SalesmenPass.isDealt c
          then 1 else 0).
Proof.
  intros Hkey. unfold SalesmenPass.countStep, entryName.
  destruct (JsObject.inherited (SalesmenPass.salesmanOf c)) eqn:Ei; cbn [negb andb].
  - assert (Hnone : JsObject.get (SalesmenPass.salesmanOf c)
                      (SalesmenPass.entries acc) = None).
    { destruct (JsObject.get _ (SalesmenPass.entries acc)) eqn:E; [|reflexivity].
      assert (H : Some t <> None) by discriminate.
      apply Hkey in H. discriminate. }
    destruct (SalesmenPass.isPotentialCustomer threshold c);
      destruct (SalesmenPass.isDealt c); simpl;
      rewrite ?(adjust_absent _ _ _ Hnone); split; lia.
  - assert (Hc : JsObject.get (SalesmenPass.salesmanOf c)
                   (SalesmenPass.entries acc) <> None) by now apply Hkey.
    destruct (SalesmenPass.isPotentialCustomer threshold c);
      destruct (SalesmenPass.isDealt c); simpl; split;
      rewrite ?(sumOver_adjust_same Salesman.潛力客戶數 _ SalesmenPass.incOrders)
        by reflexivity;
      rewrite ?(sumOver_adjust_succ Salesman.訂單數量 _ SalesmenPass.incOrders)
        by (reflexivity || (try apply get_present_adjust; exact Hc));
      rewrite ?(sumOver_adjust_succ Salesman.潛力客戶數 _ SalesmenPass.incPotential)
        by (reflexivity || exact Hc);
      rewrite ?(sumOver_adjust_same Salesman.訂單數量 _ SalesmenPass.incPotential)
        by reflexivity;
      lia.
Qed.

Lemma countStep_get (threshold : number) (acc : SalesmenPass.Counts)
      (c : Customer) (k : string) :
  JsObject.get k (SalesmenPass.entries (SalesmenPass.countStep threshold acc c))
  = None
  <-> JsObject.get k (SalesmenPass.entries acc) = None.
Proof.
  unfold SalesmenPass.countStep.
  destruct (SalesmenPass.isPotentialCustomer threshold c);
    destruct (SalesmenPass.isDealt c); simpl;
    rewrite ?get_adjust_none; tauto.
Qed.

Lemma count_sums (threshold : number) :
  forall cs acc,
    (forall c, In c cs ->
       JsObject.get (SalesmenPass.salesmanOf c) (SalesmenPass.entries acc) <> None
       <-> JsObject.inherited (SalesmenPass.salesmanOf c) = false) ->
    let r := fold_left (SalesmenPass.countStep threshold) cs acc in
    sumOver Salesman.潛力客戶數 (SalesmenPass.entries r)
    = sumOver Salesman.潛力客戶數 (SalesmenPass.entries acc)
      + length (filter (fun c => entryName (SalesmenPass.salesmanOf c)
                                 && SalesmenPass.isPotentialCustomer threshold c)
                       cs)
    /\ sumOver Salesman.訂單數量 (SalesmenPass.entries r)
       = sumOver Salesman.訂單數量 (SalesmenPass.entries acc)
         + length (filter (fun c => entryName (SalesmenPass.salesmanOf c)
                                    && SalesmenPass.isDealt c)
                          cs).
Proof.
  induction cs as [|c cs IH]; intros acc Hkeys; simpl; [split; lia|].
  destruct (countStep_sums threshold acc c) as [Hp Ho];
    [apply Hkeys; now left|].
  destruct (IH (SalesmenPass.countStep threshold acc c)) as [Hp' Ho'].
  { intros c' Hc'. rewrite <- (Hkeys c') by now right.
    pose proof (countStep_get threshold acc c (SalesmenPass.salesmanOf c')) as G.
    tauto. }
  rewrite Hp', Ho', Hp, Ho.
  destruct (entryName (SalesmenPass.salesmanOf c)
            && SalesmenPass.isPotentialCustomer threshold c);
    destruct (entryName (SalesmenPass.salesmanOf c) && SalesmenPass.isDealt c);
    simpl; split; lia.
Qed.

Lemma potential_count (threshold : number) (customersArray : list Customer) :
  SalesmenPass.potentialCustomers (SalesmenPass.run threshold customersArray) =
  length (filter (SalesmenPass.isPotentialCustomer threshold) customersArray).
Proof.
  unfold SalesmenPass.run.
  destruct (SalesmenPass.withRevenue _ _) as [sa rev]; simpl.
  unfold SalesmenPass.counted.
  generalize (fold_left SalesmenPass.initStep customersArray JsObject.empty).
  intros sa0.
  assert (G : forall cs acc,
    SalesmenPass.totalPotentialCustomers
      (fold_left (SalesmenPass.countStep threshold) cs acc)
    = SalesmenPass.totalPotentialCustomers acc
      + length (filter (SalesmenPass.isPotentialCustomer threshold) cs)).
  { induction cs as [|c cs IH]; intros acc; simpl; [lia|].
    rewrite IH. unfold SalesmenPass.countStep.
    destruct (SalesmenPass.isPotentialCustomer threshold c);
      destruct (SalesmenPass.isDealt c); simpl; lia. }
  rewrite G. reflexivity.
Qed.

Lemma firstSeenFrom_In (k : string) :
  forall ks seen, In k (firstSeenFrom seen ks) -> In k seen \/ In k ks.
Proof.
  induction ks as [|k0 ks IH]; intros seen; simpl; [now left|].
  intros H. destruct (IH _ H) as [Hs|Hk]; [|right; now right].
  destruct (existsb (String.eqb k0) seen); [now left|].
  apply in_app_or in Hs. destruct Hs as [Hs|[->|[]]]; [now left | right; now left].
Qed.

Lemma run_keys (threshold : number) (cs : list Customer) :
  map fst (SalesmenPass.analysis (SalesmenPass.run threshold cs))
  = firstSeen (filter entryName (map SalesmenPass.salesmanOf cs)).
Proof.
  unfold SalesmenPass.run.
  destruct (SalesmenPass.withRevenue cs _) as [sa rev] eqn:E. simpl.
  rewrite map_fst_forEachValue.
  replace sa with (fst (SalesmenPass.withRevenue cs
      (SalesmenPass.entries (SalesmenPass.counted threshold cs))))
    by now rewrite E.
  unfold SalesmenPass.withRevenue. rewrite revenue_keys.
  unfold SalesmenPass.counted. rewrite count_keys. simpl.
  apply init_keys.
Qed.

Lemma filter_all {A : Type} (p : A -> bool) (l : list A) :
  (forall x, In x l -> p x = true) -> filter p l = l.
Proof.
  induction l as [|x l IH]; simpl; intros H; [reflexivity|].
  rewrite (H x) by now left. f_equal. apply IH. intros y Hy. apply H. now right.
Qed.

(** X1.  The salesperson aggregate has one entry for each distinct
    salesperson of the kept rows whose name is not that of a member of
    [Object.prototype], in the order in which these first appear; a
    salesperson named like such a member (constructor, toString, ...) has no
    entry.  When no name is a canonical array index (a decimal numeral),
    that order is also the one in which [Object.keys] and [Object.values]
    enumerate the entries. *)
Theorem salesmen_first_seen_order :
  forall (threshold : number) (customersArray : list Customer),
    map fst (SalesmenPass.analysis (SalesmenPass.run threshold customersArray))
    = firstSeen (filter entryName (map SalesmenPass.salesmanOf customersArray))
    /\ (forall salesman,
          JsObject.inherited salesman = true ->
          JsObject.get salesman
            (SalesmenPass.analysis (SalesmenPass.run threshold customersArray))
          = None)
    /\ ((forall customer, In customer customersArray ->
           JsObject.arrayIndex (SalesmenPass.salesmanOf customer) = None) ->
        JsObject.keys (SalesmenPass.analysis (SalesmenPass.run threshold customersArray))
        = firstSeen (filter entryName
                       (map SalesmenPass.salesmanOf customersArray))).
Proof.
  intros threshold cs. split; [apply run_keys|]. split.
  - intros salesman Hk.
    destruct (JsObject.get salesman _) eqn:E; [|reflexivity].
    assert (Hin : In salesman
                    (map fst (SalesmenPass.analysis (SalesmenPass.run threshold cs)))).
    { pose proof (get_none_existsb salesman
                    (SalesmenPass.analysis (SalesmenPass.run threshold cs))) as G.
      rewrite E in G. apply existsb_exists in G.
      destruct G as [k [Hin Heq]]. apply String.eqb_eq in Heq. now subst. }
    rewrite run_keys in Hin.
    destruct (firstSeenFrom_In _ _ _ Hin) as [[]|Hf].
    apply filter_In in Hf. destruct Hf as [_ Hf].
    unfold entryName in Hf. rewrite Hk in Hf. discriminate.
  - intros Hnames. unfold JsObject.keys. rewrite entries_named; [apply run_keys|].
    intros k Hk. rewrite run_keys in Hk.
    destruct (firstSeenFrom_In _ _ _ Hk) as [[]|Hin].
    apply filter_In in Hin. destruct Hin as [Hin _].
    apply in_map_iff in Hin. destruct Hin as [c [<- Hc]]. now apply Hnames.
Qed.

(** Four rows of three salespersons, one of whom is named constructor: the
    entries follow the first appearances of the two others. *)
Lemma salesmen_first_seen_order_witness :
  JsObject.keys
    (SalesmenPass.analysis
       (SalesmenPass.run (ofZ 40)
          [[("主聽力師", "王小明")]; [("主聽力師", "constructor")];
           [("主聽力師", "陳大文")]; [("主聽力師", "王小明")]]))
  = ["王小明"; "陳大文"].
Proof.
  apply (salesmen_first_seen_order (ofZ 40)
           [[("主聽力師", "王小明")]; [("主聽力師", "constructor")];
            [("主聽力師", "陳大文")]; [("主聽力師", "王小明")]]).
  intros customer [<-|[<-|[<-|[<-|[]]]]]; reflexivity.
Defined.

(** X2.  The potential customers of all salesperson entries add up to the
    number of potential kept rows whose salesperson has an entry (a name
    that is not that of a member of [Object.prototype]), and the orders to
    the number of such converted rows.  When no salesperson has such a
    name, these sums are the global [totalCustomers] and
    [totalCompletedDeals]: every kept row is counted under exactly one
    salesperson. *)
Theorem salesmen_sums_are_totals :
  forall (threshold : number) (customersArray : list Customer),
    sumOver Salesman.潛力客戶數
      (SalesmenPass.analysis (SalesmenPass.run threshold customersArray))
    = length (filter (fun c => entryName (SalesmenPass.salesmanOf c)
                               && SalesmenPass.isPotentialCustomer threshold c)
                     customersArray)
    /\ sumOver Salesman.訂單數量
         (SalesmenPass.analysis (SalesmenPass.run threshold customersArray))
       = length (filter (fun c => entryName (SalesmenPass.salesmanOf c)
                                  && SalesmenPass.isDealt c)
                        customersArray)
    /\ ((forall customer, In customer customersArray ->
           JsObject.inherited (SalesmenPass.salesmanOf customer) = false) ->
        sumOver Salesman.潛力客戶數
          (SalesmenPass.analysis (SalesmenPass.run threshold customersArray))
        = SalesmenPass.potentialCustomers (SalesmenPass.run threshold customersArray)
        /\ sumOver Salesman.訂單數量
             (SalesmenPass.analysis (SalesmenPass.run threshold customersArray))
           = SalesmenPass.orders (SalesmenPass.run threshold customersArray)).
Proof.
  intros threshold cs.
  destruct (count_sums threshold cs
              {| SalesmenPass.entries :=
                   fold_left SalesmenPass.initStep cs JsObject.empty;
                 SalesmenPass.totalPotentialCustomers := 0;
                 SalesmenPass.totalOrders := 0 |}) as [Hp Ho].
  { intros c Hin. simpl. split.
    - intros Hpres.
      destruct (JsObject.inherited (SalesmenPass.salesmanOf c)) eqn:Ei;
        [|reflexivity].
      exfalso. apply Hpres. now apply init_absent.
    - intros Hplain. now apply init_present. }
  fold (SalesmenPass.counted threshold cs) in Hp, Ho. simpl in Hp, Ho.
  rewrite (sumOver_zero Salesman.潛力客戶數
             (fold_left SalesmenPass.initStep cs JsObject.empty)) in Hp
    by (apply (init_invariant (fun b => Salesman.潛力客戶數 b = 0));
        [reflexivity | constructor]).
  rewrite (sumOver_zero Salesman.訂單數量
             (fold_left SalesmenPass.initStep cs JsObject.empty)) in Ho
    by (apply (init_invariant (fun b => Salesman.訂單數量 b = 0));
        [reflexivity | constructor]).
  simpl in Hp, Ho.
  assert (Hd : forall (c : Salesman.t -> nat),
             (forall rate b, c (SalesmenPass.setRate rate b) = c b) ->
             forall b, c (SalesmenPass.deriveRate b) = c b).
  { intros c Hcr b. unfold SalesmenPass.deriveRate.
    destruct (0 <? Salesman.潛力客戶數 b)%nat; [apply Hcr | reflexivity]. }
  assert (Hsums :
    sumOver Salesman.潛力客戶數
      (SalesmenPass.analysis (SalesmenPass.run threshold cs))
    = length (filter (fun c => entryName (SalesmenPass.salesmanOf c)
                               && SalesmenPass.isPotentialCustomer threshold c) cs)
    /\ sumOver Salesman.訂單數量
         (SalesmenPass.analysis (SalesmenPass.run threshold cs))
       = length (filter (fun c => entryName (SalesmenPass.salesmanOf c)
                                  && SalesmenPass.isDealt c) cs)).
  { unfold SalesmenPass.run.
    destruct (SalesmenPass.withRevenue cs _) as [sa rev] eqn:E. simpl.
    replace sa with (fst (SalesmenPass.withRevenue cs
        (SalesmenPass.entries (SalesmenPass.counted threshold cs))))
      by now rewrite E.
    unfold SalesmenPass.withRevenue.
    split.
    - rewrite sumOver_forEachValue by (apply Hd; reflexivity).
      rewrite revenue_sum by reflexivity. exact Hp.
    - rewrite sumOver_forEachValue by (apply Hd; reflexivity).
      rewrite revenue_sum by reflexivity. exact Ho. }
  destruct Hsums as [Hsp Hso].
  split; [exact Hsp|]. split; [exact Hso|].
  intros Hplain. rewrite Hsp, Hso, potential_count, orders_count.
  split; f_equal; apply filter_ext_in; intros c Hin;
    unfold entryName; now rewrite (Hplain c Hin).
Qed.

(** Two rows of one salesperson, one of them converted. *)
Lemma salesmen_sums_are_totals_witness :
  sumOver Salesman.潛力客戶數
    (SalesmenPass.analysis
       (SalesmenPass.run (ofZ 40)
          [[("主聽力師", "王小明"); ("是否成交", "是")]; [("主聽力師", "王小明")]]))
  = SalesmenPass.potentialCustomers
      (SalesmenPass.run (ofZ 40)
         [[("主聽力師", "王小明"); ("是否成交", "是")]; [("主聽力師", "王小明")]]).
Proof.
  apply (salesmen_sums_are_totals (ofZ 40)
           [[("主聽力師", "王小明"); ("是否成交", "是")]; [("主聽力師", "王小明")]]).
  intros customer [<-|[<-|[]]]; reflexivity.
Defined.

(** X3.  The global [totalCustomers] is the number of kept rows that are
    potential, [totalCompletedDeals] the number that are converted, and the
    second never exceeds the first. *)
Theorem totals_count_rows :
  forall (threshold : number) (customersArray : list Customer),
    SalesmenPass.potentialCustomers (SalesmenPass.run threshold customersArray)
    = length (filter (SalesmenPass.isPotentialCustomer threshold) customersArray)
    /\ SalesmenPass.orders (SalesmenPass.run threshold customersArray)
       = length (filter SalesmenPass.isDealt customersArray)
    /\ SalesmenPass.orders (SalesmenPass.run threshold customersArray)
       <= SalesmenPass.potentialCustomers (SalesmenPass.run threshold customersArray)
    /\ SalesmenPass.potentialCustomers (SalesmenPass.run threshold customersArray)
       <= length customersArray.
Proof.
  intros threshold cs. rewrite potential_count, orders_count.
  split; [reflexivity|]. split; [reflexivity|]. split.
  - induction cs as [|c cs IH]; simpl; [lia|].
    destruct (SalesmenPass.isDealt c) eqn:Hd.
    + rewrite (isDealt_isPotential threshold c Hd). simpl. lia.
    + destruct (SalesmenPass.isPotentialCustomer threshold c); simpl; lia.
  - apply filter_length_le.
Qed.

(** *** Sorting and enumeration keep the entries *)

Section SortFacts.
Context {A : Type}.

Lemma insertSorted_perm (after : A -> A -> bool) (x : A) (l : list A) :
  Permutation (JsArray.insertSorted after x l) (x :: l).
Proof.
  induction l as [|y l IH]; simpl; [reflexivity|].
  destruct (after x y); [|reflexivity].
  rewrite IH. apply perm_swap.
Qed.

Lemma sort_perm (after : A -> A -> bool) (l : list A) :
  Permutation (JsArray.sort after l) l.
Proof.
  unfold JsArray.sort. induction l as [|x l IH]; simpl; [reflexivity|].
  rewrite insertSorted_perm. now constructor.
Qed.

Lemma insertSorted_sorted (R : A -> A -> Prop) (after : A -> A -> bool) :
  (forall x y z, R x y -> R y z -> R x z) ->
  (forall x y, after x y = true -> R y x) ->
  (forall x y, after x y = false -> R x y) ->
  forall x l,
    StronglySorted R l -> StronglySorted R (JsArray.insertSorted after x l).
Proof.
  intros Htrans Ht Hf x l Hl.
  induction Hl as [|y l Hl IH Hy]; simpl.
  - constructor; constructor.
  - destruct (after x y) eqn:E.
    + constructor; [exact IH|].
      rewrite Forall_forall. intros z Hz.
      apply (Permutation_in _ (insertSorted_perm after x l)) in Hz.
      destruct Hz as [<-|Hz]; [now apply Ht|].
      rewrite Forall_forall in Hy. now apply Hy.
    + constructor; [now constructor|].
      constructor; [now apply Hf|].
      rewrite Forall_forall in Hy |- *. intros z Hz.
      apply Htrans with y; [now apply Hf | now apply Hy].
Qed.

Lemma sort_sorted (R : A -> A -> Prop) (after : A -> A -> bool) :
  (forall x y z, R x y -> R y z -> R x z) ->
  (forall x y, after x y = true -> R y x) ->
  (forall x y, after x y = false -> R x y) ->
  forall l, StronglySorted R (JsArray.sort after l).
Proof.
  intros Htrans Ht Hf. unfold JsArray.sort.
  induction l as [|x l IH]; simpl; [constructor|].
  now apply insertSorted_sorted.
Qed.

End SortFacts.

Section EntriesPerm.
Context {V : Type}.

Lemma insertIndexed_perm (x : Z * (string * V)) l :
  Permutation (JsObject.insertIndexed x l) (x :: l).
Proof.
  induction l as [|y l IH]; simpl; [reflexivity|].
  destruct (fst x <=? fst y)%Z; [reflexivity|].
  rewrite IH. apply perm_swap.
Qed.

Lemma entries_perm (o : JsObject.t V) : Permutation (JsObject.entries o) o.
Proof.
  unfold JsObject.entries, JsObject.named.
  induction o as [|kv o IH]; simpl; [reflexivity|].
  destruct (JsObject.arrayIndex (fst kv)) as [i|]; simpl.
  - rewrite (Permutation_map snd (insertIndexed_perm (i, kv) (JsObject.indexed o))).
    simpl. now constructor.
  - rewrite <- Permutation_middle. now constructor.
Qed.

Lemma values_sum (c : V -> nat) (o : JsObject.t V) :
  list_sum (map c (JsObject.values o)) = sumOver c o.
Proof.
  unfold JsObject.values, sumOver. rewrite map_map.
  assert (P : Permutation (map (fun kv => c (snd kv)) (JsObject.entries o))
                          (map (fun kv => c (snd kv)) o))
    by (apply Permutation_map, entries_perm).
  clear -P. induction P; simpl; lia.
Qed.

End EntriesPerm.

Lemma list_sum_perm (l l' : list nat) :
  Permutation l l' -> list_sum l = list_sum l'.
Proof. induction 1; simpl; lia. Qed.

(** The create-then-update idiom of the passes: the entry under [k] is
    created when it is missing, then updated. *)
Section Upsert.
Context {V : Type}.

Lemma upsert_Forall (P : V -> Prop) (k : string) (v : V) (f : V -> V)
      (o : JsObject.t V) :
  P (f v) ->
  (forall b, P b -> P (f b)) ->
  Forall (fun kv => P (snd kv)) o ->
  Forall (fun kv => P (snd kv))
    (JsObject.adjust k f
       match JsObject.get k o with
       | Some _ => o
       | None => JsObject.set k v o
       end).
Proof.
  intros Hv Hf Ho. destruct (JsObject.get k o).
  - now apply Forall_adjust.
  - rewrite adjust_set. now apply Forall_set.
Qed.

Lemma upsert_sum (c : V -> nat) (k : string) (v : V) (f : V -> V)
      (o : JsObject.t V) :
  c (f v) = 1 ->
  (forall b, c (f b) = S (c b)) ->
  sumOver c
    (JsObject.adjust k f
       match JsObject.get k o with
       | Some _ => o
       | None => JsObject.set k v o
       end)
  = S (sumOver c o).
Proof.
  intros Hv Hf. destruct (JsObject.get k o) eqn:E.
  - apply sumOver_adjust_succ; [exact Hf | rewrite E; discriminate].
  - rewrite adjust_set, sumOver_set_new by exact E. lia.
Qed.

(** The same idiom as the source writes it, [if (!o[k]) o[k] = v] before
    the update: under the name of a member of [Object.prototype] nothing
    is created and the update does not reach [o]. *)
Lemma guarded_Forall (P : V -> Prop) (k : string) (v : V) (f : V -> V)
      (o : JsObject.t V) :
  P (f v) ->
  (forall b, P b -> P (f b)) ->
  Forall (fun kv => P (snd kv)) o ->
  Forall (fun kv => P (snd kv))
    (JsObject.adjust k f
       match JsObject.read k o with
       | JsObject.Undefined => JsObject.set k v o
       | _ => o
       end).
Proof.
  intros Hv Hf Ho. destruct (JsObject.read k o).
  - now apply Forall_adjust.
  - now apply Forall_adjust.
  - rewrite adjust_set. now apply Forall_set.
Qed.

Lemma guarded_sum (c : V -> nat) (k : string) (v : V) (f : V -> V)
      (o : JsObject.t V) :
  c (f v) = 1 ->
  (forall b, c (f b) = S (c b)) ->
  (JsObject.inherited k = true -> JsObject.get k o = None) ->
  sumOver c
    (JsObject.adjust k f
       match JsObject.read k o with
       | JsObject.Undefined => JsObject.set k v o
       | _ => o
       end)
  = sumOver c o + (if entryName k then 1 else 0).
Proof.
  intros Hv Hf Hk. unfold JsObject.read, entryName.
  destruct (JsObject.inherited k) eqn:Ei.
  - rewrite (Hk eq_refl). rewrite adjust_absent by now apply Hk.
    simpl. lia.
  - simpl. destruct (JsObject.get k o) eqn:E.
    + rewrite sumOver_adjust_succ; [lia | exact Hf | rewrite E; discriminate].
    + rewrite adjust_set, sumOver_set_new by exact E. lia.
Qed.

Lemma guarded_absent (k' k : string) (v : V) (f : V -> V) (o : JsObject.t V) :
  JsObject.inherited k' = true ->
  JsObject.get k' o = None ->
  JsObject.get k'
    (JsObject.adjust k f
       match JsObject.read k o with
       | JsObject.Undefined => JsObject.set k v o
       | _ => o
       end) = None.
Proof.
  intros Hi Hg. apply get_adjust_none.
  destruct (JsObject.read k o) eqn:E; try exact Hg.
  apply read_undefined in E. destruct E as [_ E].
  rewrite get_set_other; [exact Hg|]. intros ->. congruence.
Qed.

End Upsert.

(** *** The clinic entries *)

Lemma clinic_isDealt_isPotential threshold customer :
  ClinicPass.isDealt customer = true ->
  ClinicPass.isPotential threshold customer = true.
Proof.
  intros H. unfold ClinicPass.isPotential.
  change (ClinicPass.isDealtClinic customer) with (ClinicPass.isDealt customer).
  rewrite H. now rewrite !orb_true_r.
Qed.

(** The body of the clinic loop is one update of the clinic's entry. *)
Lemma clinic_tally_update threshold customer :
  exists f,
    (forall clinicName cs,
        ClinicPass.tally threshold customer clinicName cs
        = JsObject.adjust clinicName f cs)
    /\ (forall b, Clinic.clinic (f b) = Clinic.clinic b)
    /\ (forall b, Clinic.total (f b) = S (Clinic.total b))
    /\ (forall b, Clinic.potential b <= Clinic.total b ->
                  Clinic.potential (f b) <= Clinic.total (f b))
    /\ (forall b, Clinic.dealt b <= Clinic.potential b ->
                  Clinic.dealt (f b) <= Clinic.potential (f b)).
Proof.
  unfold ClinicPass.tally.
  destruct (ClinicPass.isDealt customer) eqn:Hd.
  - rewrite (clinic_isDealt_isPotential threshold customer Hd).
    destruct (validAmount (parseAmount (amountCell customer))).
    + exists (fun b => ClinicPass.addAmount (parseAmount (amountCell customer))
                         (ClinicPass.incDealt
                            (ClinicPass.incPotential (ClinicPass.incTotal b)))).
      split; [intros; now rewrite !adjust_compose|].
      repeat split; simpl; lia.
    + exists (fun b => ClinicPass.incDealt
                         (ClinicPass.incPotential (ClinicPass.incTotal b))).
      split; [intros; now rewrite !adjust_compose|].
      repeat split; simpl; lia.
  - destruct (ClinicPass.isPotential threshold customer).
    + exists (fun b => ClinicPass.incPotential (ClinicPass.incTotal b)).
      split; [intros; now rewrite !adjust_compose|].
      repeat split; simpl; lia.
    + exists ClinicPass.incTotal.
      split; [reflexivity|].
      repeat split; simpl; lia.
Qed.

Lemma clinic_fold_ok threshold :
  forall customersArray cs,
    Forall (fun kv => clinicEntryOk (snd kv)) cs ->
    Forall (fun kv => clinicEntryOk (snd kv))
      (fold_left (ClinicPass.step threshold) customersArray cs).
Proof.
  induction customersArray as [|c rest IH]; intros cs Hcs; simpl; [exact Hcs|].
  apply IH. unfold ClinicPass.step.
  destruct (JsString.truthy (JsString.trim _)) eqn:Hname; simpl; [|exact Hcs].
  destruct (clinic_tally_update threshold c) as [f [Hf [Hc [Ht [Hp Hd]]]]].
  rewrite Hf. apply guarded_Forall; [| |exact Hcs].
  - set (b0 := ClinicPass.fresh _).
    pose proof (Ht b0) as Ht0.
    pose proof (Hp b0 (Nat.le_refl 0)) as Hp0.
    pose proof (Hd b0 (Nat.le_refl 0)) as Hd0.
    unfold clinicEntryOk. rewrite Hc.
    split; [simpl; intros E; rewrite E in Hname; discriminate|].
    split; [lia|]. split; assumption.
  - intros b [H1 [H2 [H3 H4]]].
    pose proof (Ht b) as Htb. unfold clinicEntryOk. rewrite Hc.
    split; [exact H1|]. split; [lia|]. split; [now apply Hp | now apply Hd].
Qed.

Lemma clinic_fold_sum threshold :
  forall customersArray cs,
    (forall k, JsObject.inherited k = true -> JsObject.get k cs = None) ->
    sumOver Clinic.total (fold_left (ClinicPass.step threshold) customersArray cs)
    = sumOver Clinic.total cs + length (filter hasClinicEntry customersArray).
Proof.
  induction customersArray as [|c rest IH]; intros cs Hcs; simpl; [lia|].
  destruct (clinic_tally_update threshold c) as [f [Hf [Hc [Ht _]]]].
  rewrite IH.
  - unfold ClinicPass.step, hasClinicEntry, hasClinicName, clinicNameOf.
    destruct (JsString.truthy (JsString.trim _)) eqn:Hname; simpl; [|lia].
    rewrite Hf, guarded_sum;
      [ | now rewrite Ht | exact Ht | intros Hi; now apply Hcs].
    destruct (entryName _); simpl; lia.
  - intros k Hk. unfold ClinicPass.step.
    destruct (JsString.truthy (JsString.trim _)); simpl; [|now apply Hcs].
    rewrite Hf. apply guarded_absent; [exact Hk | now apply Hcs].
Qed.

(** X5.  Every entry of the clinic aggregate has a non-empty clinic name and at
    least one referral, no more potential customers than referrals and no
    more deals than potential customers; the array is ordered by
    non-increasing referrals.  A row without a clinic name is in no entry,
    and so is a row whose clinic has the name of a member of
    [Object.prototype] (constructor, toString, ...): the referrals of all
    entries add up to the number of the other kept rows, which is the
    number of kept rows with a clinic name when no clinic has such a
    name. *)
Theorem clinic_entries :
  forall (threshold : number) (customersArray : list Customer),
    (forall b, In b (ClinicPass.clinicArray threshold customersArray) ->
               clinicEntryOk b)
    /\ StronglySorted (fun a b => Clinic.total b <= Clinic.total a)
         (ClinicPass.clinicArray threshold customersArray)
    /\ list_sum (map Clinic.total (ClinicPass.clinicArray threshold customersArray))
       = length (filter hasClinicEntry customersArray)
    /\ ((forall customer, In customer customersArray ->
           JsObject.inherited (clinicNameOf customer) = false) ->
        list_sum (map Clinic.total (ClinicPass.clinicArray threshold customersArray))
        = length (filter hasClinicName customersArray)).
Proof.
  intros threshold cs.
  assert (Hsum :
    list_sum (map Clinic.total (ClinicPass.clinicArray threshold cs))
    = length (filter hasClinicEntry cs)).
  { unfold ClinicPass.clinicArray.
    rewrite (list_sum_perm _ _ (Permutation_map Clinic.total (sort_perm _ _))).
    rewrite values_sum. unfold ClinicPass.clinicSummary.
    rewrite sumOver_forEachValue by reflexivity.
    rewrite clinic_fold_sum; [reflexivity | reflexivity]. }
  split; [|split; [|split]].
  - intros b Hb. apply In_sort in Hb. revert b Hb. apply Forall_values.
    unfold ClinicPass.clinicSummary.
    apply Forall_forEachValue with (P := clinicEntryOk);
      [intros b Hb; exact Hb|].
    apply clinic_fold_ok. constructor.
  - unfold ClinicPass.clinicArray. apply sort_sorted.
    + intros x y z; lia.
    + intros x y H. apply Nat.ltb_lt in H. lia.
    + intros x y H. apply Nat.ltb_ge in H. lia.
  - exact Hsum.
  - intros Hplain. rewrite Hsum. f_equal. apply filter_ext_in.
    intros c Hin. unfold hasClinicEntry, entryName.
    rewrite (Hplain c Hin). apply andb_true_r.
Qed.

(** Two rows of one clinic and one row without a clinic. *)
Lemma clinic_entries_witness :
  list_sum
    (map Clinic.total
       (ClinicPass.clinicArray (ofZ 40)
          [[("診所名稱", " 仁愛診所"); ("是否成交", "是")];
           [("診所名稱", "")];
           [("診所名稱", "仁愛診所 ")]]))
  = 2.
Proof.
  refine (proj2 (proj2 (proj2
    (clinic_entries (ofZ 40)
       [[("診所名稱", " 仁愛診所"); ("是否成交", "是")];
        [("診所名稱", "")];
        [("診所名稱", "仁愛診所 ")]]))) _).
  intros customer [<-|[<-|[<-|[]]]]; reflexivity.
Defined.

(** *** The store entries *)

Lemma store_fold_ok threshold :
  forall customersArray ss,
    Forall (fun kv => storeEntryOk (snd kv)) ss ->
    Forall (fun kv => storeEntryOk (snd kv))
      (fold_left (StorePass.step threshold) customersArray ss).
Proof.
  induction customersArray as [|c rest IH]; intros ss Hss; simpl; [exact Hss|].
  apply IH. unfold StorePass.step.
  destruct (find _ (JsObject.keys c)) as [storeKey|]; [|exact Hss].
  destruct (negb (JsString.truthy storeKey)); [exact Hss|].
  set (name := JsString.trim (JsString.orElse (JsObject.get storeKey c) "")).
  destruct (JsString.truthy name) eqn:Hname; simpl; [|exact Hss].
  destruct (String.eqb name "#N/A") eqn:Hna; [exact Hss|].
  apply String.eqb_neq in Hna.
  assert (Hne : name <> "") by (intros E; rewrite E in Hname; discriminate).
  destruct (gt (getEarPTA c "左") threshold || gt (getEarPTA c "右") threshold
            || StorePass.isDealtStore c).
  - rewrite adjust_compose. apply guarded_Forall; [| |exact Hss].
    + unfold storeEntryOk. simpl. repeat split; (assumption || lia).
    + intros b [H1 [H2 [H3 H4]]]. unfold storeEntryOk. simpl.
      repeat split; (assumption || lia).
  - apply guarded_Forall; [| |exact Hss].
    + unfold storeEntryOk. simpl. repeat split; (assumption || lia).
    + intros b [H1 [H2 [H3 H4]]]. unfold storeEntryOk. simpl.
      repeat split; (assumption || lia).
Qed.

Lemma store_fold_sum threshold :
  forall customersArray ss,
    (forall k, JsObject.inherited k = true -> JsObject.get k ss = None) ->
    sumOver Store.total (fold_left (StorePass.step threshold) customersArray ss)
    = sumOver Store.total ss + length (filter hasStoreEntry customersArray).
Proof.
  induction customersArray as [|c rest IH]; intros ss Hss; simpl; [lia|].
  rewrite IH.
  - unfold StorePass.step, hasStoreEntry, hasStoreName, storeNameOf.
    destruct (find _ (JsObject.keys c)) as [storeKey|]; [|simpl; lia].
    destruct (JsString.truthy storeKey); simpl; [|lia].
    set (name := JsString.trim (JsString.orElse (JsObject.get storeKey c) "")).
    destruct (JsString.truthy name); simpl; [|lia].
    destruct (String.eqb name "#N/A"); simpl; [lia|].
    destruct (gt (getEarPTA c "左") threshold || gt (getEarPTA c "右") threshold
              || StorePass.isDealtStore c).
    + rewrite adjust_compose, guarded_sum;
        [ | reflexivity | reflexivity | intros Hi; now apply Hss].
      destruct (entryName name); simpl; lia.
    + rewrite guarded_sum;
        [ | reflexivity | reflexivity | intros Hi; now apply Hss].
      destruct (entryName name); simpl; lia.
  - intros k Hk. unfold StorePass.step.
    destruct (find _ (JsObject.keys c)) as [storeKey|]; [|now apply Hss].
    destruct (negb (JsString.truthy storeKey)); [now apply Hss|].
    set (name := JsString.trim (JsString.orElse (JsObject.get storeKey c) "")).
    destruct (negb (JsString.truthy name) || String.eqb name "#N/A");
      [now apply Hss|].
    destruct (gt (getEarPTA c "左") threshold || gt (getEarPTA c "右") threshold
              || StorePass.isDealtStore c).
    + rewrite adjust_compose. apply guarded_absent; [exact Hk | now apply Hss].
    + apply guarded_absent; [exact Hk | now apply Hss].
Qed.

(** X6.  Every entry of the store aggregate has a store name that is neither
    empty nor the placeholder #N/A, at least one referral and no more
    potential customers than referrals; the array is ordered by
    non-increasing referrals.  A row with a blank or placeholder store is in
    no entry, and so is a row whose store has the name of a member of
    [Object.prototype] (constructor, toString, ...): the referrals of all
    entries add up to the number of the other kept rows, which is the
    number of kept rows that name a store when no store has such a name. *)
Theorem store_entries :
  forall (threshold : number) (customersArray : list Customer),
    (forall b, In b (StorePass.storeArray threshold customersArray) ->
               storeEntryOk b)
    /\ StronglySorted (fun a b => Store.total b <= Store.total a)
         (StorePass.storeArray threshold customersArray)
    /\ list_sum (map Store.total (StorePass.storeArray threshold customersArray))
       = length (filter hasStoreEntry customersArray)
    /\ ((forall customer, In customer customersArray ->
           JsObject.inherited (storeNameOf customer) = false) ->
        list_sum (map Store.total (StorePass.storeArray threshold customersArray))
        = length (filter hasStoreName customersArray)).
Proof.
  intros threshold cs.
  assert (Hsum :
    list_sum (map Store.total (StorePass.storeArray threshold cs))
    = length (filter hasStoreEntry cs)).
  { unfold StorePass.storeArray.
    rewrite (list_sum_perm _ _ (Permutation_map Store.total (sort_perm _ _))).
    rewrite values_sum. unfold StorePass.storeSummary.
    rewrite store_fold_sum; [reflexivity | reflexivity]. }
  split; [|split; [|split]].
  - intros b Hb. apply In_sort in Hb. revert b Hb. apply Forall_values.
    apply store_fold_ok. constructor.
  - unfold StorePass.storeArray. apply sort_sorted.
    + intros x y z; lia.
    + intros x y H. apply Nat.ltb_lt in H. lia.
    + intros x y H. apply Nat.ltb_ge in H. lia.
  - exact Hsum.
  - intros Hplain. rewrite Hsum. f_equal. apply filter_ext_in.
    intros c Hin. unfold hasStoreEntry, entryName.
    rewrite (Hplain c Hin). apply andb_true_r.
Qed.

(** A row with a store, a row with the placeholder and a row with a blank. *)
Lemma store_entries_witness :
  list_sum
    (map Store.total
       (StorePass.storeArray (ofZ 40)
          [[("門市自帶", "藝文店")]; [("門市自帶", "#N/A")]; [("門市自帶", "  ")]]))
  = 1.
Proof.
  refine (proj2 (proj2 (proj2
    (store_entries (ofZ 40)
       [[("門市自帶", "藝文店")]; [("門市自帶", "#N/A")]; [("門市自帶", "  ")]]))) _).
  intros customer [<-|[<-|[<-|[]]]]; reflexivity.
Defined.

(** *** The hearing-screening entries *)

Lemma hearing_tally_update threshold customer :
  exists f,
    (forall monthKey hs,
        HearingPass.tally threshold customer monthKey hs
        = JsObject.adjust monthKey f hs)
    /\ (forall b, Hearing.total (f b) = S (Hearing.total b))
    /\ (forall b, Hearing.potential b <= Hearing.total b ->
                  Hearing.potential (f b) <= Hearing.total (f b))
    /\ (forall b, Hearing.dealt b <= Hearing.potential b ->
                  Hearing.dealt (f b) <= Hearing.potential (f b)).
Proof.
  unfold HearingPass.tally.
  destruct (HearingPass.isDealtHS customer) eqn:Hd.
  - rewrite !orb_true_r.
    destruct (validAmount (parseAmount (amountCell customer))).
    + exists (fun b => HearingPass.addAmount (parseAmount (amountCell customer))
                         (HearingPass.incDealt
                            (HearingPass.incPotential (HearingPass.incTotal b)))).
      split; [intros; now rewrite !adjust_compose|].
      repeat split; simpl; lia.
    + exists (fun b => HearingPass.incDealt
                         (HearingPass.incPotential (HearingPass.incTotal b))).
      split; [intros; now rewrite !adjust_compose|].
      repeat split; simpl; lia.
  - rewrite orb_false_r.
    destruct (gt (getEarPTA customer "左") threshold
              || gt (getEarPTA customer "右") threshold).
    + exists (fun b => HearingPass.incPotential (HearingPass.incTotal b)).
      split; [intros; now rewrite !adjust_compose|].
      repeat split; simpl; lia.
    + exists HearingPass.incTotal.
      split; [reflexivity|].
      repeat split; simpl; lia.
Qed.

Lemma hearing_fold_ok newDate threshold :
  forall customersArray hs,
    Forall (fun kv => hearingEntryOk (snd kv)) hs ->
    Forall (fun kv => hearingEntryOk (snd kv))
      (fold_left (HearingPass.step newDate threshold) customersArray hs).
Proof.
  induction customersArray as [|c rest IH]; intros hs Hhs; simpl; [exact Hhs|].
  apply IH. unfold HearingPass.step.
  destruct (negb (JsString.includes "聽篩" (HearingPass.sourceVal c))); [exact Hhs|].
  destruct (negb (JsString.truthy (serviceDateOf c))); [exact Hhs|].
  destruct (newDate (serviceDateOf c)) as [date|]; [|exact Hhs].
  destruct (hearing_tally_update threshold c) as [f [Hf [Ht [Hp Hd]]]].
  rewrite Hf. apply guarded_Forall; [| |exact Hhs].
  - set (b0 := HearingPass.fresh _ _).
    pose proof (Ht b0) as Ht0.
    pose proof (Hp b0 (Nat.le_refl 0)) as Hp0.
    pose proof (Hd b0 (Nat.le_refl 0)) as Hd0.
    unfold hearingEntryOk. split; [lia|]. split; assumption.
  - intros b [H1 [H2 H3]]. pose proof (Ht b) as Htb. unfold hearingEntryOk.
    split; [lia|]. split; [now apply Hp | now apply Hd].
Qed.

Lemma hearing_fold_sum newDate threshold :
  forall customersArray hs,
    sumOver Hearing.total
      (fold_left (HearingPass.step newDate threshold) customersArray hs)
    = sumOver Hearing.total hs
      + length (filter (inHearingCampaign newDate) customersArray).
Proof.
  induction customersArray as [|c rest IH]; intros hs; simpl; [lia|].
  rewrite IH. unfold HearingPass.step, inHearingCampaign.
  destruct (JsString.includes "聽篩" (HearingPass.sourceVal c)); simpl; [|lia].
  destruct (JsString.truthy (serviceDateOf c)); simpl; [|lia].
  destruct (newDate (serviceDateOf c)) as [date|]; simpl; [|lia].
  destruct (hearing_tally_update threshold c) as [f [Hf [Ht _]]].
  rewrite Hf, guard_plain by apply monthKeyOf_plain.
  rewrite upsert_sum; [lia | now rewrite Ht | exact Ht].
Qed.

Lemma laterYearMonth_true ya ma yb mb :
  laterYearMonth ya ma yb mb = true -> (yb <= ya)%Z.
Proof.
  unfold laterYearMonth. destruct (Z.eqb_spec ya yb) as [->|Hne]; simpl.
  - lia.
  - intros H. apply Z.ltb_lt in H. lia.
Qed.

Lemma laterYearMonth_false ya ma yb mb :
  laterYearMonth ya ma yb mb = false -> (ya <= yb)%Z.
Proof.
  unfold laterYearMonth. destruct (Z.eqb_spec ya yb) as [->|Hne]; simpl.
  - lia.
  - intros H. apply Z.ltb_ge in H. lia.
Qed.

(** X7.  Every entry of the hearing-screening aggregate has at least one
    visitor, no more potential customers than visitors and no more deals
    than potential customers; the array is ordered by non-decreasing year;
    and the visitors of all entries add up to the number of kept rows whose
    source text contains 聽篩 and whose service date the host can read: the
    other rows are in no entry. *)
Theorem hearing_entries :
  forall (newDate : string -> option JsDate.t) (threshold : number)
         (customersArray : list Customer),
    (forall b, In b (HearingPass.hearingArray newDate threshold customersArray) ->
               hearingEntryOk b)
    /\ StronglySorted (fun a b => (Hearing.year a <= Hearing.year b)%Z)
         (HearingPass.hearingArray newDate threshold customersArray)
    /\ list_sum (map Hearing.total
                   (HearingPass.hearingArray newDate threshold customersArray))
       = length (filter (inHearingCampaign newDate) customersArray).
Proof.
  intros newDate threshold cs. split; [|split].
  - intros b Hb. apply In_sort in Hb. revert b Hb. apply Forall_values.
    unfold HearingPass.hearingSummary.
    apply Forall_forEachValue with (P := hearingEntryOk);
      [intros b Hb; exact Hb|].
    apply hearing_fold_ok. constructor.
  - unfold HearingPass.hearingArray. apply sort_sorted.
    + intros x y z; lia.
    + intros x y H. now apply laterYearMonth_true in H.
    + intros x y H. now apply laterYearMonth_false in H.
  - unfold HearingPass.hearingArray.
    rewrite (list_sum_perm _ _ (Permutation_map Hearing.total (sort_perm _ _))).
    rewrite values_sum. unfold HearingPass.hearingSummary.
    rewrite sumOver_forEachValue by reflexivity.
    rewrite hearing_fold_sum. reflexivity.
Qed.

(** A campaign row of March 2024 and a row of another source. *)
Lemma hearing_entries_witness :
  hearingEntryOk
    {| Hearing.month := "2024年3月"; Hearing.year := 2024; Hearing.total := 1;
       Hearing.potential := 0; Hearing.dealt := 0;
       Hearing.conversionRate := zero; Hearing.totalAmount := zero |}.
Proof.
  apply (hearing_entries slashDate (ofZ 40)
           [[("初次到店", "2024/3/15"); ("顧客來源", "聽篩活動")];
            [("初次到店", "2024/3/16"); ("顧客來源", "網路")]]).
  vm_compute. left. reflexivity.
Defined.

(** *** The monthly entries against the global totals *)

Section UpsertAdd.
Context {V : Type}.

Lemma sumOver_adjust_add (c : V -> nat) (n : nat) k (f : V -> V)
      (o : JsObject.t V) :
  (forall v, c (f v) = c v + n) ->
  JsObject.get k o <> None ->
  sumOver c (JsObject.adjust k f o) = sumOver c o + n.
Proof.
  intros Hf. unfold sumOver.
  induction o as [|[k0 v0] o IH]; simpl; [tauto|].
  destruct (String.eqb k k0); simpl; intros H.
  - rewrite Hf. lia.
  - rewrite IH by exact H. lia.
Qed.

Lemma upsert_sum_add (c : V -> nat) (n : nat) (k : string) (v : V) (f : V -> V)
      (o : JsObject.t V) :
  c v = 0 ->
  (forall b, c (f b) = c b + n) ->
  sumOver c
    (JsObject.adjust k f
       match JsObject.get k o with
       | Some _ => o
       | None => JsObject.set k v o
       end)
  = sumOver c o + n.
Proof.
  intros Hv Hf. destruct (JsObject.get k o) eqn:E.
  - apply sumOver_adjust_add; [exact Hf | rewrite E; discriminate].
  - rewrite adjust_set, sumOver_set_new by exact E. rewrite Hf, Hv. lia.
Qed.

End UpsertAdd.

Lemma adjust_id {V : Type} (k : string) (o : JsObject.t V) :
  JsObject.adjust k (fun v => v) o = o.
Proof.
  induction o as [|[k0 v0] o IH]; simpl; [reflexivity|].
  destruct (String.eqb k k0); [reflexivity | now rewrite IH].
Qed.

Lemma monthly_tally_update threshold customer :
  exists f,
    (forall monthKey md,
        MonthlyPass.tally threshold customer monthKey md
        = JsObject.adjust monthKey f md)
    /\ (forall b, MonthlyReport.newCustomers (f b)
                  = MonthlyReport.newCustomers b
                    + (if MonthlyPass.isPotential threshold customer then 1 else 0))
    /\ (forall b, MonthlyReport.completedDeals (f b)
                  = MonthlyReport.completedDeals b
                    + (if MonthlyPass.isDealt customer then 1 else 0)).
Proof.
  unfold MonthlyPass.tally.
  destruct (MonthlyPass.isDealt customer);
    destruct (MonthlyPass.isPotential threshold customer);
    try destruct (validAmount _);
    eexists;
    (split; [intros; rewrite ?adjust_compose;
             first [reflexivity | symmetry; apply adjust_id]|]);
    split; intros b; simpl; lia.
Qed.

Lemma monthly_fold_sums newDate threshold :
  forall customersArray md,
    sumOver MonthlyReport.newCustomers
      (fold_left (MonthlyPass.step newDate threshold) customersArray md)
    = sumOver MonthlyReport.newCustomers md
      + length (filter (fun c => hasServiceDate newDate c
                                 && MonthlyPass.isPotential threshold c)
                       customersArray)
    /\ sumOver MonthlyReport.completedDeals
         (fold_left (MonthlyPass.step newDate threshold) customersArray md)
       = sumOver MonthlyReport.completedDeals md
         + length (filter (fun c => hasServiceDate newDate c
                                    && MonthlyPass.isDealt c)
                          customersArray).
Proof.
  induction customersArray as [|c rest IH]; intros md; simpl; [lia|].
  destruct (IH (MonthlyPass.step newDate threshold md c)) as [IHn IHd].
  rewrite IHn, IHd. clear IH IHn IHd.
  unfold MonthlyPass.step, hasServiceDate.
  destruct (JsString.truthy (serviceDateOf c)); simpl; [|lia].
  destruct (newDate (serviceDateOf c)) as [date|]; simpl; [|lia].
  destruct (monthly_tally_update threshold c) as [f [Hf [Hn Hd]]].
  rewrite Hf, guard_plain by apply monthKeyOf_plain.
  rewrite (upsert_sum_add MonthlyReport.newCustomers _ _
             (MonthlyPass.fresh (monthKeyOf date) (JsDate.getFullYear date))
             f md eq_refl Hn).
  rewrite (upsert_sum_add MonthlyReport.completedDeals _ _
             (MonthlyPass.fresh (monthKeyOf date) (JsDate.getFullYear date))
             f md eq_refl Hd).
  destruct (MonthlyPass.isPotential threshold c);
    destruct (MonthlyPass.isDealt c); simpl; lia.
Qed.

Lemma filter_length_mono {A : Type} (p q : A -> bool) (l : list A) :
  (forall x, p x = true -> q x = true) ->
  length (filter p l) <= length (filter q l).
Proof.
  intros H. induction l as [|x l IH]; simpl; [lia|].
  destruct (p x) eqn:E.
  - rewrite (H x E). simpl. lia.
  - destruct (q x); simpl; lia.
Qed.

Lemma monthly_isDealt_isDealt customer :
  MonthlyPass.isDealt customer = true -> SalesmenPass.isDealt customer = true.
Proof.
  unfold MonthlyPass.isDealt, SalesmenPass.isDealt.
  rewrite !orb_true_iff. tauto.
Qed.

Lemma monthly_isPotential_isPotential threshold customer :
  MonthlyPass.isPotential threshold customer = true ->
  SalesmenPass.isPotentialCustomer threshold customer = true.
Proof.
  unfold MonthlyPass.isPotential, SalesmenPass.isPotentialCustomer,
    MonthlyPass.isDealtClinic, SalesmenPass.isDealt.
  rewrite !orb_true_iff. tauto.
Qed.

(** X8.  The monthly array is ordered by non-decreasing year.  Its new customers
    add up to the number of kept rows that the host can date and that the
    monthly pass finds potential, which is at most the global
    [totalCustomers]; its completed deals add up to the number of kept rows
    that the host can date and that the monthly pass finds converted, which
    is at most the global [totalCompletedDeals]. *)
Theorem monthly_sums_within_totals :
  forall (newDate : string -> option JsDate.t) (threshold : number)
         (customersArray : list Customer),
    StronglySorted (fun a b => (MonthlyReport.year a <= MonthlyReport.year b)%Z)
      (MonthlyPass.sortedMonthlyData newDate threshold customersArray)
    /\ sumNewCustomers
         (MonthlyPass.sortedMonthlyData newDate threshold customersArray)
       = length (filter (fun c => hasServiceDate newDate c
                                  && MonthlyPass.isPotential threshold c)
                        customersArray)
    /\ sumNewCustomers
         (MonthlyPass.sortedMonthlyData newDate threshold customersArray)
       <= SalesmenPass.potentialCustomers
            (SalesmenPass.run threshold customersArray)
    /\ list_sum (map MonthlyReport.completedDeals
                   (MonthlyPass.sortedMonthlyData newDate threshold customersArray))
       = length (filter (fun c => hasServiceDate newDate c
                                  && MonthlyPass.isDealt c)
                        customersArray)
    /\ list_sum (map MonthlyReport.completedDeals
                   (MonthlyPass.sortedMonthlyData newDate threshold customersArray))
       <= SalesmenPass.orders (SalesmenPass.run threshold customersArray).
Proof.
  intros newDate threshold cs.
  assert (Hsum : forall l, sumNewCustomers l
                           = list_sum (map MonthlyReport.newCustomers l)).
  { intros l. unfold sumNewCustomers.
    rewrite <- (Nat.add_0_l (list_sum _)). generalize 0.
    induction l as [|b l IH]; intros n; simpl; [lia|]. rewrite IH. lia. }
  assert (Hn : sumNewCustomers
                 (MonthlyPass.sortedMonthlyData newDate threshold cs)
               = length (filter (fun c => hasServiceDate newDate c
                                          && MonthlyPass.isPotential threshold c) cs)).
  { rewrite Hsum. unfold MonthlyPass.sortedMonthlyData.
    rewrite (list_sum_perm _ _
               (Permutation_map MonthlyReport.newCustomers (sort_perm _ _))).
    rewrite values_sum. unfold MonthlyPass.customerMonthlyData.
    rewrite sumOver_forEachValue by reflexivity.
    now rewrite (proj1 (monthly_fold_sums newDate threshold cs JsObject.empty)). }
  assert (Hd : list_sum (map MonthlyReport.completedDeals
                           (MonthlyPass.sortedMonthlyData newDate threshold cs))
               = length (filter (fun c => hasServiceDate newDate c
                                          && MonthlyPass.isDealt c) cs)).
  { unfold MonthlyPass.sortedMonthlyData.
    rewrite (list_sum_perm _ _
               (Permutation_map MonthlyReport.completedDeals (sort_perm _ _))).
    rewrite values_sum. unfold MonthlyPass.customerMonthlyData.
    rewrite sumOver_forEachValue by reflexivity.
    now rewrite (proj2 (monthly_fold_sums newDate threshold cs JsObject.empty)). }
  split; [|split; [exact Hn | split; [|split; [exact Hd|]]]].
  - unfold MonthlyPass.sortedMonthlyData. apply sort_sorted.
    + intros x y z; lia.
    + intros x y H. now apply laterYearMonth_true in H.
    + intros x y H. now apply laterYearMonth_false in H.
  - rewrite Hn, potential_count. apply filter_length_mono.
    intros c Hc. apply andb_true_iff in Hc.
    now apply monthly_isPotential_isPotential.
  - rewrite Hd, orders_count. apply filter_length_mono.
    intros c Hc. apply andb_true_iff in Hc.
    now apply monthly_isDealt_isDealt.
Qed.

(** X9.  In the monthly pass a converted row need not be a potential one: the
    conversion test of the loop accepts 是否有借機 = TRUE, the potential test
    does not.  Such a row raises the completed deals of its month and
    leaves the new customers, so a month can hold more deals than new
    customers. *)
Theorem monthly_deal_without_new_customer :
  forall (threshold : number) (customer : Customer) (monthKey : string)
         (md : JsObject.t MonthlyReport.t) (b : MonthlyReport.t),
    JsObject.get monthKey md = Some b ->
    MonthlyPass.isDealt customer = true ->
    MonthlyPass.isPotential threshold customer = false ->
    exists b',
      JsObject.get monthKey (MonthlyPass.tally threshold customer monthKey md)
      = Some b'
      /\ MonthlyReport.completedDeals b' = S (MonthlyReport.completedDeals b)
      /\ MonthlyReport.newCustomers b' = MonthlyReport.newCustomers b.
Proof.
  intros threshold customer monthKey md b Hget Hd Hp.
  destruct (monthly_tally_update threshold customer) as [f [Hf [Hn Hc]]].
  exists (f b). rewrite Hf, get_adjust, String.eqb_refl, Hget. simpl.
  split; [reflexivity|]. rewrite Hn, Hc, Hd, Hp. lia.
Qed.

(** A row whose only marker is 是否有借機 = TRUE, in a fresh month. *)
Lemma monthly_deal_without_new_customer_witness :
  exists b',
    JsObject.get "2024年3月"
      (MonthlyPass.tally (ofZ 40) [("是否有借機", "TRUE")] "2024年3月"
         [("2024年3月", MonthlyPass.fresh "2024年3月" 2024)]) = Some b'
    /\ MonthlyReport.completedDeals b' = 1
    /\ MonthlyReport.newCustomers b' = 0.
Proof.
  apply (monthly_deal_without_new_customer (ofZ 40) [("是否有借機", "TRUE")]
           "2024年3月" [("2024年3月", MonthlyPass.fresh "2024年3月" 2024)]
           (MonthlyPass.fresh "2024年3月" 2024)); reflexivity.
Defined.

(** *** More on the amount parser *)

Lemma round_nonneg (mx ex : Z) (lx : location) :
  lt (binary_round_aux prec emax false mx ex lx) zero = false.
Proof.
  unfold binary_round_aux.
  destruct (shr_fexp prec emax mx ex lx) as [mrs' e'].
  destruct (shr_fexp prec emax _ e' loc_Exact) as [mrs'' e''].
  destruct (shr_m mrs''); [reflexivity | | reflexivity].
  destruct (e'' <=? emax - prec)%Z; reflexivity.
Qed.

Lemma parseFloat_nonneg (s : string) : lt (parseFloat s) zero = false.
Proof.
  unfold parseFloat. destruct (JsString.spanDigits s) as [ip r].
  set (fp := match r with String "."%char r' => fst (JsString.spanDigits r')
                     | _ => EmptyString end).
  assert (H : forall m k, lt (ofDecimal m k) zero = false).
  { intros m k. unfold ofDecimal. destruct m; try reflexivity.
    destruct (SFdiv_core_binary _ _ _ _ _ _) as [[mz ez] lz].
    apply round_nonneg. }
  destruct ip; destruct fp; first [apply H | reflexivity].
Qed.

Lemma cleanNumeric_app (a b : string) :
  cleanNumeric (a ++ b) = cleanNumeric a ++ cleanNumeric b.
Proof.
  induction a as [|c a IH]; simpl; [reflexivity|].
  destruct (JsString.isDigit c || Ascii.eqb c "."%char); simpl; now rewrite IH.
Qed.

Lemma cleanNumeric_digits (a : string) :
  allDigits a = true -> cleanNumeric a = a.
Proof.
  induction a as [|c a IH]; simpl; [reflexivity|].
  intros H. apply andb_true_iff in H. destruct H as [Hc Ha].
  rewrite Hc. simpl. now rewrite IH.
Qed.

Lemma spanDigits_app (a s : string) :
  allDigits a = true ->
  match s with String c _ => JsString.isDigit c = false | EmptyString => True end ->
  JsString.spanDigits (a ++ s) = (a, s).
Proof.
  intros Ha Hs. induction a as [|c a IH]; cbn [append JsString.spanDigits].
  - destruct s as [|c s]; [reflexivity|].
    cbn [JsString.spanDigits]. now rewrite Hs.
  - cbn [allDigits] in Ha. apply andb_true_iff in Ha. destruct Ha as [Hc Ha].
    rewrite Hc, (IH Ha). reflexivity.
Qed.

Lemma parseAmount_truthy (v : string) :
  parseAmount (Some v) = parseFloat (cleanNumeric v).
Proof. destruct v; reflexivity. Qed.

Lemma parseFloat_point (a b s : string) :
  allDigits a = true -> allDigits b = true ->
  match s with String c _ => JsString.isDigit c = false | EmptyString => True end ->
  parseFloat (a ++ "." ++ b ++ s) =
  match a, b with
  | EmptyString, EmptyString => NaN
  | _, _ => ofDecimal (JsString.digitsValue (a ++ b)) (String.length b)
  end.
Proof.
  intros Ha Hb Hs. unfold parseFloat.
  rewrite (spanDigits_app a ("." ++ b ++ s) Ha) by reflexivity.
  cbn [append]. rewrite (spanDigits_app b s Hb Hs). reflexivity.
Qed.

(** X11.  The amount parser never gives a negative number: a sign is not a digit
    or a point, so a text and the same text behind a minus sign parse
    alike.  A second decimal point ends the number: for digit runs [a] and
    [b], the text [a.b.rest] parses as [a.b], whatever follows. *)
Theorem parse_amount_sign_and_points :
  (forall v, lt (parseAmount v) zero = false)
  /\ (forall v, parseAmount (Some ("-" ++ v)) = parseAmount (Some v))
  /\ (forall a b rest,
        allDigits a = true -> allDigits b = true ->
        parseAmount (Some (a ++ "." ++ b ++ "." ++ rest))
        = parseAmount (Some (a ++ "." ++ b))).
Proof.
  split; [|split].
  - intros v. unfold parseAmount.
    destruct (negb (JsString.truthyOpt v)); [reflexivity|].
    destruct v; [apply parseFloat_nonneg | reflexivity].
  - intros v. rewrite !parseAmount_truthy. reflexivity.
  - intros a b rest Ha Hb. rewrite !parseAmount_truthy.
    rewrite !cleanNumeric_app, !(cleanNumeric_digits a Ha), !(cleanNumeric_digits b Hb).
    change (cleanNumeric ".") with ".".
    rewrite (parseFloat_point a b ("." ++ cleanNumeric rest) Ha Hb) by reflexivity.
    replace (a ++ "." ++ b) with (a ++ "." ++ b ++ "")
      by (f_equal; f_equal; clear; induction b; simpl; congruence).
    now rewrite (parseFloat_point a b "" Ha Hb) by exact I.
Qed.

(** A figure with points as thousands separators is cut at the second
    point. *)
Lemma parse_amount_sign_and_points_witness :
  parseAmount (Some "1.234.567") = parseAmount (Some "1.234").
Proof.
  apply (proj2 (proj2 parse_amount_sign_and_points) "1" "234" "567");
    reflexivity.
Defined.

(** *** The first date format *)

Lemma dateSep_cases (c : ascii) (rest : string) :
  c = "/"%char \/ c = "-"%char -> dateSep (String c rest) = Some rest.
Proof. intros [->| ->]; reflexivity. Qed.

(** X12.  A date cell that begins with four digits, a separator, two digits, a
    separator and two digits is read by the first format as that year,
    month and day at local midnight, whatever text follows (a time of day,
    more digits), and the host is not consulted. *)
Theorem date_format0_prefix :
  forall (newDate : string -> option JsDate.t)
         (y1 y2 y3 y4 s1 m1 m2 s2 d1 d2 : ascii) (rest : string),
    JsString.isDigit y1 = true -> JsString.isDigit y2 = true ->
    JsString.isDigit y3 = true -> JsString.isDigit y4 = true ->
    JsString.isDigit m1 = true -> JsString.isDigit m2 = true ->
    JsString.isDigit d1 = true -> JsString.isDigit d2 = true ->
    (s1 = "/"%char \/ s1 = "-"%char) ->
    (s2 = "/"%char \/ s2 = "-"%char) ->
    anchorDate newDate
      (String y1 (String y2 (String y3 (String y4 (String s1
        (String m1 (String m2 (String s2 (String d1 (String d2 rest))))))))))
    = Some (JsDate.make
              (JsString.digitsValue (String y1 (String y2 (String y3 (String y4 "")))))
              (JsString.digitsValue (String m1 (String m2 "")) - 1)
              (JsString.digitsValue (String d1 (String d2 "")))).
Proof.
  intros newDate y1 y2 y3 y4 s1 m1 m2 s2 d1 d2 rest
         Hy1 Hy2 Hy3 Hy4 Hm1 Hm2 Hd1 Hd2 Hs1 Hs2.
  unfold anchorDate, structuralDate.
  assert (H : regexSearch matchFormat0
                (String y1 (String y2 (String y3 (String y4 (String s1
                  (String m1 (String m2 (String s2 (String d1 (String d2 rest))))))))))
              = Some (String y1 (String y2 (String y3 (String y4 ""))),
                      String m1 (String m2 ""), String d1 (String d2 ""))).
  { cbn [regexSearch]. unfold matchFormat0, group4.
    cbn [JsString.takeDigits]. rewrite Hy1, Hy2, Hy3, Hy4.
    cbn [String.length Nat.eqb bindO].
    rewrite (dateSep_cases s1 _ Hs1). cbn [bindO]. unfold group12.
    cbn [JsString.takeDigits]. rewrite Hm1, Hm2. cbn [nonEmpty JsString.truthy bindO].
    rewrite (dateSep_cases s2 _ Hs2). cbn [bindO].
    cbn [JsString.takeDigits]. rewrite Hd1, Hd2. reflexivity. }
  rewrite H. reflexivity.
Qed.

(** A cell with a time of day. *)
Lemma date_format0_prefix_witness :
  anchorDate slashDate "2024-03-15 10:30" = Some (JsDate.make 2024 2 15).
Proof.
  apply (date_format0_prefix slashDate "2" "0" "2" "4" "-" "0" "3" "-" "1" "5"
           " 10:30"); try reflexivity; auto.
Defined.

(** *** From a row to a customer object *)

Lemma get_assign_same {V : Type} (k : string) (v : V) (o : JsObject.t V) :
  k <> "__proto__" -> JsObject.get k (JsObject.assign k v o) = Some v.
Proof.
  intros Hk. unfold JsObject.assign.
  apply String.eqb_neq in Hk. rewrite Hk. apply get_set_same.
Qed.

Lemma get_assign_other {V : Type} (k k' : string) (v : V) (o : JsObject.t V) :
  k <> k' -> JsObject.get k (JsObject.assign k' v o) = JsObject.get k o.
Proof.
  intros Hk. unfold JsObject.assign.
  destruct (String.eqb k' "__proto__"); [reflexivity | now apply get_set_other].
Qed.

(** No assignment creates a property __proto__. *)
Lemma get_assign_proto {V : Type} (k : string) (v : V) (o : JsObject.t V) :
  JsObject.get "__proto__" (JsObject.assign k v o) = JsObject.get "__proto__" o.
Proof.
  unfold JsObject.assign. destruct (String.eqb k "__proto__") eqn:E;
    [reflexivity|].
  apply get_set_other. intros <-. discriminate.
Qed.

Lemma fillCells_other (row : list string) (h : string) :
  forall headers index cells,
    ~ In h headers ->
    JsObject.get h (fillCells row index headers cells) = JsObject.get h cells.
Proof.
  induction headers as [|h0 headers IH]; intros index cells Hnot; simpl;
    [reflexivity|].
  rewrite IH by (intros Hin; apply Hnot; now right).
  apply get_assign_other. intros ->. apply Hnot. now left.
Qed.

Lemma fillCells_last (row : list string) (h : string) :
  h <> "__proto__" ->
  forall headers index cells j,
    nth_error headers j = Some h ->
    (forall j', j < j' -> nth_error headers j' <> Some h) ->
    option_map RowData.內容 (JsObject.get h (fillCells row index headers cells))
    = Some (JsString.orElse (nth_error row (index + j)) "").
Proof.
  intros Hh.
  induction headers as [|h0 headers IH]; intros index cells j Hj Hlast.
  - destruct j; discriminate.
  - destruct j as [|j]; simpl in Hj.
    + injection Hj as ->. simpl.
      rewrite fillCells_other.
      * rewrite get_assign_same by exact Hh. rewrite Nat.add_0_r. reflexivity.
      * intros Hin. apply In_nth_error in Hin. destruct Hin as [n Hn].
        apply (Hlast (S n)); [lia | exact Hn].
    + simpl. rewrite (IH (S index) _ j Hj).
      * now rewrite Nat.add_succ_r.
      * intros j' Hlt. apply (Hlast (S j')). lia.
Qed.

(** Every header but __proto__ has a cell of its own. *)
Lemma fillCells_own (row : list string) (h : string) :
  h <> "__proto__" ->
  forall headers index cells,
    In h headers ->
    JsObject.get h (fillCells row index headers cells) <> None.
Proof.
  intros Hh. induction headers as [|h0 headers IH]; intros index cells Hin;
    [destruct Hin|].
  simpl. destruct (in_dec string_dec h headers) as [Hin'|Hnot].
  - now apply IH.
  - destruct Hin as [->|Hin]; [|contradiction].
    rewrite fillCells_other by exact Hnot.
    rewrite get_assign_same by exact Hh. discriminate.
Qed.

Lemma customerObject_other (row : RowData.t) (h : string) :
  forall hs acc,
    ~ In h hs ->
    JsObject.get h
      (fold_left
         (fun customer header =>
            JsObject.assign header
              match JsObject.get header (RowData.所有欄位數據 row) with
              | Some cellData => RowData.內容 cellData
              | None => ""
              end customer) hs acc)
    = JsObject.get h acc.
Proof.
  induction hs as [|h1 hs IHs]; intros acc Hn; simpl; [reflexivity|].
  rewrite IHs by (intros Hi; apply Hn; now right).
  apply get_assign_other. intros ->. apply Hn. now left.
Qed.

Lemma customerObject_get (headers : list string) (row : RowData.t) (h : string) :
  In h headers ->
  h <> "__proto__" ->
  JsObject.get h (customerObject headers row)
  = Some match JsObject.get h (RowData.所有欄位數據 row) with
         | Some cellData => RowData.內容 cellData
         | None => ""
         end.
Proof.
  intros Hin Hh. revert Hin.
  unfold customerObject. generalize (@JsObject.empty string).
  induction headers as [|h0 headers IH]; intros acc Hin; [destruct Hin|].
  simpl. destruct (in_dec string_dec h headers) as [Hin'|Hnot].
  - now apply IH.
  - destruct Hin as [->|Hin]; [|contradiction].
    rewrite (customerObject_other row h headers _ Hnot).
    now apply get_assign_same.
Qed.

Lemma map_fst_set_present {V : Type} (k : string) (v : V) (o : JsObject.t V) :
  JsObject.get k o <> None -> map fst (JsObject.set k v o) = map fst o.
Proof.
  induction o as [|[k0 v0] o IH]; simpl; [tauto|].
  destruct (String.eqb k k0); simpl; [reflexivity|].
  intros H. now rewrite IH.
Qed.

Lemma customerObject_keys (headers : list string) (row : RowData.t) :
  map fst (customerObject headers row) = firstSeen (filter assignable headers).
Proof.
  unfold customerObject, firstSeen.
  change (@nil string) with (map fst (@JsObject.empty string)).
  generalize (@JsObject.empty string).
  induction headers as [|h headers IH]; intros acc; simpl; [reflexivity|].
  rewrite IH. unfold JsObject.assign, assignable at 2.
  destruct (String.eqb h "__proto__"); simpl; [reflexivity|].
  f_equal. rewrite get_none_existsb.
  destruct (JsObject.get h acc) eqn:E.
  - apply map_fst_set_present. rewrite E. discriminate.
  - now apply map_fst_set_new.
Qed.

Lemma get_In_keys {V : Type} (k : string) (o : JsObject.t V) :
  JsObject.get k o <> None <-> In k (map fst o).
Proof.
  pose proof (get_none_existsb k o) as G. split.
  - intros H. destruct (JsObject.get k o); [|contradiction].
    apply existsb_exists in G. destruct G as [k' [Hin Heq]].
    apply String.eqb_eq in Heq. now subst.
  - intros Hin H. rewrite H in G.
    assert (E : existsb (String.eqb k) (map fst o) = true).
    { apply existsb_exists. exists k. split; [exact Hin | apply String.eqb_refl]. }
    congruence.
Qed.

Lemma firstSeenFrom_incl (k : string) :
  forall ks seen, In k seen \/ In k ks -> In k (firstSeenFrom seen ks).
Proof.
  induction ks as [|k0 ks IH]; intros seen; simpl; [tauto|].
  intros [Hs|[->|Hk]]; apply IH.
  - left. destruct (existsb (String.eqb k0) seen); [exact Hs|].
    apply in_or_app. now left.
  - left. destruct (existsb (String.eqb k) seen) eqn:E.
    + apply existsb_exists in E. destruct E as [k' [Hin Heq]].
      apply String.eqb_eq in Heq. now subst.
    + apply in_or_app. right. now left.
  - now right.
Qed.

Lemma rowDataOf_cells newDate range headers dateColumnIndex status amount i row rowData :
  rowDataOf newDate range headers dateColumnIndex status amount i row = Some rowData ->
  RowData.所有欄位數據 rowData = fillCells row 0 headers JsObject.empty.
Proof.
  unfold rowDataOf.
  destruct (nth_error row dateColumnIndex) as [cell|]; [|discriminate].
  destruct (negb (JsString.truthy cell)); [discriminate|].
  destruct (negb (JsString.truthy (JsString.trim cell))); [discriminate|].
  destruct (anchorDate newDate (JsString.trim cell)) as [date|]; [|discriminate].
  destruct (inWindow range date); [|discriminate].
  now intros [= <-].
Qed.

(** X15.  The customer object of a kept row has one key for each distinct
    header but __proto__, under which the assignment creates nothing; when
    no header is an array index, [Object.keys] gives these keys in the
    order of the first occurrences.  Under a header, the object holds the
    cell of the last column with that header (the text as it is, not
    trimmed), and the empty text when the row is too short to have that
    cell. *)
Theorem customer_holds_last_column :
  forall (newDate : string -> option JsDate.t) (range : DateRange)
         (headers : list string) (dateColumnIndex : nat)
         (status amount : option nat) (i : nat) (row : list string)
         (rowData : RowData.t),
    rowDataOf newDate range headers dateColumnIndex status amount i row
    = Some rowData ->
    (forall header,
        JsObject.get header (customerObject headers rowData) <> None
        <-> In header headers /\ header <> "__proto__")
    /\ ((forall header, In header headers -> JsObject.arrayIndex header = None) ->
        JsObject.keys (customerObject headers rowData)
        = firstSeen (filter assignable headers))
    /\ forall j header,
         nth_error headers j = Some header ->
         header <> "__proto__" ->
         (forall j', j < j' -> nth_error headers j' <> Some header) ->
         JsObject.get header (customerObject headers rowData)
         = Some (JsString.orElse (nth_error row j) "").
Proof.
  intros newDate range headers dateColumnIndex status amount i row rowData Hrow.
  assert (Hkeys : forall header,
            In header (map fst (customerObject headers rowData))
            <-> In header headers /\ header <> "__proto__").
  { intros header. rewrite customerObject_keys. unfold firstSeen. split.
    - intros H. destruct (firstSeenFrom_In _ _ _ H) as [[]|Hf].
      apply filter_In in Hf. destruct Hf as [Hin Ha]. split; [exact Hin|].
      unfold assignable in Ha. intros ->. discriminate.
    - intros [Hin Hne]. apply firstSeenFrom_incl. right.
      apply filter_In. split; [exact Hin|].
      unfold assignable. apply String.eqb_neq in Hne. now rewrite Hne. }
  split; [|split].
  - intros header. rewrite get_In_keys. apply Hkeys.
  - intros Hnames. unfold JsObject.keys.
    rewrite entries_named; [apply customerObject_keys|].
    intros k Hk. apply Hkeys in Hk. now apply Hnames.
  - intros j header Hj Hne Hlast.
    rewrite customerObject_get by (try eapply nth_error_In; eassumption).
    rewrite (rowDataOf_cells _ _ _ _ _ _ _ _ _ Hrow).
    pose proof (fillCells_last row header Hne headers 0 JsObject.empty j Hj Hlast)
      as H.
    destruct (JsObject.get header (fillCells row 0 headers JsObject.empty));
      simpl in H; [|discriminate].
    injection H as ->. reflexivity.
Qed.

(** Two columns named 備註, a column named __proto__ and a row that stops
    before the last column. *)
Lemma customer_holds_last_column_witness :
  exists rowData,
    rowDataOf slashDate year2024 ["初次到店"; "備註"; "__proto__"; "備註"; "金額"]
      0 None (Some 4) 1 ["2024/03/15"; "甲"; "丙"; "乙"] = Some rowData
    /\ JsObject.keys
         (customerObject ["初次到店"; "備註"; "__proto__"; "備註"; "金額"] rowData)
       = ["初次到店"; "備註"; "金額"]
    /\ JsObject.get "備註"
         (customerObject ["初次到店"; "備註"; "__proto__"; "備註"; "金額"] rowData)
       = Some "乙"
    /\ JsObject.get "金額"
         (customerObject ["初次到店"; "備註"; "__proto__"; "備註"; "金額"] rowData)
       = Some "".
Proof.
  destruct (rowDataOf slashDate year2024
              ["初次到店"; "備註"; "__proto__"; "備註"; "金額"] 0 None
              (Some 4) 1 ["2024/03/15"; "甲"; "丙"; "乙"]) as [rowData|] eqn:E;
    [|vm_compute in E; discriminate].
  destruct (customer_holds_last_column slashDate year2024
              ["初次到店"; "備註"; "__proto__"; "備註"; "金額"] 0 None (Some 4) 1
              ["2024/03/15"; "甲"; "丙"; "乙"] rowData E) as [_ [Hkeys Hget]].
  exists rowData. split; [reflexivity|]. split; [|split].
  - apply Hkeys.
    intros header [<-|[<-|[<-|[<-|[<-|[]]]]]]; reflexivity.
  - apply (Hget 3 "備註" eq_refl); [discriminate|].
    intros [|[|[|[|[|[|j']]]]]] Hlt; simpl; try lia; discriminate.
  - apply (Hget 4 "金額" eq_refl); [discriminate|].
    intros [|[|[|[|[|[|j']]]]]] Hlt; simpl; try lia; discriminate.
Defined.

(** *** What an analysis changes in the state *)

Lemma filteredRowsFrom_none newDate range headers dateColumnIndex status amount :
  forall rows i,
    (forall row j, In row rows ->
       rowDataOf newDate range headers dateColumnIndex status amount j row = None) ->
    filteredRowsFrom newDate range headers dateColumnIndex status amount i rows = [].
Proof.
  induction rows as [|row rows IH]; intros i H; simpl; [reflexivity|].
  rewrite (H row i (or_introl eq_refl)). apply IH.
  intros r j Hr. apply H. now right.
Qed.

Lemma filteredRowsFrom_some newDate range headers dateColumnIndex status amount :
  forall rows i row,
    In row rows ->
    (forall j, rowDataOf newDate range headers dateColumnIndex status amount j row
               <> None) ->
    filteredRowsFrom newDate range headers dateColumnIndex status amount i rows <> [].
Proof.
  induction rows as [|row0 rows IH]; intros i row Hin Hrow; simpl; [destruct Hin|].
  destruct (rowDataOf newDate range headers dateColumnIndex status amount i row0)
    eqn:E; [discriminate|].
  destruct Hin as [->|Hin]; [now apply Hrow in E|].
  now apply (IH (S i) row).
Qed.

(** X16.  An analysis never changes the sheet, the window or the threshold, and
    the only error text it can set is the one about the missing date
    column.  When the date column is found and the filter keeps no data row,
    the analysis returns the state as it was, so the results of an earlier
    run stay in place; when the filter keeps a row, all five results are
    written, whatever they were: the totals and the monthly aggregate, and
    the salesperson, clinic, store and hearing-screening aggregates become
    those of the customer objects of the kept rows. *)
Theorem analysis_state_changes :
  forall (newDate : string -> option JsDate.t) (st : AppState),
    sheetData (performCustomerAnalysis newDate st) = sheetData st
    /\ dateRange (performCustomerAnalysis newDate st) = dateRange st
    /\ ptaThreshold (performCustomerAnalysis newDate st) = ptaThreshold st
    /\ (error (performCustomerAnalysis newDate st) = error st
        \/ error (performCustomerAnalysis newDate st)
           = "找不到日期相關欄位，請確認資料表包含初次到店日期")
    /\ (forall headers rows dateColumnIndex,
          sheetData st = Some {| values := headers :: rows |} ->
          JsArray.findIndex isDateHeader headers = Some dateColumnIndex ->
          ((forall row, In row rows ->
              passes newDate (dateRange st) headers row = false) ->
           performCustomerAnalysis newDate st = st)
          /\ ((exists row, In row rows
                 /\ passes newDate (dateRange st) headers row = true) ->
              forall customersArray,
                customersArray
                = customersArrayOf headers
                    (filteredRows newDate (dateRange st) headers
                       dateColumnIndex rows) ->
                customersArray <> []
                /\ option_map
                     (fun a => (CustomerAnalysis.totalCustomers a,
                                CustomerAnalysis.totalCompletedDeals a,
                                CustomerAnalysis.totalAmount a,
                                CustomerAnalysis.overallConversionRate a,
                                CustomerAnalysis.monthlyData a))
                     (customerAnalysis (performCustomerAnalysis newDate st))
                   = Some
                       (SalesmenPass.potentialCustomers
                          (SalesmenPass.run (ptaThreshold st) customersArray),
                        SalesmenPass.orders
                          (SalesmenPass.run (ptaThreshold st) customersArray),
                        SalesmenPass.revenue
                          (SalesmenPass.run (ptaThreshold st) customersArray),
                        SalesmenPass.overallConversionRate
                          (SalesmenPass.run (ptaThreshold st) customersArray),
                        MonthlyPass.sortedMonthlyData newDate (ptaThreshold st)
                          customersArray)
                /\ salesmenAnalysis (performCustomerAnalysis newDate st)
                   = Some (SalesmenPass.analysis
                             (SalesmenPass.run (ptaThreshold st) customersArray))
                /\ clinicAnalysis (performCustomerAnalysis newDate st)
                   = Some (ClinicPass.clinicArray (ptaThreshold st) customersArray)
                /\ storeReferralAnalysis (performCustomerAnalysis newDate st)
                   = Some (StorePass.storeArray (ptaThreshold st) customersArray)
                /\ hearingScreeningAnalysis (performCustomerAnalysis newDate st)
                   = Some (HearingPass.hearingArray newDate (ptaThreshold st)
                             customersArray))).
Proof.
  intros newDate st.
  assert (Hshape :
    performCustomerAnalysis newDate st = st
    \/ performCustomerAnalysis newDate st
       = setError "找不到日期相關欄位，請確認資料表包含初次到店日期" st
    \/ exists cs, performCustomerAnalysis newDate st = analysed newDate st cs).
  { unfold performCustomerAnalysis.
    destruct (sheetData st) as [sd|]; [|now left].
    destruct (values sd) as [|headers [|row rows]]; [now left | now left|].
    destruct (JsArray.findIndex isDateHeader headers) as [idx|];
      [|right; now left].
    destruct (filteredRows newDate (dateRange st) headers idx (row :: rows));
      [now left | right; right; eexists; reflexivity]. }
  split; [|split; [|split; [|split]]].
  - destruct Hshape as [->|[->|[cs ->]]]; reflexivity.
  - destruct Hshape as [->|[->|[cs ->]]]; reflexivity.
  - destruct Hshape as [->|[->|[cs ->]]]; reflexivity.
  - destruct Hshape as [->|[->|[cs ->]]]; [now left | now right | now left].
  - intros headers rows idx Hsheet Hidx. split.
    + intros Hnone. unfold performCustomerAnalysis. rewrite Hsheet. cbn [values].
      destruct rows as [|row rows]; [reflexivity|]. rewrite Hidx.
      unfold filteredRows. rewrite filteredRowsFrom_none; [reflexivity|].
      intros r j Hr. apply rejected_rowDataOf; [exact Hidx | now apply Hnone].
    + intros [row [Hin Hpass]] customersArray ->.
      unfold performCustomerAnalysis. rewrite Hsheet. cbn [values].
      destruct rows as [|row0 rows]; [destruct Hin|]. rewrite Hidx.
      destruct (filteredRows newDate (dateRange st) headers idx (row0 :: rows))
        as [|rd rds] eqn:E.
      * exfalso. revert E. unfold filteredRows.
        apply (filteredRowsFrom_some _ _ _ _ _ _ _ _ row Hin).
        intros j Hn.
        assert (Hex : exists rowData,
                   rowDataOf newDate (dateRange st) headers idx
                     (JsArray.findIndex isStatusHeader headers)
                     (JsArray.findIndex isAmountHeader headers) j row
                   = Some rowData)
          by (apply passes_rowDataOf; assumption).
        destruct Hex as [rowData Hrd]. congruence.
      * split; [discriminate|]. repeat split.
Qed.

(** Scenario B in the window of 2024: the one row is rejected and the state
    stays.  Scenario A: the row is kept and the store aggregate is written,
    empty. *)
Lemma analysis_state_changes_witness :
  performCustomerAnalysis slashDate
    (initialState [scenarioHeaders; scenarioRow "2023/03/15"] year2024 (ofZ 40))
  = initialState [scenarioHeaders; scenarioRow "2023/03/15"] year2024 (ofZ 40)
  /\ storeReferralAnalysis
       (performCustomerAnalysis slashDate
          (initialState [scenarioHeaders; scenarioRow "2024/03/15"] year2024 (ofZ 40)))
     = Some [].
Proof.
  split.
  - refine (proj1 (proj2 (proj2 (proj2 (proj2
              (analysis_state_changes slashDate
                 (initialState [scenarioHeaders; scenarioRow "2023/03/15"]
                    year2024 (ofZ 40)))))) scenarioHeaders
              [scenarioRow "2023/03/15"] 0 eq_refl eq_refl) _).
    intros row [<-|[]]. vm_compute. reflexivity.
  - assert (Hpass : passes slashDate year2024 scenarioHeaders
                      (scenarioRow "2024/03/15") = true)
      by (vm_compute; reflexivity).
    destruct (proj2 (proj2 (proj2 (proj2 (proj2
                (analysis_state_changes slashDate
                   (initialState [scenarioHeaders; scenarioRow "2024/03/15"]
                      year2024 (ofZ 40)))))) scenarioHeaders
                [scenarioRow "2024/03/15"] 0 eq_refl eq_refl)
                (ex_intro _ (scenarioRow "2024/03/15")
                   (conj (or_introl eq_refl) Hpass)) _ eq_refl)
      as (_ & _ & _ & _ & Hstore & _).
    rewrite Hstore. vm_compute. reflexivity.
Defined.

(** *** The date column *)

Lemma findIndexFrom_spec {A : Type} (p : A -> bool) :
  forall (l : list A) (start i : nat),
    JsArray.findIndexFrom p start l = Some i <->
    exists j, i = start + j
              /\ (exists x, nth_error l j = Some x /\ p x = true)
              /\ forall j' y, j' < j -> nth_error l j' = Some y -> p y = false.
Proof.
  induction l as [|x l IH]; intros start i; simpl.
  - split; [discriminate|]. intros [j [_ [[y [Hy _]] _]]]. destruct j; discriminate.
  - destruct (p x) eqn:E.
    + split.
      * intros [= <-]. exists 0. split; [lia|]. split; [now exists x|].
        intros j' y Hlt. lia.
      * intros [j [-> [[y [Hy Hp]] Hlow]]]. destruct j as [|j]; [f_equal; lia|].
        rewrite (Hlow 0 x) in E by (simpl; (lia || reflexivity)). discriminate.
    + rewrite IH. split.
      * intros [j [-> [[y [Hy Hp]] Hlow]]]. exists (S j). split; [lia|].
        split; [now exists y|].
        intros [|j'] z Hlt Hz; simpl in Hz; [now injection Hz as <-|].
        apply (Hlow j' z); [lia | exact Hz].
      * intros [j [-> [[y [Hy Hp]] Hlow]]]. destruct j as [|j].
        { simpl in Hy. injection Hy as <-. congruence. }
        exists j. split; [lia|]. split; [now exists y|].
        intros j' z Hlt Hz. apply (Hlow (S j') z); [lia | exact Hz].
Qed.

(** X14.  The date column is the leftmost header that contains 初次到店, 日期 or
    Date: a header such as 服務日期 standing before 初次到店 is the one
    the filter reads. *)
Theorem date_column_is_leftmost :
  forall (headers : list string) (dateColumnIndex : nat),
    JsArray.findIndex isDateHeader headers = Some dateColumnIndex <->
    (exists header,
        nth_error headers dateColumnIndex = Some header
        /\ (JsString.includes "初次到店" header = true
            \/ JsString.includes "日期" header = true
            \/ JsString.includes "Date" header = true))
    /\ (forall j header,
          j < dateColumnIndex ->
          nth_error headers j = Some header ->
          JsString.includes "初次到店" header = false
          /\ JsString.includes "日期" header = false
          /\ JsString.includes "Date" header = false).
Proof.
  intros headers i. unfold JsArray.findIndex. rewrite findIndexFrom_spec.
  split.
  - intros [j [-> [[h [Hh Hp]] Hlow]]]. simpl. split.
    + exists h. split; [exact Hh|]. unfold isDateHeader in Hp.
      rewrite !orb_true_iff in Hp. tauto.
    + intros j' h' Hlt Hh'. specialize (Hlow j' h' Hlt Hh').
      unfold isDateHeader in Hlow. rewrite !orb_false_iff in Hlow. tauto.
  - intros [[h [Hh Hp]] Hlow]. exists i. split; [reflexivity|]. split.
    + exists h. split; [exact Hh|]. unfold isDateHeader.
      rewrite !orb_true_iff. tauto.
    + intros j' h' Hlt Hh'. destruct (Hlow j' h' Hlt Hh') as [H1 [H2 H3]].
      now apply isDateHeader_false.
Qed.

(** 服務日期 before 初次到店: the filter reads the service date. *)
Lemma date_column_is_leftmost_witness :
  JsArray.findIndex isDateHeader ["姓名"; "服務日期"; "初次到店"] = Some 1.
Proof.
  apply date_column_is_leftmost. split.
  - exists "服務日期". split; [reflexivity|]. right. left. reflexivity.
  - intros [|[|j]] header Hlt Hh; try lia.
    injection Hh as <-. repeat split; reflexivity.
Defined.

(** *** The threshold *)

Lemma gt_above (t1 t2 x : number) :
  notAbove t1 t2 = true -> gt x t2 = true -> gt x t1 = true.
Proof.
  unfold notAbove, gt, SFleb, SFltb.
  destruct t1 as [s1|s1| |s1 m1 e1], t2 as [s2|s2| |s2 m2 e2], x as [s3|s3| |s3 m3 e3];
    simpl; try discriminate; try reflexivity;
    try (destruct s1; simpl; try discriminate; try reflexivity);
    try (destruct s2; simpl; try discriminate; try reflexivity);
    try (destruct s3; simpl; try discriminate; try reflexivity).
  all: repeat match goal with
       | |- context [Z.compare ?a ?b] => destruct (Z.compare_spec a b); subst
       | |- context [PosDef.Pos.compare_cont Eq ?a ?b] =>
           change (PosDef.Pos.compare_cont Eq a b) with (Pos.compare a b);
           destruct (Pos.compare_spec a b); subst
       end; simpl; try discriminate; try reflexivity; try lia.
Qed.

(** X4.  Raising the PTA threshold never turns a row into a potential customer:
    a row that is potential at the higher threshold is potential at the
    lower one, so the global [totalCustomers] can only fall, while
    [totalCompletedDeals] does not depend on the threshold. *)
Theorem raising_threshold_only_removes :
  forall (lower higher : number) (customersArray : list Customer),
    notAbove lower higher = true ->
    (forall customer,
        SalesmenPass.isPotentialCustomer higher customer = true ->
        SalesmenPass.isPotentialCustomer lower customer = true)
    /\ SalesmenPass.potentialCustomers (SalesmenPass.run higher customersArray)
       <= SalesmenPass.potentialCustomers (SalesmenPass.run lower customersArray)
    /\ SalesmenPass.orders (SalesmenPass.run higher customersArray)
       = SalesmenPass.orders (SalesmenPass.run lower customersArray).
Proof.
  intros lower higher cs Hle.
  assert (Hmono : forall customer,
             SalesmenPass.isPotentialCustomer higher customer = true ->
             SalesmenPass.isPotentialCustomer lower customer = true).
  { intros c. unfold SalesmenPass.isPotentialCustomer.
    rewrite !orb_true_iff. intros [[H|H]|H].
    - left. left. now apply (gt_above lower higher).
    - left. right. now apply (gt_above lower higher).
    - now right. }
  split; [exact Hmono|]. split.
  - rewrite !potential_count. now apply filter_length_mono.
  - now rewrite !orders_count.
Qed.

(** Thresholds 40 and 60 on a row with a left-ear PTA of 65. *)
Lemma raising_threshold_only_removes_witness :
  SalesmenPass.isPotentialCustomer (ofZ 40) [("左耳PTA", "65")] = true.
Proof.
  apply (proj1 (raising_threshold_only_removes (ofZ 40) (ofZ 60) [] eq_refl)).
  reflexivity.
Defined.

(** *** The spreadsheet id *)

Lemma dropPrefix_app (p s r : string) :
  JsString.dropPrefix p s = Some r -> s = p ++ r.
Proof.
  revert s. induction p as [|a p IH]; intros s; simpl.
  - now intros [= ->].
  - destruct s as [|b s]; [discriminate|].
    destruct (Ascii.eqb a b) eqn:E; [|discriminate].
    apply Ascii.eqb_eq in E. subst b. intros H. now rewrite (IH s H).
Qed.

Lemma dropPrefix_prefix (p s : string) :
  String.prefix p s = false -> JsString.dropPrefix p s = None.
Proof.
  revert s. induction p as [|a p IH]; intros s; simpl;
    [intros H; destruct s; simpl in H; discriminate H|].
  destruct s as [|b s]; [reflexivity|].
  intros H. cbn [String.prefix] in H.
  destruct (ascii_dec a b) as [->|Hne].
  - rewrite Ascii.eqb_refl. now apply IH.
  - apply Ascii.eqb_neq in Hne. now rewrite Hne.
Qed.

Lemma prefix_app (p r : string) : String.prefix p (p ++ r) = true.
Proof.
  induction p as [|a p IH]; simpl; [now destruct r|].
  destruct (ascii_dec a a); [exact IH | contradiction].
Qed.

Lemma append_assoc' (a b c : string) : (a ++ b) ++ c = a ++ (b ++ c).
Proof. induction a as [|x a IH]; simpl; [reflexivity | now rewrite IH]. Qed.

Lemma spanId_spec (s : string) :
  allIdChars (fst (spanId s)) = true /\ s = fst (spanId s) ++ snd (spanId s).
Proof.
  induction s as [|c s [IH1 IH2]]; simpl; [now split|].
  destruct (isIdChar c) eqn:E; [|now split].
  destruct (spanId s) as [d r]. simpl in *. rewrite E, IH1.
  split; [reflexivity | now rewrite IH2 at 1].
Qed.

Lemma spanId_app (id rest : string) :
  allIdChars id = true ->
  match rest with String c _ => isIdChar c = false | EmptyString => True end ->
  spanId (id ++ rest) = (id, rest).
Proof.
  intros Hid Hrest. induction id as [|c id IH]; cbn [append spanId].
  - destruct rest as [|c rest]; [reflexivity|]. cbn [spanId]. now rewrite Hrest.
  - cbn [allIdChars] in Hid. apply andb_true_iff in Hid. destruct Hid as [Hc Hid].
    rewrite Hc, (IH Hid). reflexivity.
Qed.

Lemma includes_suffix (needle pre s : string) :
  JsString.includes needle s = true -> JsString.includes needle (pre ++ s) = true.
Proof.
  intros H. induction pre as [|c pre IH]; simpl; [exact H|].
  rewrite IH. apply orb_true_r.
Qed.

Lemma includes_prefix (needle s : string) :
  String.prefix needle s = true -> JsString.includes needle s = true.
Proof. destruct s; simpl; intros H; rewrite H; reflexivity. Qed.

Lemma regexSearch_some {A : Type} (at_head : string -> option A) (x : A) :
  forall s, regexSearch at_head s = Some x ->
            exists pre suf, s = pre ++ suf /\ at_head suf = Some x.
Proof.
  induction s as [|c s IH]; simpl.
  - destruct (at_head "") eqn:E; [|discriminate].
    intros [= <-]. now exists "", "".
  - destruct (at_head (String c s)) eqn:E.
    + intros [= <-]. now exists "", (String c s).
    + intros H. destruct (IH H) as [pre [suf [-> Hs]]].
      now exists (String c pre), suf.
Qed.

Lemma regexSearch_none {A : Type} (at_head : string -> option A) :
  forall s, (forall pre suf, s = pre ++ suf -> at_head suf = None) ->
            regexSearch at_head s = None.
Proof.
  induction s as [|c s IH]; intros H; simpl.
  - now rewrite (H "" "" eq_refl).
  - rewrite (H "" (String c s) eq_refl). apply IH.
    intros pre suf ->. now apply (H (String c pre) suf).
Qed.

Lemma includes_false_suffix (needle pre suf : string) :
  JsString.includes needle (pre ++ suf) = false -> String.prefix needle suf = false.
Proof.
  induction pre as [|c pre IH]; simpl.
  - destruct suf; simpl; [tauto|]. intros H. now apply orb_false_iff in H.
  - intros H. apply orb_false_iff in H. now apply IH.
Qed.

(** X19.  The spreadsheet id taken from a URL is a run of letters, digits, hyphens
    and underscores that stands right after /spreadsheets/d/ in the URL.
    A URL without that marker gives the empty id, which the submit handler
    answers with its error text instead of a request.  A URL of the usual
    form gives back the id it was built from. *)
Theorem spreadsheet_id_extraction :
  (forall url, allIdChars (extractSpreadsheetId url) = true)
  /\ (forall url,
        extractSpreadsheetId url <> "" ->
        JsString.includes ("/spreadsheets/d/" ++ extractSpreadsheetId url) url = true
        /\ handleSheetUrlSubmit url = FetchMetadata (extractSpreadsheetId url))
  /\ (forall url,
        JsString.includes "/spreadsheets/d/" url = false ->
        extractSpreadsheetId url = ""
        /\ handleSheetUrlSubmit url =
           SubmitError "Invalid Google Sheets URL. Please check the URL and try again.")
  /\ (forall id rest,
        id <> "" -> allIdChars id = true ->
        match rest with String c _ => isIdChar c = false | EmptyString => True end ->
        extractSpreadsheetId ("https://docs.google.com/spreadsheets/d/" ++ id ++ rest)
        = id).
Proof.
  split; [|split; [|split]].
  - intros url. unfold extractSpreadsheetId.
    destruct (regexSearch matchSpreadsheetId url) as [id|] eqn:E; [|reflexivity].
    destruct (regexSearch_some _ _ _ E) as [pre [suf [_ Hm]]].
    unfold matchSpreadsheetId in Hm.
    destruct (JsString.dropPrefix "/spreadsheets/d/" suf) as [r|]; [|discriminate].
    cbn [bindO] in Hm. pose proof (spanId_spec r) as [Hall _].
    destruct (spanId r) as [d r']. destruct (nonEmpty d); [|discriminate].
    now injection Hm as <-.
  - intros url Hne. unfold handleSheetUrlSubmit.
    destruct (extractSpreadsheetId url) as [|c id'] eqn:Eid; [congruence|].
    split; [|reflexivity].
    unfold extractSpreadsheetId in Eid.
    destruct (regexSearch matchSpreadsheetId url) as [id|] eqn:E; [|discriminate].
    subst id.
    destruct (regexSearch_some _ _ _ E) as [pre [suf [-> Hm]]].
    unfold matchSpreadsheetId in Hm.
    destruct (JsString.dropPrefix "/spreadsheets/d/" suf) as [r|] eqn:Hd;
      [|discriminate].
    cbn [bindO] in Hm. pose proof (spanId_spec r) as [_ Hr].
    destruct (spanId r) as [d r']. destruct (nonEmpty d); [|discriminate].
    injection Hm as ->. cbn [fst snd] in Hr.
    apply dropPrefix_app in Hd. subst suf r.
    apply includes_suffix, includes_prefix.
    rewrite <- append_assoc'. apply prefix_app.
  - intros url Hnone.
    assert (E : extractSpreadsheetId url = "").
    { unfold extractSpreadsheetId. rewrite regexSearch_none; [reflexivity|].
      intros pre suf ->. unfold matchSpreadsheetId.
      rewrite dropPrefix_prefix; [reflexivity|].
      now apply (includes_false_suffix _ pre). }
    split; [exact E|]. unfold handleSheetUrlSubmit. now rewrite E.
  - intros id rest Hne Hid Hrest. unfold extractSpreadsheetId.
    cbn [append regexSearch matchSpreadsheetId JsString.dropPrefix Ascii.eqb
         Bool.eqb bindO].
    rewrite (spanId_app id rest Hid Hrest).
    destruct id; [congruence | reflexivity].
Qed.

(** The URL of a sheet opened for editing. *)
Lemma spreadsheet_id_extraction_witness :
  extractSpreadsheetId
    "https://docs.google.com/spreadsheets/d/1AbC-d_9/edit#gid=0" = "1AbC-d_9".
Proof.
  apply (proj2 (proj2 (proj2 spreadsheet_id_extraction)) "1AbC-d_9" "/edit#gid=0");
    [discriminate | reflexivity | reflexivity].
Defined.

(** *** Running the analysis again, and logging out *)

Lemma perform_shape (newDate : string -> option JsDate.t) (st : AppState) :
  performCustomerAnalysis newDate st = st
  \/ (exists headers row rows,
        sheetData st = Some {| values := headers :: row :: rows |}
        /\ JsArray.findIndex isDateHeader headers = None
        /\ performCustomerAnalysis newDate st
           = setError "找不到日期相關欄位，請確認資料表包含初次到店日期" st)
  \/ exists headers dateColumnIndex rows,
       sheetData st = Some {| values := headers :: rows |}
       /\ JsArray.findIndex isDateHeader headers = Some dateColumnIndex
       /\ filteredRows newDate (dateRange st) headers dateColumnIndex rows <> []
       /\ performCustomerAnalysis newDate st
          = analysed newDate st
              (customersArrayOf headers
                 (filteredRows newDate (dateRange st) headers dateColumnIndex rows)).
Proof.
  unfold performCustomerAnalysis.
  destruct (sheetData st) as [[vs]|]; [|now left].
  cbn [values].
  destruct vs as [|headers [|row rows]]; [now left | now left|].
  destruct (JsArray.findIndex isDateHeader headers) as [idx|] eqn:Hidx.
  - destruct (filteredRows newDate (dateRange st) headers idx (row :: rows))
      as [|rd rds] eqn:E; [now left|].
    right. right. exists headers, idx, (row :: rows).
    split; [reflexivity|]. split; [exact Hidx|].
    split; [rewrite E; discriminate|]. now rewrite E.
  - right. left. exists headers, row, rows.
    split; [reflexivity|]. split; [exact Hidx | reflexivity].
Qed.

(** X17.  Running the analysis a second time on the state that the first run
    left gives that state again: the counters and sums start from zero in
    every run, so nothing is counted twice, and the results of a run do not
    depend on the results that were in the state before. *)
Theorem analysis_is_idempotent :
  forall (newDate : string -> option JsDate.t) (st : AppState),
    performCustomerAnalysis newDate (performCustomerAnalysis newDate st)
    = performCustomerAnalysis newDate st.
Proof.
  intros newDate st.
  destruct (perform_shape newDate st)
    as [E|[[headers [row [rows [Hsheet [Hidx E]]]]]
          |[headers [idx [rows [Hsheet [Hidx [Hne E]]]]]]]].
  - now rewrite !E.
  - rewrite E. unfold performCustomerAnalysis at 1.
    cbn [sheetData setError]. rewrite Hsheet. cbn [values]. rewrite Hidx.
    reflexivity.
  - rewrite E. unfold performCustomerAnalysis at 1.
    cbn [sheetData analysed]. rewrite Hsheet. cbn [values].
    destruct rows as [|row rows]; [now destruct Hne|].
    rewrite Hidx. cbn [dateRange analysed].
    destruct (filteredRows newDate (dateRange st) headers idx (row :: rows))
      as [|rd rds]; [now destruct Hne|].
    reflexivity.
Qed.

(** X18.  Logging out clears the analysis result and the salesperson, clinic and
    store aggregates, and keeps the hearing-screening aggregate (with the
    window and the threshold); an analysis on the logged-out state changes
    nothing, and after a new sheet arrives an analysis that keeps no row
    still leaves the hearing-screening aggregate of the earlier session in
    the state, beside an empty analysis result. *)
Theorem logout_keeps_hearing_results :
  forall (newDate : string -> option JsDate.t) (st : AppState),
    results (handleLogout st)
    = (None, None, None, None, hearingScreeningAnalysis st)
    /\ performCustomerAnalysis newDate (handleLogout st) = handleLogout st
    /\ forall headers rows dateColumnIndex,
         JsArray.findIndex isDateHeader headers = Some dateColumnIndex ->
         (forall row, In row rows ->
            passes newDate (dateRange st) headers row = false) ->
         results
           (performCustomerAnalysis newDate
              (setSheetData (headers :: rows) (handleLogout st)))
         = (None, None, None, None, hearingScreeningAnalysis st).
Proof.
  intros newDate st. split; [reflexivity|]. split; [reflexivity|].
  intros headers rows idx Hidx Hnone.
  unfold performCustomerAnalysis. cbn [sheetData setSheetData values].
  destruct rows as [|row rows]; [reflexivity|]. rewrite Hidx.
  cbn [dateRange handleLogout]. unfold filteredRows.
  rewrite filteredRowsFrom_none; [reflexivity|].
  intros r j Hr. apply rejected_rowDataOf; [exact Hidx | now apply Hnone].
Qed.

(** After scenario A with a campaign source, logging out and analysing a
    sheet whose one row lies outside the window. *)
Lemma logout_keeps_hearing_results_witness :
  results
    (performCustomerAnalysis slashDate
       (setSheetData [scenarioHeaders; scenarioRow "2023/03/15"]
          (handleLogout
             (performCustomerAnalysis slashDate
                (initialState [referralHeaders; referralRow "2024/03/15"]
                   year2024 (ofZ 40))))))
  = (None, None, None, None,
     hearingScreeningAnalysis
       (performCustomerAnalysis slashDate
          (initialState [referralHeaders; referralRow "2024/03/15"]
             year2024 (ofZ 40)))).
Proof.
  refine (proj2 (proj2 (logout_keeps_hearing_results slashDate
            (performCustomerAnalysis slashDate
               (initialState [referralHeaders; referralRow "2024/03/15"]
                  year2024 (ofZ 40)))))
            scenarioHeaders [scenarioRow "2023/03/15"] 0 eq_refl _).
  intros row [<-|[]]. vm_compute. reflexivity.
Defined.

(** *** The sums of amounts are never NaN *)

Lemma shr_1_nonneg (mrs : shr_record) :
  (0 <= shr_m mrs)%Z -> (0 <= shr_m (shr_1 mrs))%Z.
Proof.
  destruct mrs as [m r s]. simpl.
  destruct m as [|p|p]; simpl; try lia; destruct p; simpl; lia.
Qed.

Lemma iter_pos_invariant {A : Type} (f : A -> A) (P : A -> Prop) :
  (forall x, P x -> P (f x)) -> forall p x, P x -> P (iter_pos f p x).
Proof.
  intros Hf. induction p as [p IH|p IH|]; intros x Hx; simpl; auto.
Qed.

Lemma shr_nonneg (mrs : shr_record) (e n : Z) :
  (0 <= shr_m mrs)%Z -> (0 <= shr_m (fst (shr mrs e n)))%Z.
Proof.
  intros H. unfold shr. destruct n; simpl; auto.
  apply iter_pos_invariant; auto using shr_1_nonneg.
Qed.

Lemma shr_record_of_loc_m (m : Z) (l : location) :
  shr_m (shr_record_of_loc m l) = m.
Proof. destruct l as [|[]]; reflexivity. Qed.

Lemma round_nearest_even_nonneg (m : Z) (l : location) :
  (0 <= m)%Z -> (0 <= round_nearest_even m l)%Z.
Proof.
  intros H. unfold round_nearest_even.
  destruct l as [|[]]; try lia. destruct (Z.even m); lia.
Qed.

Lemma round_isNonNegative (mx ex : Z) (lx : location) :
  (0 <= mx)%Z -> isNonNegative (binary_round_aux prec emax false mx ex lx) = true.
Proof.
  intros H. unfold binary_round_aux, shr_fexp.
  pose proof (shr_nonneg (shr_record_of_loc mx lx) ex
                (fexp prec emax (Zdigits2 mx + ex) - ex)) as H1.
  rewrite shr_record_of_loc_m in H1. specialize (H1 H).
  destruct (shr (shr_record_of_loc mx lx) ex _) as [mrs' e']. simpl in H1.
  set (m2 := round_nearest_even (shr_m mrs') (loc_of_shr_record mrs')).
  assert (H2 : (0 <= m2)%Z) by (apply round_nearest_even_nonneg; exact H1).
  pose proof (shr_nonneg (shr_record_of_loc m2 loc_Exact) e'
                (fexp prec emax (Zdigits2 m2 + e') - e')) as H3.
  rewrite shr_record_of_loc_m in H3. specialize (H3 H2).
  destruct (shr (shr_record_of_loc m2 loc_Exact) e' _) as [mrs'' e'']. simpl in H3.
  destruct (shr_m mrs''); try reflexivity; [|lia].
  destruct (e'' <=? emax - prec)%Z; reflexivity.
Qed.

Lemma add_isNonNegative (a b : number) :
  isNonNegative a = true -> isNonNegative b = true ->
  isNonNegative (add a b) = true.
Proof.
  unfold add.
  destruct a as [[]|[]| |[] m1 e1], b as [[]|[]| |[] m2 e2]; simpl;
    try discriminate; try reflexivity.
  intros _ _. unfold binary_normalize.
  destruct (shl_align m1 e1 (Z.min e1 e2)) as [m1' e1'].
  destruct (shl_align m2 e2 (Z.min e1 e2)) as [m2' e2']. simpl.
  unfold binary_round. destruct (shl_align _ _ _) as [mz ez].
  apply round_isNonNegative. lia.
Qed.

Lemma validAmount_isNonNegative (amount : number) :
  validAmount amount = true -> isNonNegative amount = true.
Proof.
  unfold validAmount, gt, SFltb.
  destruct amount as [[]|[]| |[] m e]; simpl; try discriminate; reflexivity.
Qed.

Lemma amount_fold_nonneg :
  forall customers (acc : number * number),
    isNonNegative (fst acc) = true -> isNonNegative (snd acc) = true ->
    isNonNegative (fst (fold_left SalesmenPass.amountStep customers acc)) = true
    /\ isNonNegative (snd (fold_left SalesmenPass.amountStep customers acc)) = true.
Proof.
  induction customers as [|c customers IH]; intros [a r] Ha Hr; simpl in *;
    [now split|].
  apply IH.
  - destruct (SalesmenPass.isDealt c && validAmount _) eqn:E; simpl; [|exact Ha].
    apply andb_true_iff in E. destruct E as [_ Hv].
    apply add_isNonNegative; [exact Ha | now apply validAmount_isNonNegative].
  - destruct (SalesmenPass.isDealt c && validAmount _) eqn:E; simpl; [|exact Hr].
    apply andb_true_iff in E. destruct E as [_ Hv].
    apply add_isNonNegative; [exact Hr | now apply validAmount_isNonNegative].
Qed.

Lemma revenue_fold_nonneg (cs : list Customer) :
  forall ks (sa : JsObject.t Salesman.t) rev,
    Forall (fun kv => isNonNegative (Salesman.當季業績累積 (snd kv)) = true) sa ->
    isNonNegative rev = true ->
    Forall (fun kv => isNonNegative (Salesman.當季業績累積 (snd kv)) = true)
      (fst (fold_left (SalesmenPass.revenueStep cs) ks (sa, rev)))
    /\ isNonNegative (snd (fold_left (SalesmenPass.revenueStep cs) ks (sa, rev)))
       = true.
Proof.
  induction ks as [|k ks IH]; intros sa rev Hsa Hrev; cbn [fold_left];
    [now split|].
  destruct (SalesmenPass.revenueStep cs (sa, rev) k) as [sa' rev'] eqn:E.
  unfold SalesmenPass.revenueStep in E.
  pose proof (amount_fold_nonneg
                (filter (fun customer =>
                           String.eqb (SalesmenPass.salesmanOf customer) k) cs)
                (zero, rev) eq_refl Hrev) as [Ha Hr].
  destruct (fold_left SalesmenPass.amountStep _ _) as [amount rev''] in E, Ha, Hr.
  injection E as <- <-. simpl in Ha, Hr.
  apply IH; [|exact Hr].
  apply (Forall_adjust (fun b => isNonNegative (Salesman.當季業績累積 b) = true));
    [intros b _; exact Ha | exact Hsa].
Qed.

Lemma count_preserves (P : Salesman.t -> Prop) (threshold : number) :
  (forall b, P b -> P (SalesmenPass.incPotential b)) ->
  (forall b, P b -> P (SalesmenPass.incOrders b)) ->
  forall cs acc,
    Forall (fun kv => P (snd kv)) (SalesmenPass.entries acc) ->
    Forall (fun kv => P (snd kv))
      (SalesmenPass.entries (fold_left (SalesmenPass.countStep threshold) cs acc)).
Proof.
  intros Hp Ho. induction cs as [|c cs IH]; intros acc Hacc; simpl; [exact Hacc|].
  apply IH. unfold SalesmenPass.countStep.
  destruct (SalesmenPass.isPotentialCustomer threshold c);
    destruct (SalesmenPass.isDealt c); simpl;
    repeat (apply Forall_adjust; [assumption|]); exact Hacc.
Qed.

Lemma monthly_fold_nonneg newDate threshold :
  forall cs md,
    Forall (fun kv => isNonNegative (MonthlyReport.totalAmount (snd kv)) = true) md ->
    Forall (fun kv => isNonNegative (MonthlyReport.totalAmount (snd kv)) = true)
      (fold_left (MonthlyPass.step newDate threshold) cs md).
Proof.
  induction cs as [|c cs IH]; intros md Hmd; simpl; [exact Hmd|].
  apply IH. unfold MonthlyPass.step.
  destruct (negb (JsString.truthy (serviceDateOf c))); [exact Hmd|].
  destruct (newDate (serviceDateOf c)) as [date|]; [|exact Hmd].
  set (P := fun b => isNonNegative (MonthlyReport.totalAmount b) = true).
  assert (H0 : Forall (fun kv => P (snd kv))
                 match JsObject.read (monthKeyOf date) md with
                 | JsObject.Undefined =>
                     JsObject.set (monthKeyOf date)
                       (MonthlyPass.fresh (monthKeyOf date)
                          (JsDate.getFullYear date)) md
                 | _ => md
                 end).
  { destruct (JsObject.read (monthKeyOf date) md); try exact Hmd.
    apply Forall_set; [reflexivity | exact Hmd]. }
  unfold MonthlyPass.tally.
  destruct (validAmount _) eqn:Hv;
    destruct (MonthlyPass.isDealt c);
    destruct (MonthlyPass.isPotential threshold c);
    repeat (apply (Forall_adjust P);
            [first [ intros b Hb; exact Hb
                   | intros b Hb; unfold P; simpl; apply add_isNonNegative;
                     [exact Hb | now apply validAmount_isNonNegative] ]|]);
    exact H0.
Qed.

Lemma clinic_fold_nonneg threshold :
  forall customersArray cs,
    Forall (fun kv => isNonNegative (Clinic.totalAmount (snd kv)) = true) cs ->
    Forall (fun kv => isNonNegative (Clinic.totalAmount (snd kv)) = true)
      (fold_left (ClinicPass.step threshold) customersArray cs).
Proof.
  induction customersArray as [|c rest IH]; intros cs Hcs; simpl; [exact Hcs|].
  apply IH. unfold ClinicPass.step.
  destruct (negb (JsString.truthy (JsString.trim _))); [exact Hcs|].
  set (name := JsString.trim _).
  set (P := fun b => isNonNegative (Clinic.totalAmount b) = true).
  assert (H0 : Forall (fun kv => P (snd kv))
                 match JsObject.read name cs with
                 | JsObject.Undefined =>
                     JsObject.set name (ClinicPass.fresh name) cs
                 | _ => cs
                 end).
  { destruct (JsObject.read name cs); try exact Hcs.
    apply Forall_set; [reflexivity | exact Hcs]. }
  unfold ClinicPass.tally.
  destruct (validAmount _) eqn:Hv;
    destruct (ClinicPass.isDealt c);
    destruct (ClinicPass.isPotential threshold c);
    repeat (apply (Forall_adjust P);
            [first [ intros b Hb; exact Hb
                   | intros b Hb; unfold P; simpl; apply add_isNonNegative;
                     [exact Hb | now apply validAmount_isNonNegative] ]|]);
    exact H0.
Qed.

Lemma hearing_fold_nonneg newDate threshold :
  forall customersArray hs,
    Forall (fun kv => isNonNegative (Hearing.totalAmount (snd kv)) = true) hs ->
    Forall (fun kv => isNonNegative (Hearing.totalAmount (snd kv)) = true)
      (fold_left (HearingPass.step newDate threshold) customersArray hs).
Proof.
  induction customersArray as [|c rest IH]; intros hs Hhs; simpl; [exact Hhs|].
  apply IH. unfold HearingPass.step.
  destruct (negb (JsString.includes "聽篩" (HearingPass.sourceVal c))); [exact Hhs|].
  destruct (negb (JsString.truthy (serviceDateOf c))); [exact Hhs|].
  destruct (newDate (serviceDateOf c)) as [date|]; [|exact Hhs].
  set (P := fun b => isNonNegative (Hearing.totalAmount b) = true).
  assert (H0 : Forall (fun kv => P (snd kv))
                 match JsObject.read (monthKeyOf date) hs with
                 | JsObject.Undefined =>
                     JsObject.set (monthKeyOf date)
                       (HearingPass.fresh (monthKeyOf date)
                          (JsDate.getFullYear date)) hs
                 | _ => hs
                 end).
  { destruct (JsObject.read (monthKeyOf date) hs); try exact Hhs.
    apply Forall_set; [reflexivity | exact Hhs]. }
  unfold HearingPass.tally.
  destruct (validAmount _) eqn:Hv;
    destruct (HearingPass.isDealtHS c);
    destruct (gt (getEarPTA c "左") threshold || gt (getEarPTA c "右") threshold);
    cbn [orb];
    repeat (apply (Forall_adjust P);
            [first [ intros b Hb; exact Hb
                   | intros b Hb; unfold P; simpl; apply add_isNonNegative;
                     [exact Hb | now apply validAmount_isNonNegative] ]|]);
    exact H0.
Qed.

(** X10.  No sum of amounts is ever NaN or negative, whatever the cells hold: the
    global revenue, the revenue of every salesperson and the [totalAmount]
    of every monthly, clinic and hearing-screening entry are +0, a positive
    number or +Infinity. *)
Theorem amount_sums_never_nan :
  forall (newDate : string -> option JsDate.t) (threshold : number)
         (customersArray : list Customer),
    isNonNegative (SalesmenPass.revenue (SalesmenPass.run threshold customersArray))
    = true
    /\ (forall salesman data,
          In (salesman, data)
             (SalesmenPass.analysis (SalesmenPass.run threshold customersArray)) ->
          isNonNegative (Salesman.當季業績累積 data) = true)
    /\ (forall data,
          In data (MonthlyPass.sortedMonthlyData newDate threshold customersArray) ->
          isNonNegative (MonthlyReport.totalAmount data) = true)
    /\ (forall data,
          In data (ClinicPass.clinicArray threshold customersArray) ->
          isNonNegative (Clinic.totalAmount data) = true)
    /\ (forall data,
          In data (HearingPass.hearingArray newDate threshold customersArray) ->
          isNonNegative (Hearing.totalAmount data) = true).
Proof.
  intros newDate threshold cs.
  assert (Hrev :
    Forall (fun kv => isNonNegative (Salesman.當季業績累積 (snd kv)) = true)
      (fst (SalesmenPass.withRevenue cs
              (SalesmenPass.entries (SalesmenPass.counted threshold cs))))
    /\ isNonNegative
         (snd (SalesmenPass.withRevenue cs
                 (SalesmenPass.entries (SalesmenPass.counted threshold cs))))
       = true).
  { unfold SalesmenPass.withRevenue. apply revenue_fold_nonneg; [|reflexivity].
    unfold SalesmenPass.counted.
    apply (count_preserves
             (fun b => isNonNegative (Salesman.當季業績累積 b) = true));
      [intros b Hb; exact Hb | intros b Hb; exact Hb|].
    simpl.
    apply (init_invariant
             (fun b => isNonNegative (Salesman.當季業績累積 b) = true));
      [reflexivity | constructor]. }
  destruct Hrev as [Hentries Htotal].
  split; [|split; [|split; [|split]]].
  - unfold SalesmenPass.run.
    destruct (SalesmenPass.withRevenue cs _) as [sa rev]. exact Htotal.
  - intros salesman data Hin. unfold SalesmenPass.run in Hin.
    destruct (SalesmenPass.withRevenue cs _) as [sa rev]. simpl in Hin, Hentries.
    assert (H : Forall (fun kv => isNonNegative (Salesman.當季業績累積 (snd kv)) = true)
                  (JsObject.forEachValue SalesmenPass.deriveRate sa)).
    { apply Forall_forEachValue
        with (P := fun b => isNonNegative (Salesman.當季業績累積 b) = true)
           (Q := fun b => isNonNegative (Salesman.當季業績累積 b) = true);
        [|exact Hentries].
      intros b Hb. unfold SalesmenPass.deriveRate.
      destruct (0 <? Salesman.潛力客戶數 b)%nat; exact Hb. }
    rewrite Forall_forall in H. exact (H _ Hin).
  - intros data Hin. apply In_sort in Hin. revert data Hin.
    apply (Forall_values
             (fun b => isNonNegative (MonthlyReport.totalAmount b) = true)).
    unfold MonthlyPass.customerMonthlyData.
    apply Forall_forEachValue
      with (P := fun b => isNonNegative (MonthlyReport.totalAmount b) = true)
           (Q := fun b => isNonNegative (MonthlyReport.totalAmount b) = true);
      [intros b Hb; exact Hb|].
    apply monthly_fold_nonneg. constructor.
  - intros data Hin. apply In_sort in Hin. revert data Hin.
    apply (Forall_values (fun b => isNonNegative (Clinic.totalAmount b) = true)).
    unfold ClinicPass.clinicSummary.
    apply Forall_forEachValue
      with (P := fun b => isNonNegative (Clinic.totalAmount b) = true)
           (Q := fun b => isNonNegative (Clinic.totalAmount b) = true);
      [intros b Hb; exact Hb|].
    apply clinic_fold_nonneg. constructor.
  - intros data Hin. apply In_sort in Hin. revert data Hin.
    apply (Forall_values (fun b => isNonNegative (Hearing.totalAmount b) = true)).
    unfold HearingPass.hearingSummary.
    apply Forall_forEachValue
      with (P := fun b => isNonNegative (Hearing.totalAmount b) = true)
           (Q := fun b => isNonNegative (Hearing.totalAmount b) = true);
      [intros b Hb; exact Hb|].
    apply hearing_fold_nonneg. constructor.
Qed.

(** *** The second date format *)

(** X13.  A date cell of the form two digits, separator, two digits, separator,
    four digits is read by the second format with the first field as the
    month and the second as the day, whatever the fields hold, and the host
    is not consulted: a day-first text such as 15/03/2024 is taken as month
    15, which the Date constructor carries over into the next year. *)
Theorem date_format1_month_first :
  forall (newDate : string -> option JsDate.t)
         (a1 a2 s1 b1 b2 s2 y1 y2 y3 y4 : ascii),
    JsString.isDigit a1 = true -> JsString.isDigit a2 = true ->
    JsString.isDigit b1 = true -> JsString.isDigit b2 = true ->
    JsString.isDigit y1 = true -> JsString.isDigit y2 = true ->
    JsString.isDigit y3 = true -> JsString.isDigit y4 = true ->
    (s1 = "/"%char \/ s1 = "-"%char) ->
    (s2 = "/"%char \/ s2 = "-"%char) ->
    anchorDate newDate
      (String a1 (String a2 (String s1 (String b1 (String b2 (String s2
        (String y1 (String y2 (String y3 (String y4 ""))))))))))
    = Some (JsDate.make
              (JsString.digitsValue (String y1 (String y2 (String y3 (String y4 "")))))
              (JsString.digitsValue (String a1 (String a2 "")) - 1)
              (JsString.digitsValue (String b1 (String b2 "")))).
Proof.
  intros newDate a1 a2 s1 b1 b2 s2 y1 y2 y3 y4
         Ha1 Ha2 Hb1 Hb2 Hy1 Hy2 Hy3 Hy4 Hs1 Hs2.
  assert (Hslash : JsString.isDigit "/" = false) by reflexivity.
  assert (Hdash : JsString.isDigit "-" = false) by reflexivity.
  unfold anchorDate, structuralDate.
  assert (H0 : regexSearch matchFormat0
                 (String a1 (String a2 (String s1 (String b1 (String b2 (String s2
                   (String y1 (String y2 (String y3 (String y4 ""))))))))))
               = None).
  { destruct Hs1 as [-> | ->]; destruct Hs2 as [-> | ->];
      unfold matchFormat0, group4;
      repeat (cbn [regexSearch JsString.takeDigits String.length Nat.eqb bindO
                   dateSep];
              rewrite ?Ha1, ?Ha2, ?Hb1, ?Hb2, ?Hy1, ?Hy2, ?Hy3, ?Hy4,
                ?Hslash, ?Hdash);
      reflexivity. }
  rewrite H0.
  assert (H1 : regexSearch matchFormat1
                 (String a1 (String a2 (String s1 (String b1 (String b2 (String s2
                   (String y1 (String y2 (String y3 (String y4 ""))))))))))
               = Some (String a1 (String a2 ""), String b1 (String b2 ""),
                       String y1 (String y2 (String y3 (String y4 ""))))).
  { cbn [regexSearch]. unfold matchFormat1, group12.
    cbn [JsString.takeDigits]. rewrite Ha1, Ha2.
    cbn [nonEmpty JsString.truthy bindO].
    rewrite (dateSep_cases s1 _ Hs1). cbn [bindO JsString.takeDigits].
    rewrite Hb1, Hb2. cbn [nonEmpty JsString.truthy bindO].
    rewrite (dateSep_cases s2 _ Hs2). cbn [bindO]. unfold group4.
    cbn [JsString.takeDigits]. rewrite Hy1, Hy2, Hy3, Hy4. reflexivity. }
  rewrite H1. reflexivity.
Qed.

(** A day-first date lands in March of the next year. *)
Lemma date_format1_month_first_witness :
  anchorDate slashDate "15/03/2024" = Some (JsDate.make 2025 2 3).
Proof.
  apply (date_format1_month_first slashDate "1" "5" "/" "0" "3" "/"
           "2" "0" "2" "4"); try reflexivity; auto.
Defined.
